(** * Stella audio resampling and console glue: a shallow embedding

    The development follows the C++ sources
    - [src/common/audio/ConvolutionBuffer.cxx]
    - [src/common/audio/LanczosResampler.cxx]
    - [src/emucore/Console.cxx]
    and proves properties of the functions found there.

    Conventions.  A [uInt32] is a [Z] in [0, 2^32) and every arithmetic
    operation that can leave the range is followed by [wrap32].  A C++
    [float] is an IEEE-754 binary32 number, taken from the standard
    library's [SpecFloat] (precision 24, maximal exponent 128, rounding to
    nearest even).  Arrays are lists, read with [!!] and written with
    [<[ i := v ]>]. *)

From Stdlib Require Import ZArith Lia Floats.SpecFloat.
From Stdlib Require Strings.Byte.
From stdpp Require Import base list strings.
From stdpp Require Import pretty.

#[local] Open Scope Z_scope.

(** ** Machine integers *)

Definition wrap32 (z : Z) : Z := z mod 2 ^ 32.

Definition is_uInt32 (z : Z) : Prop := 0 <= z < 2 ^ 32.

(** ** Single precision floats *)

Module F32.

Definition prec : Z := 24.
Definition emax : Z := 128.

Definition float : Type := spec_float.

Definition zero : float := S754_zero false.
Definition add : float -> float -> float := SFadd prec emax.
Definition mul : float -> float -> float := SFmul prec emax.
Definition sub : float -> float -> float := SFsub prec emax.
Definition div : float -> float -> float := SFdiv prec emax.

(** [static_cast<float>(z)] for an integer [z]. *)
Definition of_Z (z : Z) : float := binary_normalize prec emax z 0 false.

End F32.

Abbreviation float := F32.float.

(** ** ConvolutionBuffer.cxx *)

Record ConvolutionBuffer : Type := {
  myData : list float;
  myFirstIndex : Z;
  mySize : Z
}.

(** [ConvolutionBuffer::ConvolutionBuffer(uInt32 size)]: [size] floats, all
    bytes zeroed by [memset]. *)
Definition ConvolutionBuffer_new (size : Z) : ConvolutionBuffer :=
  {| myData := replicate (Z.to_nat size) F32.zero;
     myFirstIndex := 0;
     mySize := size |}.

(** [void ConvolutionBuffer::shift(float nextValue)] *)
Definition shift (nextValue : float) (b : ConvolutionBuffer) : ConvolutionBuffer :=
  {| myData := <[ Z.to_nat (myFirstIndex b) := nextValue ]> (myData b);
     myFirstIndex := wrap32 (myFirstIndex b + 1) mod mySize b;
     mySize := mySize b |}.

(** Reading [a[i]]; the default stands for an access outside the array,
    which the well-formedness conditions below exclude. *)
Definition rd (a : list float) (i : Z) : float :=
  default F32.zero (a !! Z.to_nat i).

(** The body of the [for] loop of [convoluteWith], run for the [n]
    remaining values of [i]. *)
Fixpoint convolute_loop (b : ConvolutionBuffer) (kernel : list float)
    (n : nat) (i : Z) (result : float) : float :=
  match n with
  | O => result
  | S n' =>
      convolute_loop b kernel n' (i + 1)
        (F32.add result
           (F32.mul (rd kernel i)
                    (rd (myData b) (wrap32 (myFirstIndex b + i) mod mySize b))))
  end.

(** [float ConvolutionBuffer::convoluteWith(float* kernel) const] *)
Definition convoluteWith (b : ConvolutionBuffer) (kernel : list float) : float :=
  convolute_loop b kernel (Z.to_nat (mySize b)) 0 F32.zero.

(** The invariant the constructor establishes and [shift] keeps.  The size
    is positive ([shift] divides by it) and at most [2^31], so that the
    [uInt32] sum [myFirstIndex + i] of two indices does not wrap. *)
Record buffer_wf (b : ConvolutionBuffer) : Prop := {
  wf_size_pos : 0 < mySize b <= 2 ^ 31;
  wf_length : Z.of_nat (length (myData b)) = mySize b;
  wf_first : 0 <= myFirstIndex b < mySize b
}.

(** The stored samples in order of age, oldest first: the array read from
    [myFirstIndex] on, wrapping around. *)
Definition samples (b : ConvolutionBuffer) : list float :=
  drop (Z.to_nat (myFirstIndex b)) (myData b)
    ++ take (Z.to_nat (myFirstIndex b)) (myData b).

(** Left-to-right single precision dot product, starting from [0.f]. *)
Definition dot_from (acc : float) (k xs : list float) : float :=
  fold_left (fun r p => F32.add r (F32.mul (fst p) (snd p))) (zip k xs) acc.

Definition dot (k xs : list float) : float := dot_from F32.zero k xs.

(** ** Properties of the convolution buffer *)

Section ConvolutionBufferFacts.

Implicit Types (b : ConvolutionBuffer) (k : list float) (v : float).

Lemma samples_length b :
  buffer_wf b -> length (samples b) = Z.to_nat (mySize b).
Proof.
  intros [Hs Hl Hf]. unfold samples.
  rewrite length_app, length_drop, length_take. lia.
Qed.

(** The [i]-th oldest sample sits at index [(myFirstIndex + i) % mySize]. *)
Lemma samples_lookup b (i : Z) :
  buffer_wf b -> 0 <= i < mySize b ->
  samples b !! Z.to_nat i
    = myData b !! Z.to_nat (wrap32 (myFirstIndex b + i) mod mySize b).
Proof.
  intros [Hs Hl Hf] Hi. unfold samples, wrap32.
  rewrite (Z.mod_small (myFirstIndex b + i)) by lia.
  destruct (Z_lt_ge_dec (myFirstIndex b + i) (mySize b)) as [Hlt | Hge].
  - rewrite Z.mod_small by lia.
    rewrite lookup_app_l by (rewrite length_drop; lia).
    rewrite lookup_drop. f_equal. lia.
  - replace ((myFirstIndex b + i) mod mySize b)
      with (myFirstIndex b + i - mySize b).
    2:{ apply Z.mod_unique with (q := 1); lia. }
    rewrite lookup_app_r by (rewrite length_drop; lia).
    rewrite length_drop, lookup_take_lt by lia. f_equal. lia.
Qed.

Lemma dot_from_nil_r acc k : dot_from acc k [] = acc.
Proof. unfold dot_from. by destruct k. Qed.

Lemma dot_from_cons acc y k x xs :
  dot_from acc (y :: k) (x :: xs) = dot_from (F32.add acc (F32.mul y x)) k xs.
Proof. reflexivity. Qed.

Lemma convolute_loop_dot b k (n : nat) (i : Z) acc :
  buffer_wf b -> mySize b <= Z.of_nat (length k) ->
  0 <= i -> i + Z.of_nat n = mySize b ->
  convolute_loop b k n i acc
    = dot_from acc (drop (Z.to_nat i) k) (drop (Z.to_nat i) (samples b)).
Proof.
  intros Hwf Hk. revert i acc.
  induction n as [| n IH]; intros i acc Hi Hn; simpl.
  - rewrite (drop_ge (samples b)), dot_from_nil_r; [done |].
    rewrite samples_length by done. lia.
  - assert (is_Some (k !! Z.to_nat i)) as [y Hy]
      by (apply lookup_lt_is_Some; lia).
    assert (is_Some (samples b !! Z.to_nat i)) as [x Hx]
      by (apply lookup_lt_is_Some; rewrite samples_length by done; lia).
    rewrite (drop_S _ _ _ Hy), (drop_S _ _ _ Hx), dot_from_cons.
    rewrite IH by lia.
    replace (Z.to_nat (i + 1)) with (S (Z.to_nat i)) by lia.
    unfold rd. rewrite <- samples_lookup by (done || lia).
    by rewrite Hy, Hx.
Qed.

Lemma convoluteWith_dot b k :
  buffer_wf b -> mySize b <= Z.of_nat (length k) ->
  convoluteWith b k = dot k (samples b).
Proof.
  intros Hwf Hk. unfold convoluteWith, dot.
  rewrite (convolute_loop_dot b k _ 0) by (done || destruct Hwf; lia).
  done.
Qed.

Lemma ConvolutionBuffer_new_wf (size : Z) :
  0 < size <= 2 ^ 31 -> buffer_wf (ConvolutionBuffer_new size).
Proof.
  intros Hs. split; simpl.
  - done.
  - rewrite length_replicate. lia.
  - lia.
Qed.

Lemma shift_wf b v : buffer_wf b -> buffer_wf (shift v b).
Proof.
  intros [Hs Hl Hf]. split; simpl.
  - done.
  - by rewrite length_insert.
  - apply Z.mod_pos_bound. lia.
Qed.

Lemma shift_firstIndex b v :
  buffer_wf b -> myFirstIndex (shift v b) = (myFirstIndex b + 1) mod mySize b.
Proof.
  intros [Hs Hl Hf]. simpl. unfold wrap32.
  by rewrite (Z.mod_small (myFirstIndex b + 1) (2 ^ 32)) by lia.
Qed.

(** Shifting drops the oldest sample and appends the new one. *)
Lemma shift_samples b v :
  buffer_wf b -> samples (shift v b) = drop 1 (samples b) ++ [v].
Proof.
  intros Hwf. pose proof (shift_firstIndex b v Hwf) as Hfi.
  destruct Hwf as [Hs Hl Hf]. unfold samples. rewrite Hfi. simpl.
  set (f := Z.to_nat (myFirstIndex b)).
  assert (f < length (myData b))%nat as Hlt by lia.
  rewrite drop_app_le by (rewrite length_drop; lia).
  rewrite drop_drop.
  destruct (Z_lt_ge_dec (myFirstIndex b + 1) (mySize b)) as [Hin | Hout].
  - rewrite Z.mod_small by lia.
    replace (Z.to_nat (myFirstIndex b + 1)) with (f + 1)%nat by lia.
    rewrite drop_insert_lt by lia.
    rewrite <- (Nat.add_comm 1 f). change (1 + f)%nat with (S f).
    rewrite (take_S_r _ _ v) by (apply list_lookup_insert_eq; lia).
    rewrite take_insert_ge by lia.
    by rewrite app_assoc.
  - replace (myFirstIndex b + 1) with (mySize b) by lia.
    rewrite Z_mod_same_full. simpl.
    rewrite (drop_ge (myData b)) by lia. simpl.
    rewrite app_nil_r.
    rewrite <- (take_drop f (<[f:=v]> (myData b))).
    rewrite take_insert_ge by lia. f_equal.
    rewrite drop_insert_ge by lia.
    rewrite Nat.sub_diag.
    assert (length (drop f (myData b)) = 1%nat) as H1
      by (rewrite length_drop; lia).
    destruct (drop f (myData b)) as [| x [| ? ?]]; simpl in *; done.
Qed.

End ConvolutionBufferFacts.

(** ** The buffer as a sliding window *)

(** Successive calls [shift(v1); shift(v2); ...]. *)
Definition shift_all (vs : list float) (b : ConvolutionBuffer) : ConvolutionBuffer :=
  fold_left (fun b' v => shift v b') vs b.

Lemma shift_all_wf (vs : list float) (b : ConvolutionBuffer) :
  buffer_wf b -> buffer_wf (shift_all vs b).
Proof.
  revert b. induction vs as [| v vs IH]; intros b Hwf; [done |].
  apply IH. by apply shift_wf.
Qed.

Lemma shift_all_samples (vs : list float) (b : ConvolutionBuffer) :
  buffer_wf b ->
  samples (shift_all vs b) = drop (length vs) (samples b ++ vs).
Proof.
  revert b. induction vs as [| v vs IH]; intros b Hwf.
  - simpl. by rewrite app_nil_r.
  - cbn [shift_all fold_left]. fold (shift_all vs (shift v b)).
    rewrite IH by (by apply shift_wf).
    rewrite shift_samples by done.
    assert (1 <= length (samples b))%nat as Hne.
    { rewrite samples_length by done. destruct Hwf. lia. }
    rewrite <- (drop_app_le (samples b) [v] 1 Hne).
    rewrite <- (drop_app_le (samples b ++ [v]) vs 1)
      by (rewrite length_app; lia).
    rewrite drop_drop, <- app_assoc. reflexivity.
Qed.

(** X1.  The window property.  Whatever a buffer of size [S] held, after the
    values [vs] have been shifted in it holds the last [S] entries of its
    old contents followed by [vs], in that order; so after [S] or more
    shifts it holds exactly the [S] most recent values.  A new buffer holds
    [S] zeros. *)
Theorem X1_sliding_window (vs : list float) (b : ConvolutionBuffer) :
  buffer_wf b ->
  samples (shift_all vs b) = drop (length vs) (samples b ++ vs)
  /\ length (samples (shift_all vs b)) = Z.to_nat (mySize b)
  /\ (Z.to_nat (mySize b) <= length vs ->
      samples (shift_all vs b) = drop (length vs - Z.to_nat (mySize b)) vs)%nat
  /\ myFirstIndex (shift_all vs b)
     = (myFirstIndex b + Z.of_nat (length vs)) mod mySize b
  /\ samples (ConvolutionBuffer_new (mySize b))
       = replicate (Z.to_nat (mySize b)) F32.zero.
Proof.
  intros Hwf. pose proof (shift_all_samples vs b Hwf) as Hs.
  repeat apply conj.
  - exact Hs.
  - rewrite Hs, length_drop, length_app, samples_length by done. lia.
  - intros Hlen. rewrite Hs.
    rewrite drop_app_ge by (rewrite samples_length by done; lia).
    by rewrite samples_length by done.
  - clear Hs. revert b Hwf. induction vs as [| v vs IH]; intros b Hwf.
    + destruct Hwf as [H1 H2 H3]. simpl. rewrite Z.add_0_r, Z.mod_small; lia.
    + cbn [shift_all fold_left]. fold (shift_all vs (shift v b)).
      rewrite IH by (by apply shift_wf).
      rewrite shift_firstIndex by done. cbn [mySize shift length].
      rewrite Zplus_mod_idemp_l. f_equal. lia.
  - unfold samples. simpl. by rewrite drop_0, take_0, app_nil_r.
Qed.

(** C4.  For a buffer of fixed size [0 < S <= 2^31]: [shift v] stores [v] at the
    index of the oldest sample and advances that index by one modulo [S],
    so the oldest sample leaves the window and [v] becomes the newest;
    [convoluteWith kernel] is the dot product of [kernel[0..S-1]] with the
    samples taken from the oldest on, wrapping around.  [convoluteWith] is
    a [const] method: it yields a value and no new buffer. *)
Theorem C4_convolution_buffer (b : ConvolutionBuffer) (v : float) (kernel : list float) :
  buffer_wf b ->
  mySize b <= Z.of_nat (length kernel) ->
  myData (shift v b) = <[ Z.to_nat (myFirstIndex b) := v ]> (myData b)
  /\ head (samples b) = myData b !! Z.to_nat (myFirstIndex b)
  /\ myFirstIndex (shift v b) = (myFirstIndex b + 1) mod mySize b
  /\ mySize (shift v b) = mySize b
  /\ samples (shift v b) = drop 1 (samples b) ++ [v]
  /\ buffer_wf (shift v b)
  /\ (forall i, 0 <= i < mySize b ->
        samples b !! Z.to_nat i
          = myData b !! Z.to_nat ((myFirstIndex b + i) mod mySize b))
  /\ convoluteWith b kernel = dot kernel (samples b).
Proof.
  intros Hwf Hk.
  repeat apply conj.
  - done.
  - rewrite head_lookup.
    pose proof (samples_lookup b 0 Hwf) as H0.
    change (Z.to_nat 0) with 0%nat in H0.
    destruct Hwf as [Hs Hl Hf]. rewrite H0 by lia. unfold wrap32.
    rewrite Z.add_0_r, (Z.mod_small (myFirstIndex b) (2 ^ 32)) by lia.
    by rewrite Z.mod_small by lia.
  - by apply shift_firstIndex.
  - done.
  - by apply shift_samples.
  - by apply shift_wf.
  - intros i Hi. rewrite samples_lookup by done.
    destruct Hwf as [Hs Hl Hf]. unfold wrap32.
    by rewrite (Z.mod_small (myFirstIndex b + i)) by lia.
  - by apply convoluteWith_dot.
Qed.

(** ** LanczosResampler.cxx: [reducedDenominator] *)

(** One run of the [for] loop of [reducedDenominator], from the test
    [i > 1] on.  The loop variable is reassigned in the body, so the loop is
    not bounded by its initial value: [fuel] bounds the number of iterations
    and [None] means that it ran out. *)
Fixpoint reducedDenominator_loop (fuel : nat) (n d i : Z) : option Z :=
  if i >? 1 then
    match fuel with
    | O => None
    | S fuel' =>
        if (n mod i =? 0) && (d mod i =? 0) then
          let n' := n / i in
          let d' := d / i in
          let i' := Z.min n' d' in
          reducedDenominator_loop fuel' n' d' (wrap32 (i' - 1))
        else
          reducedDenominator_loop fuel' n d (wrap32 (i - 1))
    end
  else Some d.

(** [uInt32 reducedDenominator(uInt32 n, uInt32 d)] *)
Definition reducedDenominator (fuel : nat) (n d : Z) : option Z :=
  reducedDenominator_loop fuel n d (Z.min n d).

Section ReducedDenominatorFacts.

(** Second phase: once [n] and [d] are coprime no [i > 1] divides both,
    and the loop counts down to [1]. *)
Lemma reducedDenominator_loop_coprime (fuel : nat) (n d i : Z) :
  Z.gcd n d = 1 -> 0 <= i < 2 ^ 32 -> i <= Z.of_nat fuel ->
  reducedDenominator_loop fuel n d i = Some d.
Proof.
  intros Hg. revert i.
  induction fuel as [| fuel IH]; intros i Hi Hf; simpl.
  - destruct (Z.gtb_spec i 1); [lia | done].
  - destruct (Z.gtb_spec i 1) as [Hgt | Hle]; [| done].
    destruct (Z.eqb_spec (n mod i) 0) as [Hn | Hn]; simpl.
    + destruct (Z.eqb_spec (d mod i) 0) as [Hd | Hd].
      * exfalso.
        assert (i | Z.gcd n d) as Hdiv.
        { apply Z.gcd_greatest; apply Z.mod_divide; lia. }
        rewrite Hg in Hdiv. apply Z.divide_1_r_nonneg in Hdiv; lia.
      * apply IH; unfold wrap32; rewrite Z.mod_small; lia.
    + apply IH; unfold wrap32; rewrite Z.mod_small; lia.
Qed.

Lemma gcd_div_coprime (n d : Z) :
  0 < n -> 0 < d -> Z.gcd (n / Z.gcd n d) (d / Z.gcd n d) = 1.
Proof.
  intros Hn Hd. apply Z.gcd_div_gcd; [| done].
  pose proof (Z.gcd_nonneg n d).
  intros H0. apply Z.gcd_eq_0_l in H0. lia.
Qed.

(** First phase: counting down from [min n d], the first common divisor
    met is the greatest one. *)
Lemma reducedDenominator_loop_gcd (fuel : nat) (n d i : Z) :
  0 < n < 2 ^ 32 -> 0 < d < 2 ^ 32 ->
  Z.gcd n d <= i <= Z.min n d ->
  i + Z.min n d <= Z.of_nat fuel ->
  reducedDenominator_loop fuel n d i = Some (d / Z.gcd n d).
Proof.
  intros Hn Hd. revert i.
  assert (0 < Z.gcd n d) as Hgpos.
  { pose proof (Z.gcd_nonneg n d).
    destruct (Z.eq_dec (Z.gcd n d) 0) as [H0 | H0]; [| lia].
    apply Z.gcd_eq_0_l in H0. lia. }
  induction fuel as [| fuel IH]; intros i Hi Hf; simpl.
  - lia.
  - destruct (Z.gtb_spec i 1) as [Hgt | Hle].
    2:{ replace (Z.gcd n d) with 1 by lia. by rewrite Z.div_1_r. }
    destruct (Z.eqb_spec (n mod i) 0) as [Hni | Hni]; simpl.
    + destruct (Z.eqb_spec (d mod i) 0) as [Hdi | Hdi].
      * assert (i | Z.gcd n d) as Hdiv.
        { apply Z.gcd_greatest; apply Z.mod_divide; lia. }
        apply Z.divide_pos_le in Hdiv; [| done].
        assert (i = Z.gcd n d) as -> by lia.
        assert (0 < n / Z.gcd n d).
        { apply Z.div_str_pos. split; [done |].
          apply Z.divide_pos_le; [lia | apply Z.gcd_divide_l]. }
        assert (0 < d / Z.gcd n d).
        { apply Z.div_str_pos. split; [done |].
          apply Z.divide_pos_le; [lia | apply Z.gcd_divide_r]. }
        assert (n / Z.gcd n d <= n) by (apply Z.div_le_upper_bound; nia).
        assert (d / Z.gcd n d <= d) by (apply Z.div_le_upper_bound; nia).
        apply reducedDenominator_loop_coprime.
        -- apply gcd_div_coprime; lia.
        -- unfold wrap32. rewrite Z.mod_small; lia.
        -- unfold wrap32. rewrite Z.mod_small; lia.
      * assert (i <> Z.gcd n d).
        { intros ->. apply Hdi. apply Z.mod_divide; [lia |].
          apply Z.gcd_divide_r. }
        apply IH; unfold wrap32; rewrite Z.mod_small; lia.
    + assert (i <> Z.gcd n d).
      { intros ->. apply Hni. apply Z.mod_divide; [lia |].
        apply Z.gcd_divide_l. }
      apply IH; unfold wrap32; rewrite Z.mod_small; lia.
Qed.

Lemma reducedDenominator_spec (fuel : nat) (n d : Z) :
  0 < n < 2 ^ 32 -> 0 < d < 2 ^ 32 ->
  n + d <= Z.of_nat fuel ->
  reducedDenominator fuel n d = Some (d / Z.gcd n d).
Proof.
  intros Hn Hd Hf. unfold reducedDenominator.
  apply reducedDenominator_loop_gcd; try done; [| lia].
  split; [| lia].
  assert (Z.gcd n d <= n)
    by (apply Z.divide_pos_le; [lia | apply Z.gcd_divide_l]).
  assert (Z.gcd n d <= d)
    by (apply Z.divide_pos_le; [lia | apply Z.gcd_divide_r]).
  lia.
Qed.

End ReducedDenominatorFacts.

(** ** Resampler.hxx and LanczosResampler.cxx *)

Module F32Const.
(** [CLIPPING_FACTOR = 0.75], [HIGH_PASS_CUT_OFF = 10], [0x7fff]. *)
Definition CLIPPING_FACTOR : float := binary_normalize F32.prec F32.emax 3 (-2) false.
Definition HIGH_PASS_CUT_OFF : float := F32.of_Z 10.
Definition x7fff : float := F32.of_Z 32767.
Definition one : float := F32.of_Z 1.
Definition two : float := F32.of_Z 2.
End F32Const.

(** [Resampler::Format] *)
Record Format : Type := {
  sampleRate : Z;
  fragmentSize : Z;
  stereo : bool
}.

Section Lanczos.

(** Collaborators whose code is outside this source tree.

    - [HighPass] is the one-pole filter class of [HighPass.hxx]; only its
      constructor and [apply] are used.
    - [sinc] is the function of that name in [LanczosResampler.cxx]; its
      body calls the C library's [sin] in double precision.
    - [Producer] is whatever the [NextFragmentCallback] closes over; one
      call returns a fragment of [Int16] samples, or [nullptr], and a new
      producer state. *)
Context {HighPass Producer : Type}.
Variable HighPass_new : float -> float -> HighPass.
Variable HighPass_apply : HighPass -> float -> float * HighPass.
Variable sinc : float -> float.
Variable myNextFragmentCallback : Producer -> option (list Z) * Producer.

Record LanczosResampler : Type := {
  myFormatFrom : Format;
  myFormatTo : Format;
  myPrecomputedKernelCount : Z;
  myKernelSize : Z;
  myCurrentKernelIndex : Z;
  myKernelParameter : Z;
  myPrecomputedKernels : list float;
  myCurrentFragment : option (list Z);
  myFragmentIndex : Z;
  myIsUnderrun : bool;
  myBuffer : option ConvolutionBuffer;
  myBufferL : option ConvolutionBuffer;
  myBufferR : option ConvolutionBuffer;
  myHighPassL : HighPass;
  myHighPassR : HighPass;
  myHighPass : HighPass;
  myTimeIndex : Z
}.

(** Field updates. *)
Definition set_myCurrentKernelIndex (v : Z) (r : LanczosResampler) :=
  let '(Build_LanczosResampler a b c d _ f g h i j k l m n o p q) := r in
  Build_LanczosResampler a b c d v f g h i j k l m n o p q.
Definition set_myPrecomputedKernels (v : list float) (r : LanczosResampler) :=
  let '(Build_LanczosResampler a b c d e f _ h i j k l m n o p q) := r in
  Build_LanczosResampler a b c d e f v h i j k l m n o p q.
Definition set_myCurrentFragment (v : option (list Z)) (r : LanczosResampler) :=
  let '(Build_LanczosResampler a b c d e f g _ i j k l m n o p q) := r in
  Build_LanczosResampler a b c d e f g v i j k l m n o p q.
Definition set_myFragmentIndex (v : Z) (r : LanczosResampler) :=
  let '(Build_LanczosResampler a b c d e f g h _ j k l m n o p q) := r in
  Build_LanczosResampler a b c d e f g h v j k l m n o p q.
Definition set_myIsUnderrun (v : bool) (r : LanczosResampler) :=
  let '(Build_LanczosResampler a b c d e f g h i _ k l m n o p q) := r in
  Build_LanczosResampler a b c d e f g h i v k l m n o p q.
Definition set_myBuffer (v : option ConvolutionBuffer) (r : LanczosResampler) :=
  let '(Build_LanczosResampler a b c d e f g h i j _ l m n o p q) := r in
  Build_LanczosResampler a b c d e f g h i j v l m n o p q.
Definition set_myBufferL (v : option ConvolutionBuffer) (r : LanczosResampler) :=
  let '(Build_LanczosResampler a b c d e f g h i j k _ m n o p q) := r in
  Build_LanczosResampler a b c d e f g h i j k v m n o p q.
Definition set_myBufferR (v : option ConvolutionBuffer) (r : LanczosResampler) :=
  let '(Build_LanczosResampler a b c d e f g h i j k l _ n o p q) := r in
  Build_LanczosResampler a b c d e f g h i j k l v n o p q.
Definition set_myHighPassL (v : HighPass) (r : LanczosResampler) :=
  let '(Build_LanczosResampler a b c d e f g h i j k l m _ o p q) := r in
  Build_LanczosResampler a b c d e f g h i j k l m v o p q.
Definition set_myHighPassR (v : HighPass) (r : LanczosResampler) :=
  let '(Build_LanczosResampler a b c d e f g h i j k l m n _ p q) := r in
  Build_LanczosResampler a b c d e f g h i j k l m n v p q.
Definition set_myHighPass (v : HighPass) (r : LanczosResampler) :=
  let '(Build_LanczosResampler a b c d e f g h i j k l m n o _ q) := r in
  Build_LanczosResampler a b c d e f g h i j k l m n o v q.
Definition set_myTimeIndex (v : Z) (r : LanczosResampler) :=
  let '(Build_LanczosResampler a b c d e f g h i j k l m n o p _) := r in
  Build_LanczosResampler a b c d e f g h i j k l m n o p v.

(** [float lanczosKernel(float x, uInt32 a)] *)
Definition lanczosKernel (x : float) (a : Z) : float :=
  F32.mul (sinc x) (sinc (F32.div x (F32.of_Z a))).

(** Inner loop of [precomputeKernels]: entries [j, j + n) of the kernel
    that starts at offset [base] of the table. *)
Fixpoint precompute_taps (a : Z) (center : float) (base : Z)
    (n : nat) (j : Z) (table : list float) : list float :=
  match n with
  | O => table
  | S n' =>
      let x :=
        F32.sub
          (F32.add (F32.sub center (F32.of_Z j)) (F32.of_Z a))
          F32Const.one in
      let v := F32.mul (lanczosKernel x a) F32Const.CLIPPING_FACTOR in
      precompute_taps a center base n' (j + 1)
        (<[ Z.to_nat (base + j) := v ]> table)
  end.

(** Outer loop of [precomputeKernels]: kernels [i, i + n). *)
Fixpoint precompute_kernels (r : LanczosResampler) (n : nat) (i : Z)
    (timeIndex : Z) (table : list float) : list float :=
  match n with
  | O => table
  | S n' =>
      let center :=
        F32.div (F32.of_Z timeIndex)
                (F32.of_Z (sampleRate (myFormatTo r))) in
      let table' :=
        precompute_taps (myKernelParameter r) center
          (wrap32 (myKernelSize r * i))
          (Z.to_nat (wrap32 (2 * myKernelParameter r))) 0 table in
      precompute_kernels r n' (i + 1)
        (wrap32 (timeIndex + sampleRate (myFormatFrom r))
           mod sampleRate (myFormatTo r))
        table'
  end.

(** [void LanczosResampler::precomputeKernels()] *)
Definition precomputeKernels (r : LanczosResampler) : LanczosResampler :=
  set_myPrecomputedKernels
    (precompute_kernels r (Z.to_nat (myPrecomputedKernelCount r)) 0 0
       (myPrecomputedKernels r))
    r.

(** The constructor.  [None] only when [reducedDenominator] runs out of
    fuel. *)
Definition LanczosResampler_new (fuel : nat) (formatFrom formatTo : Format)
    (kernelParameter : Z) : option LanczosResampler :=
  match reducedDenominator fuel (sampleRate formatFrom) (sampleRate formatTo) with
  | None => None
  | Some count =>
      let size := wrap32 (2 * kernelParameter) in
      let hp := HighPass_new F32Const.HIGH_PASS_CUT_OFF
                  (F32.of_Z (sampleRate formatFrom)) in
      Some (precomputeKernels
        {| myFormatFrom := formatFrom;
           myFormatTo := formatTo;
           myPrecomputedKernelCount := count;
           myKernelSize := size;
           myCurrentKernelIndex := 0;
           myKernelParameter := kernelParameter;
           myPrecomputedKernels :=
             replicate (Z.to_nat (wrap32 (count * size))) F32.zero;
           myCurrentFragment := None;
           myFragmentIndex := 0;
           myIsUnderrun := true;
           myBuffer :=
             if stereo formatFrom then None
             else Some (ConvolutionBuffer_new size);
           myBufferL :=
             if stereo formatFrom then Some (ConvolutionBuffer_new size)
             else None;
           myBufferR :=
             if stereo formatFrom then Some (ConvolutionBuffer_new size)
             else None;
           myHighPassL := hp;
           myHighPassR := hp;
           myHighPass := hp;
           myTimeIndex := 0 |})
  end.

(** What [fillFragment] and [shiftSamples] act on: the resampler object,
    the producer behind the callback, and what was sent to [cerr]. *)
Record Audio : Type := {
  this : LanczosResampler;
  producer : Producer;
  cerr : list string
}.

Definition underrun_message : string :=
  String.append "audio buffer underrun" (String (Ascii.ascii_of_nat 10) EmptyString).

(** [myCurrentFragment[i]]; the defaults stand for a null pointer and for
    an index outside the fragment. *)
Definition fragment_at (r : LanczosResampler) (i : Z) : Z :=
  default 0 (default [] (myCurrentFragment r) !! Z.to_nat i).

(** [x / static_cast<float>(0x7fff)] for an [Int16] [x]. *)
Definition normalize16 (x : Z) : float := F32.div (F32.of_Z x) F32Const.x7fff.

(** One iteration of the [while] loop of [shiftSamples]. *)
Definition shiftSamples_body (st : Audio) : Audio :=
  let r := this st in
  let r1 :=
    if stereo (myFormatFrom r) then
      let '(vL, hpL) :=
        HighPass_apply (myHighPassL r)
          (normalize16 (fragment_at r (wrap32 (2 * myFragmentIndex r)))) in
      let rL := set_myBufferL (shift vL <$> myBufferL r) (set_myHighPassL hpL r) in
      let '(vR, hpR) :=
        HighPass_apply (myHighPassR rL)
          (normalize16 (fragment_at rL (wrap32 (wrap32 (2 * myFragmentIndex rL) + 1)))) in
      set_myBufferR (shift vR <$> myBufferR rL) (set_myHighPassR hpR rL)
    else
      let '(v, hp) :=
        HighPass_apply (myHighPass r)
          (normalize16 (fragment_at r (myFragmentIndex r))) in
      set_myBuffer (shift v <$> myBuffer r) (set_myHighPass hp r) in
  let r2 := set_myFragmentIndex (wrap32 (myFragmentIndex r1 + 1)) r1 in
  if myFragmentIndex r2 >=? fragmentSize (myFormatFrom r2) then
    let r3 :=
      set_myFragmentIndex
        (myFragmentIndex r2 mod fragmentSize (myFormatFrom r2)) r2 in
    match myNextFragmentCallback (producer st) with
    | (Some nextFragment, p') =>
        {| this := set_myIsUnderrun false
                     (set_myCurrentFragment (Some nextFragment) r3);
           producer := p';
           cerr := cerr st |}
    | (None, p') =>
        {| this := set_myIsUnderrun true r3;
           producer := p';
           cerr := cerr st ++ [underrun_message] |}
    end
  else
    {| this := r2; producer := producer st; cerr := cerr st |}.

(** [void LanczosResampler::shiftSamples(uInt32 samplesToShift)] *)
Definition shiftSamples (samplesToShift : Z) (st : Audio) : Audio :=
  Nat.iter (Z.to_nat samplesToShift) shiftSamples_body st.

(** [buffer->convoluteWith(kernel)] through a [unique_ptr]. *)
Definition convolute (b : option ConvolutionBuffer) (kernel : list float) : float :=
  from_option (fun b' => convoluteWith b' kernel) F32.zero b.

(** One iteration of the [for] loop of [fillFragment], for the value [i]
    of the loop variable. *)
Definition fillFragment_body (i : Z) (st : Audio) (fragment : list float)
    : Audio * list float :=
  let r := this st in
  let kernel :=
    drop (Z.to_nat (wrap32 (myCurrentKernelIndex r * myKernelSize r)))
         (myPrecomputedKernels r) in
  let r1 :=
    set_myCurrentKernelIndex
      (wrap32 (myCurrentKernelIndex r + 1) mod myPrecomputedKernelCount r) r in
  let fragment1 :=
    if stereo (myFormatFrom r1) then
      let sampleL := convolute (myBufferL r1) kernel in
      let sampleR := convolute (myBufferR r1) kernel in
      if stereo (myFormatTo r1) then
        <[ Z.to_nat (wrap32 (wrap32 (2 * i) + 1)) := sampleR ]>
          (<[ Z.to_nat (wrap32 (2 * i)) := sampleL ]> fragment)
      else
        <[ Z.to_nat i := F32.div (F32.add sampleL sampleR) F32Const.two ]> fragment
    else
      let sample := convolute (myBuffer r1) kernel in
      if stereo (myFormatTo r1) then
        <[ Z.to_nat (wrap32 (2 * i)) := sample ]>
          (<[ Z.to_nat (wrap32 (wrap32 (2 * i) + 1)) := sample ]> fragment)
      else
        <[ Z.to_nat i := sample ]> fragment in
  let r2 :=
    set_myTimeIndex (wrap32 (myTimeIndex r1 + sampleRate (myFormatFrom r1))) r1 in
  let samplesToShift := myTimeIndex r2 / sampleRate (myFormatTo r2) in
  let st2 := {| this := r2; producer := producer st; cerr := cerr st |} in
  if samplesToShift =? 0 then (st2, fragment1)
  else
    let r3 := set_myTimeIndex (myTimeIndex r2 mod sampleRate (myFormatTo r2)) r2 in
    (shiftSamples samplesToShift
       {| this := r3; producer := producer st; cerr := cerr st |},
     fragment1).

Fixpoint fillFragment_loop (n : nat) (i : Z) (st : Audio) (fragment : list float)
    : Audio * list float :=
  match n with
  | O => (st, fragment)
  | S n' =>
      let '(st', fragment') := fillFragment_body i st fragment in
      fillFragment_loop n' (i + 1) st' fragment'
  end.

(** The first statement of [fillFragment]: after an underrun, ask the
    producer once more. *)
Definition fillFragment_refill (st : Audio) : Audio :=
  if myIsUnderrun (this st) then
    match myNextFragmentCallback (producer st) with
    | (Some nextFragment, p') =>
        {| this := set_myIsUnderrun false
                     (set_myFragmentIndex 0
                        (set_myCurrentFragment (Some nextFragment) (this st)));
           producer := p';
           cerr := cerr st |}
    | (None, p') =>
        {| this := this st; producer := p'; cerr := cerr st |}
    end
  else st.

(** [void LanczosResampler::fillFragment(float* fragment, uInt32 length)].
    [fragment] is the caller's array; the result holds its contents after
    the call.  The [memset] zeroes the first [length] entries. *)
Definition fillFragment (st : Audio) (fragment : list float) (length : Z)
    : Audio * list float :=
  let st1 := fillFragment_refill st in
  match myCurrentFragment (this st1) with
  | None =>
      (st1, replicate (Z.to_nat length) F32.zero ++ drop (Z.to_nat length) fragment)
  | Some _ =>
      let outputSamples :=
        if stereo (myFormatTo (this st1)) then Z.shiftr length 1 else length in
      fillFragment_loop (Z.to_nat outputSamples) 0 st1 fragment
  end.

(** *** What one call of [fillFragment] writes *)

(** Number of array entries per output sample. *)
Definition channels (r : LanczosResampler) : nat :=
  if stereo (myFormatTo r) then 2%nat else 1%nat.

(** The values one loop iteration stores, in index order. *)
Definition frame (st : Audio) : list float :=
  let r := this st in
  let kernel :=
    drop (Z.to_nat (wrap32 (myCurrentKernelIndex r * myKernelSize r)))
         (myPrecomputedKernels r) in
  if stereo (myFormatFrom r) then
    let sampleL := convolute (myBufferL r) kernel in
    let sampleR := convolute (myBufferR r) kernel in
    if stereo (myFormatTo r) then [sampleL; sampleR]
    else [F32.div (F32.add sampleL sampleR) F32Const.two]
  else
    let sample := convolute (myBuffer r) kernel in
    if stereo (myFormatTo r) then [sample; sample] else [sample].

(** The state after one loop iteration; it depends neither on the loop
    variable nor on the output array. *)
Definition advance (st : Audio) : Audio := fst (fillFragment_body 0 st []).

(** The values [n] successive iterations store. *)
Fixpoint frames (n : nat) (st : Audio) : list float :=
  match n with
  | O => []
  | S n' => frame st ++ frames n' (advance st)
  end.

Lemma set_myCurrentKernelIndex_formats v r :
  myFormatFrom (set_myCurrentKernelIndex v r) = myFormatFrom r
  /\ myFormatTo (set_myCurrentKernelIndex v r) = myFormatTo r
  /\ myBuffer (set_myCurrentKernelIndex v r) = myBuffer r
  /\ myBufferL (set_myCurrentKernelIndex v r) = myBufferL r
  /\ myBufferR (set_myCurrentKernelIndex v r) = myBufferR r.
Proof. by destruct r. Qed.

Lemma fillFragment_body_fst i st fragment :
  fst (fillFragment_body i st fragment) = advance st.
Proof.
  unfold advance, fillFragment_body.
  by destruct (_ =? 0).
Qed.

Lemma frame_length st : length (frame st) = channels (this st).
Proof.
  unfold frame, channels.
  by destruct (stereo (myFormatFrom _)), (stereo (myFormatTo _)).
Qed.

Lemma advance_formatTo st : myFormatTo (this (advance st)) = myFormatTo (this st).
Proof.
  unfold advance, fillFragment_body.
  assert (forall m s, myFormatTo (this (shiftSamples m s)) = myFormatTo (this s))
    as Hshift.
  { intros m s. unfold shiftSamples.
    induction (Z.to_nat m) as [| k IH]; simpl; [done |].
    rewrite <- IH. generalize (Nat.iter k shiftSamples_body s). intros s'.
    unfold shiftSamples_body.
    destruct s' as [r p c]; simpl. destruct r; simpl.
    repeat (match goal with
            | |- context [HighPass_apply ?h ?x] => destruct (HighPass_apply h x)
            | |- context [myNextFragmentCallback ?q] =>
                destruct (myNextFragmentCallback q) as [[?|] ?]
            | |- context [if ?c then _ else _] => destruct c
            end; simpl); done. }
  destruct (_ =? 0); simpl.
  - by destruct (this st).
  - rewrite Hshift. simpl. by destruct (this st).
Qed.

Lemma frames_length n st : length (frames n st) = (n * channels (this st))%nat.
Proof.
  revert st. induction n as [| n IH]; intros st; simpl; [done |].
  rewrite length_app, frame_length, IH.
  unfold channels. by rewrite advance_formatTo.
Qed.

(** One iteration overwrites exactly the entries of its own sample. *)
Lemma fillFragment_body_snd (i : Z) st (pre old post : list float) :
  0 <= i ->
  (stereo (myFormatTo (this st)) = true -> 2 * i + 1 < 2 ^ 32) ->
  length pre = (Z.to_nat i * channels (this st))%nat ->
  length old = channels (this st) ->
  snd (fillFragment_body i st (pre ++ old ++ post)) = pre ++ frame st ++ post.
Proof.
  intros Hi Hwrap Hpre Hold.
  unfold fillFragment_body, frame, channels in *.
  destruct (set_myCurrentKernelIndex_formats
              (wrap32 (myCurrentKernelIndex (this st) + 1)
                 mod myPrecomputedKernelCount (this st)) (this st))
    as (-> & -> & -> & -> & ->).
  match goal with
  | |- snd (if ?c then (_, ?f) else (_, ?f)) = _ =>
      transitivity f; [by destruct c |]
  end.
  destruct (stereo (myFormatTo (this st))) eqn:HTo.
  - specialize (Hwrap eq_refl).
    assert (Z.to_nat (wrap32 (2 * i)) = length pre) as E0
      by (unfold wrap32; rewrite Z.mod_small; lia).
    assert (Z.to_nat (wrap32 (wrap32 (2 * i) + 1)) = S (length pre)) as E1
      by (unfold wrap32; rewrite (Z.mod_small (2 * i)), Z.mod_small; lia).
    rewrite E0, E1.
    destruct old as [| a [| b [| ? ?]]]; try done.
    destruct (stereo (myFormatFrom (this st))).
    + rewrite (insert_app_r_alt pre _ (length pre)) by lia.
      rewrite Nat.sub_diag. simpl.
      rewrite (insert_app_r_alt pre _ (S (length pre))) by lia.
      by replace (S (length pre) - length pre)%nat with 1%nat by lia.
    + rewrite (insert_app_r_alt pre _ (S (length pre))) by lia.
      replace (S (length pre) - length pre)%nat with 1%nat by lia. simpl.
      rewrite (insert_app_r_alt pre _ (length pre)) by lia.
      by rewrite Nat.sub_diag.
  - assert (Z.to_nat i = length pre) as E0 by lia.
    rewrite E0.
    destruct old as [| a [| ? ?]]; try done.
    destruct (stereo (myFormatFrom (this st)));
      rewrite (insert_app_r_alt pre _ (length pre)) by lia;
      by rewrite Nat.sub_diag.
Qed.

Lemma fillFragment_loop_spec (n : nat) (i : Z) st (pre old post : list float) :
  0 <= i ->
  (stereo (myFormatTo (this st)) = true -> 2 * (i + Z.of_nat n) <= 2 ^ 32) ->
  length pre = (Z.to_nat i * channels (this st))%nat ->
  length old = (n * channels (this st))%nat ->
  fillFragment_loop n i st (pre ++ old ++ post)
    = (Nat.iter n advance st, pre ++ frames n st ++ post).
Proof.
  revert i st pre old.
  induction n as [| n IH]; intros i st pre old Hi Hwrap Hpre Hold.
  - destruct old; [done | simpl in Hold; lia].
  - cbn [fillFragment_loop frames].
    rewrite <- (take_drop (channels (this st)) old), <- (app_assoc _ _ post).
    pose proof (fillFragment_body_fst i st
      (pre ++ take (channels (this st)) old
            ++ drop (channels (this st)) old ++ post)) as Hfst.
    pose proof (fillFragment_body_snd i st pre (take (channels (this st)) old)
      (drop (channels (this st)) old ++ post) Hi) as Hsnd.
    destruct (fillFragment_body i st _) as [st' fragment']. simpl in Hfst, Hsnd.
    subst st'. rewrite Hsnd.
    2:{ intros HTo. specialize (Hwrap HTo). lia. }
    2:{ done. }
    2:{ rewrite length_take. simpl in Hold. lia. }
    rewrite (app_assoc pre), IH.
    + rewrite <- Nat.iter_succ_r. by rewrite <- !app_assoc.
    + lia.
    + rewrite advance_formatTo. intros HTo. specialize (Hwrap HTo). lia.
    + rewrite length_app, frame_length, Hpre.
      unfold channels. rewrite advance_formatTo.
      replace (Z.to_nat (i + 1)) with (S (Z.to_nat i)) by lia. lia.
    + rewrite length_drop, Hold. unfold channels.
      rewrite advance_formatTo. simpl. lia.
Qed.

(** [populates st length n]: a call [fillFragment(fragment, length)] in
    state [st] sets the first [n] entries of [fragment] to values that do
    not depend on what the array held before, and leaves the rest as it
    was. *)
Definition populates (st : Audio) (length : Z) (n : nat) : Prop :=
  exists written : list float,
    List.length written = n
    /\ forall fragment : list float,
         (Z.to_nat length <= List.length fragment)%nat ->
         snd (fillFragment st fragment length) = written ++ drop n fragment.

(** Number of entries a call writes: all of them when there is no source
    fragment (silence) or the target is mono, and two per output sample,
    [2 * (length / 2)], when the target is stereo. *)
Definition written_count (st : Audio) (length : Z) : Z :=
  let r := this (fillFragment_refill st) in
  match myCurrentFragment r with
  | None => length
  | Some _ => if stereo (myFormatTo r) then 2 * (length / 2) else length
  end.

Lemma shiftSamples_body_cerr st : cerr st `prefix_of` cerr (shiftSamples_body st).
Proof.
  unfold shiftSamples_body.
  destruct (_ >=? _); [| done].
  destruct (myNextFragmentCallback _) as [[nf |] p']; simpl; [done |].
  by apply prefix_app_r.
Qed.

Lemma shiftSamples_cerr m st : cerr st `prefix_of` cerr (shiftSamples m st).
Proof.
  unfold shiftSamples.
  induction (Z.to_nat m) as [| k IH]; simpl; [done |].
  etrans; [apply IH | apply shiftSamples_body_cerr].
Qed.

Lemma advance_cerr st : cerr st `prefix_of` cerr (advance st).
Proof.
  unfold advance, fillFragment_body.
  destruct (_ =? 0); simpl; [done |].
  etrans; [| apply shiftSamples_cerr]. done.
Qed.

Lemma iter_advance_cerr n st : cerr st `prefix_of` cerr (Nat.iter n advance st).
Proof.
  induction n as [| n IH]; simpl; [done |].
  etrans; [apply IH | apply advance_cerr].
Qed.

Lemma fillFragment_refill_cerr st : cerr (fillFragment_refill st) = cerr st.
Proof.
  unfold fillFragment_refill.
  destruct (myIsUnderrun _); [| done].
  by destruct (myNextFragmentCallback _) as [[nf |] p'].
Qed.

(** The whole call, for an array that is long enough. *)
Lemma fillFragment_spec st (len : Z) (fragment : list float) :
  is_uInt32 len ->
  (Z.to_nat len <= length fragment)%nat ->
  let st1 := fillFragment_refill st in
  fillFragment st fragment len =
    match myCurrentFragment (this st1) with
    | None =>
        (st1, replicate (Z.to_nat len) F32.zero ++ drop (Z.to_nat len) fragment)
    | Some _ =>
        let n := Z.to_nat (if stereo (myFormatTo (this st1))
                           then len / 2 else len) in
        (Nat.iter n advance st1,
         frames n st1 ++ drop (n * channels (this st1)) fragment)
    end.
Proof.
  intros Hlen Hfrag st1. unfold fillFragment. fold st1.
  destruct (myCurrentFragment (this st1)); [| done].
  rewrite Z.shiftr_div_pow2 by lia. change (2 ^ 1) with 2.
  set (n := Z.to_nat (if stereo (myFormatTo (this st1)) then len / 2 else len)).
  assert (n * channels (this st1) <= length fragment)%nat as Hn.
  { unfold n, channels, is_uInt32 in *.
    destruct (stereo (myFormatTo (this st1))); [| lia].
    pose proof (Z.mul_div_le len 2). lia. }
  pose proof (fillFragment_loop_spec n 0 st1 []
                (take (n * channels (this st1)) fragment)
                (drop (n * channels (this st1)) fragment)) as Hloop.
  rewrite !app_nil_l, take_drop in Hloop.
  apply Hloop.
  - lia.
  - intros HTo. unfold n, is_uInt32 in *. rewrite HTo.
    pose proof (Z.mul_div_le len 2). lia.
  - done.
  - rewrite length_take. lia.
Qed.

Lemma written_count_frames st (len : Z) :
  is_uInt32 len ->
  let st1 := fillFragment_refill st in
  let n := Z.to_nat (if stereo (myFormatTo (this st1)) then len / 2 else len) in
  myCurrentFragment (this st1) <> None ->
  (n * channels (this st1))%nat = Z.to_nat (written_count st len).
Proof.
  intros Hlen st1 n Hsome. unfold written_count, n, channels. fold st1.
  destruct (myCurrentFragment (this st1)); [| done].
  unfold is_uInt32 in Hlen. pose proof (Z.div_pos len 2).
  destruct (stereo (myFormatTo (this st1))); lia.
Qed.

Lemma fillFragment_refill_formatTo st :
  myFormatTo (this (fillFragment_refill st)) = myFormatTo (this st).
Proof.
  unfold fillFragment_refill.
  destruct (myIsUnderrun _); [| done].
  destruct (myNextFragmentCallback _) as [[nf |] p']; simpl; [| done].
  by destruct (this st).
Qed.

Lemma precomputeKernels_count (r : LanczosResampler) :
  myPrecomputedKernelCount (precomputeKernels r) = myPrecomputedKernelCount r.
Proof. by destruct r. Qed.

(** *** The invariant of the resampler

    What the constructor establishes and every call keeps: the divisors
    used by [fillFragment] and [shiftSamples] are not zero, and the
    convolution buffers the source format needs are allocated and well
    formed. *)
Record resampler_wf (r : LanczosResampler) : Prop := {
  wf_rate_to : 0 < sampleRate (myFormatTo r);
  wf_fragment_size : 0 < fragmentSize (myFormatFrom r);
  wf_kernel_count : 0 < myPrecomputedKernelCount r;
  wf_buffers :
    if stereo (myFormatFrom r)
    then exists bL bR, myBufferL r = Some bL /\ myBufferR r = Some bR
                       /\ buffer_wf bL /\ buffer_wf bR
    else exists b, myBuffer r = Some b /\ buffer_wf b
}.

Lemma shiftSamples_body_wf st :
  resampler_wf (this st) -> resampler_wf (this (shiftSamples_body st)).
Proof.
  intros [H1 H2 H3 H4]. unfold shiftSamples_body.
  destruct st as [r p c]. cbn [this producer] in *.
  destruct r as [from to cnt sz ki kp ks cur fi un b bL bR hL hR h ti].
  cbn in H1, H2, H3, H4. cbn [myFormatFrom].
  destruct (stereo from) eqn:Est.
  - destruct H4 as (xL & xR & HL & HR & HwL & HwR). cbn in HL, HR. subst bL bR.
    cbn.
    destruct (HighPass_apply hL _) as [vL hL']. cbn.
    destruct (HighPass_apply hR _) as [vR hR']. cbn.
    destruct (_ >=? _); [destruct (myNextFragmentCallback p) as [[nf |] p'] |];
      (split; cbn; try done; rewrite Est;
       eexists _, _; repeat split; by apply shift_wf).
  - destruct H4 as (x & Hb & Hw). cbn in Hb. subst b.
    cbn.
    destruct (HighPass_apply h _) as [v h']. cbn.
    destruct (_ >=? _); [destruct (myNextFragmentCallback p) as [[nf |] p'] |];
      (split; cbn; try done; rewrite Est;
       eexists; split; [reflexivity | by apply shift_wf]).
Qed.

Lemma shiftSamples_wf m st :
  resampler_wf (this st) -> resampler_wf (this (shiftSamples m st)).
Proof.
  intros Hwf. unfold shiftSamples.
  induction (Z.to_nat m) as [| k IH]; simpl; [done |].
  by apply shiftSamples_body_wf.
Qed.

Lemma advance_wf st : resampler_wf (this st) -> resampler_wf (this (advance st)).
Proof.
  intros Hwf. unfold advance, fillFragment_body.
  assert (forall k t p c,
            resampler_wf
              (this {| this := set_myTimeIndex t
                                 (set_myCurrentKernelIndex k (this st));
                       producer := p; cerr := c |})) as Hset.
  { intros k t p c. destruct Hwf as [H1 H2 H3 H4].
    destruct (this st); cbn in *. by split. }
  destruct (_ =? 0); cbn [fst].
  - destruct (this st) eqn:Er. cbn. specialize (Hset
      (wrap32 (myCurrentKernelIndex0 + 1) mod myPrecomputedKernelCount0)
      (wrap32 (myTimeIndex0 + sampleRate myFormatFrom0)) (producer st) (cerr st)).
    exact Hset.
  - apply shiftSamples_wf.
    destruct (this st) eqn:Er. cbn.
    exact (Hset
      (wrap32 (myCurrentKernelIndex0 + 1) mod myPrecomputedKernelCount0)
      (wrap32 (myTimeIndex0 + sampleRate myFormatFrom0) mod sampleRate myFormatTo0)
      (producer st) (cerr st)).
Qed.

Lemma fillFragment_refill_wf st :
  resampler_wf (this st) -> resampler_wf (this (fillFragment_refill st)).
Proof.
  intros Hwf. unfold fillFragment_refill.
  destruct (myIsUnderrun _); [| done].
  destruct (myNextFragmentCallback _) as [[nf |] p']; cbn; [| done].
  destruct Hwf as [H1 H2 H3 H4]. destruct (this st); cbn in *. by split.
Qed.

Lemma fillFragment_loop_fst n i st fragment :
  fst (fillFragment_loop n i st fragment) = Nat.iter n advance st.
Proof.
  revert i st fragment. induction n as [| n IH]; intros i st fragment; [done |].
  cbn [fillFragment_loop].
  pose proof (fillFragment_body_fst i st fragment) as Hfst.
  destruct (fillFragment_body i st fragment) as [st' fragment'].
  cbn in Hfst. subst st'. by rewrite IH, <- Nat.iter_succ_r.
Qed.

(** The invariant survives a call, whatever the array and the length. *)
Lemma fillFragment_wf st fragment (len : Z) :
  resampler_wf (this st) ->
  resampler_wf (this (fst (fillFragment st fragment len))).
Proof.
  intros Hwf. unfold fillFragment.
  pose proof (fillFragment_refill_wf st Hwf) as Hwf1.
  destruct (myCurrentFragment _); [| done].
  rewrite fillFragment_loop_fst.
  induction (Z.to_nat _) as [| n IH]; [done |].
  cbn [Nat.iter]. by apply advance_wf.
Qed.

(** The constructor establishes the invariant. *)
Lemma LanczosResampler_new_wf (fuel : nat) (formatFrom formatTo : Format)
    (kernelParameter : Z) (r : LanczosResampler) :
  0 < sampleRate formatFrom < 2 ^ 32 ->
  0 < sampleRate formatTo < 2 ^ 32 ->
  sampleRate formatFrom + sampleRate formatTo <= Z.of_nat fuel ->
  0 < fragmentSize formatFrom ->
  0 < kernelParameter <= 2 ^ 30 ->
  LanczosResampler_new fuel formatFrom formatTo kernelParameter = Some r ->
  resampler_wf r.
Proof.
  intros HFs HFt Hfuel Hfs Hkp. unfold LanczosResampler_new.
  rewrite (reducedDenominator_spec fuel _ _ HFs HFt Hfuel).
  intros [= <-]. unfold precomputeKernels.
  assert (0 < sampleRate formatTo / Z.gcd (sampleRate formatFrom) (sampleRate formatTo))
    as Hcount.
  { assert (0 < Z.gcd (sampleRate formatFrom) (sampleRate formatTo)) as Hg.
    { pose proof (Z.gcd_nonneg (sampleRate formatFrom) (sampleRate formatTo)).
      destruct (Z.eq_dec (Z.gcd (sampleRate formatFrom) (sampleRate formatTo)) 0)
        as [H0 | H0]; [| lia].
      apply Z.gcd_eq_0_l in H0. lia. }
    apply Z.div_str_pos. split; [done |].
    apply Z.divide_pos_le; [lia | apply Z.gcd_divide_r]. }
  assert (buffer_wf (ConvolutionBuffer_new (wrap32 (2 * kernelParameter)))) as Hb.
  { apply ConvolutionBuffer_new_wf. unfold wrap32. rewrite Z.mod_small; lia. }
  split; cbn.
  - lia.
  - done.
  - exact Hcount.
  - destruct (stereo formatFrom).
    + eexists _, _. split; [reflexivity |]. split; [reflexivity |]. by split.
    + eexists. split; [reflexivity | exact Hb].
Qed.

(** C1, as amended.  A call [fillFragment(fragment, length)] always
    returns.  It sets a prefix of [fragment] to values that do not depend on
    the array's previous contents and leaves the rest untouched; the prefix
    is all [length] entries when no source fragment is at hand (they are
    set to zero) and when the target is mono, and [2 * (length / 2)]
    entries when the target is stereo, which is [length] when [length] is
    even.  An underrun during the call only appends to [cerr], and the
    object's invariant (non-zero divisors, allocated buffers) is kept. *)
Theorem C1_fillFragment_amended (st : Audio) (len : Z) :
  is_uInt32 len ->
  populates st len (Z.to_nat (written_count st len))
  /\ (myCurrentFragment (this (fillFragment_refill st)) = None ->
      forall fragment : list float,
        (Z.to_nat len <= length fragment)%nat ->
        snd (fillFragment st fragment len)
          = replicate (Z.to_nat len) F32.zero ++ drop (Z.to_nat len) fragment)
  /\ (stereo (myFormatTo (this st)) = false -> written_count st len = len)
  /\ (Z.even len = true -> written_count st len = len)
  /\ (forall fragment : list float,
        (Z.to_nat len <= length fragment)%nat ->
        cerr st `prefix_of` cerr (fst (fillFragment st fragment len)))
  /\ (resampler_wf (this st) ->
      forall fragment : list float,
        resampler_wf (this (fst (fillFragment st fragment len)))).
Proof.
  intros Hlen.
  assert (forall fragment : list float,
            (Z.to_nat len <= length fragment)%nat ->
            fillFragment st fragment len =
              match myCurrentFragment (this (fillFragment_refill st)) with
              | None =>
                  (fillFragment_refill st,
                   replicate (Z.to_nat len) F32.zero ++ drop (Z.to_nat len) fragment)
              | Some _ =>
                  (Nat.iter
                     (Z.to_nat (if stereo (myFormatTo (this (fillFragment_refill st)))
                                then len / 2 else len))
                     advance (fillFragment_refill st),
                   frames
                     (Z.to_nat (if stereo (myFormatTo (this (fillFragment_refill st)))
                                then len / 2 else len))
                     (fillFragment_refill st)
                   ++ drop (Z.to_nat (written_count st len)) fragment)
              end) as Hspec.
  { intros fragment Hfrag.
    rewrite (fillFragment_spec st len fragment Hlen Hfrag). cbv zeta.
    destruct (myCurrentFragment (this (fillFragment_refill st))) eqn:Hcur; [| done].
    do 3 f_equal. apply written_count_frames; [done |]. by rewrite Hcur. }
  repeat apply conj.
  - unfold populates.
    destruct (myCurrentFragment (this (fillFragment_refill st))) as [cur |] eqn:Hcur.
    + eexists. split.
      2:{ intros fragment Hfrag. rewrite (Hspec fragment Hfrag). reflexivity. }
      rewrite frames_length. apply written_count_frames; [done |]. by rewrite Hcur.
    + exists (replicate (Z.to_nat len) F32.zero). split.
      * rewrite length_replicate. unfold written_count. by rewrite Hcur.
      * intros fragment Hfrag. rewrite (Hspec fragment Hfrag). cbn [snd].
        unfold written_count. by rewrite Hcur.
  - intros Hcur fragment Hfrag.
    by rewrite (Hspec fragment Hfrag), Hcur.
  - intros HTo. unfold written_count.
    rewrite fillFragment_refill_formatTo, HTo. by destruct (myCurrentFragment _).
  - intros Heven. unfold written_count.
    destruct (myCurrentFragment _); [| done].
    destruct (stereo _); [| done].
    apply Zeven_bool_iff, Zeven_div2 in Heven.
    rewrite Heven at 2. rewrite Z.div2_div. lia.
  - intros fragment Hfrag.
    rewrite (Hspec fragment Hfrag).
    rewrite <- (fillFragment_refill_cerr st) at 1.
    destruct (myCurrentFragment _); cbn [fst]; [| done].
    apply iter_advance_cerr.
  - intros Hwf fragment. by apply fillFragment_wf.
Qed.

(** C5.  For sample rates [Fs], [Ft] that are positive [uInt32] values,
    [reducedDenominator(Fs, Ft)] returns [Ft / gcd(Fs, Ft)], the denominator
    of [Fs / Ft] in lowest terms, and the constructor stores it in
    [myPrecomputedKernelCount]. *)
Theorem C5_reduced_denominator (fuel : nat) (formatFrom formatTo : Format)
    (kernelParameter : Z) :
  let Fs := sampleRate formatFrom in
  let Ft := sampleRate formatTo in
  0 < Fs < 2 ^ 32 ->
  0 < Ft < 2 ^ 32 ->
  Fs + Ft <= Z.of_nat fuel ->
  reducedDenominator fuel Fs Ft = Some (Ft / Z.gcd Fs Ft)
  /\ (exists r : LanczosResampler,
        LanczosResampler_new fuel formatFrom formatTo kernelParameter = Some r
        /\ myPrecomputedKernelCount r = Ft / Z.gcd Fs Ft)
  /\ Z.gcd (Fs / Z.gcd Fs Ft) (Ft / Z.gcd Fs Ft) = 1
  /\ Fs * (Ft / Z.gcd Fs Ft) = Ft * (Fs / Z.gcd Fs Ft).
Proof.
  intros Fs Ft HFs HFt Hfuel.
  pose proof (reducedDenominator_spec fuel Fs Ft HFs HFt Hfuel) as Hred.
  repeat apply conj.
  - done.
  - unfold LanczosResampler_new. fold Fs Ft. rewrite Hred.
    eexists. split; [reflexivity |]. by rewrite precomputeKernels_count.
  - apply gcd_div_coprime; lia.
  - destruct (Z.gcd_divide_l Fs Ft) as [a Ha], (Z.gcd_divide_r Fs Ft) as [b Hb].
    assert (Z.gcd Fs Ft <> 0) as Hg by (intros H0; rewrite H0 in Ha; lia).
    remember (Z.gcd Fs Ft) as g eqn:Eg. clear Eg.
    replace (Fs / g) with a by (apply Z.div_unique_exact; lia).
    replace (Ft / g) with b by (apply Z.div_unique_exact; lia).
    rewrite Ha, Hb. ring.
Qed.

(** *** Timing of the resampler

    [schedule] collects the members that only the constructor writes;
    [phase] the two counters that [fillFragment] advances once per output
    sample. *)
Definition schedule (r : LanczosResampler)
    : Format * Format * Z * Z * Z * list float :=
  (myFormatFrom r, myFormatTo r, myPrecomputedKernelCount r, myKernelSize r,
   myKernelParameter r, myPrecomputedKernels r).

Definition phase (r : LanczosResampler) : Z * Z :=
  (myCurrentKernelIndex r, myTimeIndex r).

(** The sample rates fit the [uInt32] arithmetic of the time index, and the
    kernel count is the one the constructor computes. *)
Record rates_ok (r : LanczosResampler) : Prop := {
  rate_from_pos : 0 < sampleRate (myFormatFrom r);
  rate_to_pos : 0 < sampleRate (myFormatTo r);
  rate_sum : sampleRate (myFormatFrom r) + sampleRate (myFormatTo r) <= 2 ^ 32;
  rate_count :
    myPrecomputedKernelCount r
      = sampleRate (myFormatTo r)
          / Z.gcd (sampleRate (myFormatFrom r)) (sampleRate (myFormatTo r))
}.

(** The kernel index and the time index move in step: the time index is
    the position, in units of [1 / Ft] source samples, that belongs to the
    kernel index. *)
Definition phase_locked (r : LanczosResampler) : Prop :=
  0 <= myCurrentKernelIndex r < myPrecomputedKernelCount r
  /\ myTimeIndex r
       = (myCurrentKernelIndex r * sampleRate (myFormatFrom r))
           mod sampleRate (myFormatTo r).

(** [samplesToShift] of the next iteration of [fillFragment]. *)
Definition samplesToShift (r : LanczosResampler) : Z :=
  wrap32 (myTimeIndex r + sampleRate (myFormatFrom r)) / sampleRate (myFormatTo r).

(** Source samples that [n] successive iterations shift in. *)
Fixpoint consumed (n : nat) (st : Audio) : Z :=
  match n with
  | O => 0
  | S n' => samplesToShift (this st) + consumed n' (advance st)
  end.

(** The read position stays inside the source fragment. *)
Definition in_fragment (r : LanczosResampler) : Prop :=
  0 <= myFragmentIndex r < fragmentSize (myFormatFrom r).

Lemma shiftSamples_body_schedule st :
  schedule (this (shiftSamples_body st)) = schedule (this st)
  /\ phase (this (shiftSamples_body st)) = phase (this st).
Proof.
  unfold shiftSamples_body.
  destruct st as [r p c]; simpl. destruct r; simpl.
  repeat (match goal with
          | |- context [HighPass_apply ?h ?x] => destruct (HighPass_apply h x)
          | |- context [myNextFragmentCallback ?q] =>
              destruct (myNextFragmentCallback q) as [[?|] ?]
          | |- context [if ?c then _ else _] => destruct c
          end; simpl); done.
Qed.

Lemma shiftSamples_schedule m st :
  schedule (this (shiftSamples m st)) = schedule (this st)
  /\ phase (this (shiftSamples m st)) = phase (this st).
Proof.
  unfold shiftSamples.
  induction (Z.to_nat m) as [| k [IH1 IH2]]; simpl; [done |].
  destruct (shiftSamples_body_schedule (Nat.iter k shiftSamples_body st))
    as [-> ->]. done.
Qed.

Lemma fillFragment_refill_schedule st :
  schedule (this (fillFragment_refill st)) = schedule (this st)
  /\ phase (this (fillFragment_refill st)) = phase (this st).
Proof.
  unfold fillFragment_refill.
  destruct (myIsUnderrun _); [| done].
  destruct (myNextFragmentCallback _) as [[nf |] p']; simpl; [| done].
  by destruct (this st).
Qed.

(** One iteration of [fillFragment] on the members of [schedule] and
    [phase]. *)
Lemma advance_schedule st :
  schedule (this (advance st)) = schedule (this st)
  /\ myCurrentKernelIndex (this (advance st))
       = wrap32 (myCurrentKernelIndex (this st) + 1)
           mod myPrecomputedKernelCount (this st)
  /\ myTimeIndex (this (advance st))
       = (if samplesToShift (this st) =? 0
          then wrap32 (myTimeIndex (this st) + sampleRate (myFormatFrom (this st)))
          else wrap32 (myTimeIndex (this st) + sampleRate (myFormatFrom (this st)))
                 mod sampleRate (myFormatTo (this st))).
Proof.
  unfold advance, fillFragment_body, samplesToShift.
  destruct st as [r p c]. cbn [this producer cerr].
  destruct r as [from to cnt sz ki kp ks cur fi un b bL bR hL hR h ti].
  cbn -[wrap32 Z.div Z.modulo].
  destruct (_ =? 0); cbn -[wrap32 Z.div Z.modulo]; [done |].
  match goal with
  | |- context [shiftSamples ?m ?s] =>
      destruct (shiftSamples_schedule m s) as [H1 H2];
      set (X := shiftSamples m s) in *
  end.
  clearbody X. unfold schedule, phase in *. cbn -[wrap32 Z.div Z.modulo] in *.
  injection H1 as ? ? ? ? ? ?. injection H2 as ? ?.
  repeat split; congruence.
Qed.

Lemma kernel_index_step (Fs Ft k : Z) :
  0 < Fs -> 0 < Ft -> 0 <= k < Ft / Z.gcd Fs Ft ->
  (((k + 1) mod (Ft / Z.gcd Fs Ft)) * Fs) mod Ft = (k * Fs + Fs) mod Ft.
Proof.
  intros HFs HFt Hk.
  destruct (Z.eq_dec (k + 1) (Ft / Z.gcd Fs Ft)) as [E | E].
  - rewrite E, Z_mod_same_full, Z.mul_0_l, Z.mod_0_l by lia.
    replace (k * Fs + Fs) with ((k + 1) * Fs) by ring. rewrite E.
    destruct (Z.gcd_divide_l Fs Ft) as [a Ha], (Z.gcd_divide_r Fs Ft) as [b Hb].
    assert (Z.gcd Fs Ft <> 0) as Hg by (intros H0; rewrite H0 in Ha; lia).
    remember (Z.gcd Fs Ft) as g eqn:Eg. clear Eg.
    replace (Ft / g) with b by (apply Z.div_unique_exact; lia).
    rewrite Ha at 1. replace (b * (a * g)) with (a * Ft) by (rewrite Hb; ring).
    symmetry. apply Z.mod_mul. lia.
  - rewrite (Z.mod_small (k + 1)) by lia. f_equal. ring.
Qed.

Lemma advance_phase_locked st :
  rates_ok (this st) -> phase_locked (this st) ->
  rates_ok (this (advance st)) /\ phase_locked (this (advance st)).
Proof.
  intros [H1 H2 H3 H4] [Hk Ht].
  destruct (advance_schedule st) as (Hs & Hki & Hti).
  unfold schedule in Hs. injection Hs as E1 E2 E3 E4 E5 E6.
  set (Fs := sampleRate (myFormatFrom (this st))) in *.
  set (Ft := sampleRate (myFormatTo (this st))) in *.
  assert (0 <= myTimeIndex (this st) < Ft) as Hrange
    by (rewrite Ht; apply Z.mod_pos_bound; lia).
  assert (wrap32 (myTimeIndex (this st) + Fs) = myTimeIndex (this st) + Fs) as Hw
    by (unfold wrap32; rewrite Z.mod_small; lia).
  assert (0 < myPrecomputedKernelCount (this st)) as Hcount by lia.
  assert (0 < Z.gcd Fs Ft) as Hg.
  { pose proof (Z.gcd_nonneg Fs Ft) as Hnn.
    destruct (Z.eq_dec (Z.gcd Fs Ft) 0) as [Hz | Hz]; [| lia].
    apply Z.gcd_eq_0_l in Hz. lia. }
  assert (myPrecomputedKernelCount (this st) <= Ft) as Hle
    by (rewrite H4; apply Z.div_le_upper_bound; nia).
  assert (wrap32 (myCurrentKernelIndex (this st) + 1)
            = myCurrentKernelIndex (this st) + 1) as Hwk
    by (unfold wrap32; rewrite Z.mod_small; lia).
  split.
  - split; rewrite ?E1, ?E2, ?E3; done.
  - unfold phase_locked. rewrite E1, E2, E3. fold Fs Ft.
    rewrite Hki, Hti, Hwk. split; [apply Z.mod_pos_bound; lia |].
    rewrite H4, kernel_index_step by (rewrite <- ?H4; lia).
    unfold samplesToShift. fold Fs Ft. rewrite Hw.
    assert ((myTimeIndex (this st) + Fs) mod Ft
              = (myCurrentKernelIndex (this st) * Fs + Fs) mod Ft) as Hmod
      by (rewrite Ht, Zplus_mod_idemp_l; reflexivity).
    destruct (Z.eqb_spec ((myTimeIndex (this st) + Fs) / Ft) 0) as [E | E];
      [| done].
    rewrite <- Hmod. symmetry. apply Z.mod_small.
    apply Z.div_small_iff in E; lia.
Qed.

Lemma iter_advance_phase_locked n st :
  rates_ok (this st) -> phase_locked (this st) ->
  rates_ok (this (Nat.iter n advance st))
  /\ phase_locked (this (Nat.iter n advance st)).
Proof.
  intros Hr Hp. induction n as [| n [IH1 IH2]]; [done |].
  cbn [Nat.iter]. by apply advance_phase_locked.
Qed.

Lemma iter_advance_schedule n st :
  schedule (this (Nat.iter n advance st)) = schedule (this st).
Proof.
  induction n as [| n IH]; [done |]. rewrite <- IH.
  exact (proj1 (advance_schedule (Nat.iter n advance st))).
Qed.

(** X2.  The kernel index follows the time index.  The constructor starts both
    at zero, and a call of [fillFragment], whatever it is given, neither
    touches the formats, the kernel count and size or the table of
    precomputed kernels, nor lets the two counters part: afterwards the
    kernel index [k] is again a valid row of the table and the time index
    is [(k * Fs) mod Ft].  The sample rates must satisfy
    [Fs + Ft <= 2 ^ 32] for the [uInt32] sum not to wrap. *)
Theorem X2_kernel_follows_time (st : Audio) (fragment : list float) (len : Z) :
  rates_ok (this st) -> phase_locked (this st) ->
  let st' := fst (fillFragment st fragment len) in
  schedule (this st') = schedule (this st)
  /\ rates_ok (this st')
  /\ phase_locked (this st')
  /\ 0 <= myTimeIndex (this st') < sampleRate (myFormatTo (this st')).
Proof.
  intros Hr Hp st'.
  assert (schedule (this st') = schedule (this st)
          /\ rates_ok (this st') /\ phase_locked (this st')) as (Hs & Hr' & Hp').
  { unfold st', fillFragment.
    destruct (fillFragment_refill_schedule st) as [Hs1 Hp1].
    unfold schedule in Hs1. injection Hs1 as E1 E2 E3 E4 E5 E6.
    unfold phase in Hp1. injection Hp1 as E7 E8.
    assert (rates_ok (this (fillFragment_refill st))) as Hr1
      by (destruct Hr as [H1 H2 H3 H4]; split; rewrite ?E1, ?E2, ?E3; done).
    assert (phase_locked (this (fillFragment_refill st))) as Hl1
      by (unfold phase_locked; rewrite E1, E2, E3, E7, E8; exact Hp).
    destruct (myCurrentFragment _); cbn [fst].
    2:{ unfold schedule. by rewrite E1, E2, E3, E4, E5, E6. }
    rewrite fillFragment_loop_fst.
    split; [| by apply iter_advance_phase_locked].
    rewrite iter_advance_schedule. unfold schedule.
    by rewrite E1, E2, E3, E4, E5, E6. }
  do 3 (split; [done |]).
  destruct Hp' as [_ ->]. apply Z.mod_pos_bound. by destruct Hr'.
Qed.

(** The constructor establishes what [X2_kernel_follows_time] needs. *)
Lemma LanczosResampler_new_phase_locked (fuel : nat) (formatFrom formatTo : Format)
    (kernelParameter : Z) (r : LanczosResampler) :
  0 < sampleRate formatFrom ->
  0 < sampleRate formatTo ->
  sampleRate formatFrom + sampleRate formatTo <= 2 ^ 32 ->
  sampleRate formatFrom + sampleRate formatTo <= Z.of_nat fuel ->
  LanczosResampler_new fuel formatFrom formatTo kernelParameter = Some r ->
  rates_ok r /\ phase_locked r.
Proof.
  intros HFs HFt Hsum Hfuel. unfold LanczosResampler_new.
  rewrite (reducedDenominator_spec fuel) by lia.
  intros [= <-]. unfold precomputeKernels. cbn.
  assert (0 < Z.gcd (sampleRate formatFrom) (sampleRate formatTo)) as Hg.
  { pose proof (Z.gcd_nonneg (sampleRate formatFrom) (sampleRate formatTo)).
    destruct (Z.eq_dec (Z.gcd (sampleRate formatFrom) (sampleRate formatTo)) 0)
      as [H0 | H0]; [| lia].
    apply Z.gcd_eq_0_l in H0. lia. }
  split; [by split |].
  split; cbn; [| by rewrite Z.mod_0_l by lia].
  split; [done |]. apply Z.div_str_pos. split; [done |].
  apply Z.divide_pos_le; [lia | apply Z.gcd_divide_r].
Qed.

(** *** The table of precomputed kernels *)

(** The value the inner loop of [precomputeKernels] stores for tap [j] of a
    kernel centred at [center]:
    [lanczosKernel(center - j + a - 1, a) * CLIPPING_FACTOR]. *)
Definition kernel_tap (a : Z) (center : float) (j : Z) : float :=
  F32.mul
    (lanczosKernel
       (F32.sub (F32.add (F32.sub center (F32.of_Z j)) (F32.of_Z a)) F32Const.one)
       a)
    F32Const.CLIPPING_FACTOR.

(** [timeIndex / float(myFormatTo.sampleRate)] for kernel [i], whose time
    index is [(i * Fs) mod Ft]. *)
Definition kernel_center (r : LanczosResampler) (i : Z) : float :=
  F32.div
    (F32.of_Z ((i * sampleRate (myFormatFrom r)) mod sampleRate (myFormatTo r)))
    (F32.of_Z (sampleRate (myFormatTo r))).

Lemma precompute_taps_length a center base n j table :
  length (precompute_taps a center base n j table) = length table.
Proof.
  revert j table. induction n as [| n IH]; intros j table; [done |].
  cbn [precompute_taps]. by rewrite IH, length_insert.
Qed.

Lemma precompute_taps_lookup a center base n j table (k : nat) :
  0 <= base -> 0 <= j ->
  base + j + Z.of_nat n <= Z.of_nat (length table) ->
  precompute_taps a center base n j table !! k
    = if decide (base + j <= Z.of_nat k < base + j + Z.of_nat n)
      then Some (kernel_tap a center (Z.of_nat k - base))
      else table !! k.
Proof.
  intros Hbase. revert j table.
  induction n as [| n IH]; intros j table Hj Hlen.
  - cbn [precompute_taps]. by rewrite decide_False by lia.
  - cbn [precompute_taps]. rewrite IH by (rewrite ?length_insert; lia).
    destruct (decide (base + (j + 1) <= Z.of_nat k < base + (j + 1) + Z.of_nat n))
      as [Hin | Hout].
    + by rewrite decide_True by lia.
    + destruct (decide (k = Z.to_nat (base + j))) as [-> | Hne].
      * rewrite decide_True by lia.
        rewrite list_lookup_insert_eq by lia.
        by replace (Z.of_nat (Z.to_nat (base + j)) - base) with j by lia.
      * rewrite decide_False by lia.
        by rewrite list_lookup_insert_ne.
Qed.

Lemma precompute_kernels_length r n i t table :
  length (precompute_kernels r n i t table) = length table.
Proof.
  revert i t table. induction n as [| n IH]; intros i t table; [done |].
  cbn [precompute_kernels]. by rewrite IH, precompute_taps_length.
Qed.

Lemma precompute_kernels_lookup r n i table :
  let Fs := sampleRate (myFormatFrom r) in
  let Ft := sampleRate (myFormatTo r) in
  let size := myKernelSize r in
  0 < Fs -> 0 < Ft -> Fs + Ft <= 2 ^ 32 ->
  0 < myKernelParameter r -> size = 2 * myKernelParameter r ->
  0 <= i -> (i + Z.of_nat n) * size <= Z.of_nat (length table) ->
  Z.of_nat (length table) < 2 ^ 32 ->
  (forall k : nat, Z.of_nat k < i * size ->
     precompute_kernels r n i ((i * Fs) mod Ft) table !! k = table !! k)
  /\ (forall i' j : Z, i <= i' < i + Z.of_nat n -> 0 <= j < size ->
        precompute_kernels r n i ((i * Fs) mod Ft) table
          !! Z.to_nat (i' * size + j)
          = Some (kernel_tap (myKernelParameter r) (kernel_center r i') j)).
Proof.
  intros Fs Ft size HFs HFt Hsum Hkp Hsize. revert i table.
  induction n as [| n IH]; intros i table Hi Hlen Hmax.
  - cbn [precompute_kernels]. split; [done | lia].
  - cbn [precompute_kernels]. fold Fs Ft size.
    assert (wrap32 (size * i) = i * size) as Hbase
      by (unfold wrap32; rewrite Z.mod_small; nia).
    assert (wrap32 (2 * myKernelParameter r) = size) as Htaps
      by (unfold wrap32; rewrite Z.mod_small; nia).
    assert (wrap32 ((i * Fs) mod Ft + Fs) mod Ft = ((i + 1) * Fs) mod Ft) as Htime.
    { pose proof (Z.mod_pos_bound (i * Fs) Ft HFt).
      unfold wrap32. rewrite (Z.mod_small (_ + Fs)) by lia.
      rewrite Zplus_mod_idemp_l. f_equal. ring. }
    rewrite Hbase, Htaps, Htime.
    set (table' := precompute_taps _ _ _ _ _ table).
    assert (length table' = length table) as Hlen'
      by apply precompute_taps_length.
    destruct (IH (i + 1) table') as [IH1 IH2]; [lia | rewrite Hlen'; lia | lia |].
    assert (forall k : nat, table' !! k
              = if decide (i * size + 0 <= Z.of_nat k
                           < i * size + 0 + Z.of_nat (Z.to_nat size))
                then Some (kernel_tap (myKernelParameter r)
                             (F32.div (F32.of_Z ((i * Fs) mod Ft)) (F32.of_Z Ft))
                             (Z.of_nat k - i * size))
                else table !! k) as Htable'.
    { intros k. apply precompute_taps_lookup; nia. }
    split.
    + intros k Hk. rewrite IH1 by lia. rewrite Htable'.
      by rewrite decide_False by lia.
    + intros i' j Hi' Hj.
      destruct (Z.eq_dec i' i) as [-> | Hne].
      * rewrite IH1 by (rewrite Z2Nat.id; nia).
        rewrite Htable', decide_True by (rewrite !Z2Nat.id; nia).
        replace (Z.of_nat (Z.to_nat (i * size + j)) - i * size) with j
          by (rewrite Z2Nat.id; nia).
        reflexivity.
      * apply IH2; lia.
Qed.

(** X3.  The kernel table the constructor builds.  It has one row of
    [2 * kernelParameter] taps for each of the [D = Ft / gcd(Fs, Ft)]
    positions an output sample can have between two source samples; every
    entry is written, row [i] is centred at the fraction
    [((i * Fs) mod Ft) / Ft], and its tap [j] is
    [lanczosKernel(center - j + a - 1, a) * CLIPPING_FACTOR].  It needs
    [Fs + Ft <= 2 ^ 32] and a table of fewer than [2 ^ 32] entries, so that
    no [uInt32] computation wraps. *)
Theorem X3_precomputed_kernels (fuel : nat) (formatFrom formatTo : Format)
    (kernelParameter : Z) (r : LanczosResampler) :
  let Fs := sampleRate formatFrom in
  let Ft := sampleRate formatTo in
  let D := Ft / Z.gcd Fs Ft in
  0 < Fs -> 0 < Ft -> Fs + Ft <= 2 ^ 32 -> Fs + Ft <= Z.of_nat fuel ->
  0 < kernelParameter -> D * (2 * kernelParameter) < 2 ^ 32 ->
  LanczosResampler_new fuel formatFrom formatTo kernelParameter = Some r ->
  Z.of_nat (length (myPrecomputedKernels r)) = D * (2 * kernelParameter)
  /\ forall i j : Z, 0 <= i < D -> 0 <= j < 2 * kernelParameter ->
       myPrecomputedKernels r !! Z.to_nat (i * (2 * kernelParameter) + j)
         = Some (kernel_tap kernelParameter (kernel_center r i) j)
       /\ drop (Z.to_nat (wrap32 (i * myKernelSize r))) (myPrecomputedKernels r)
            !! Z.to_nat j
            = Some (kernel_tap kernelParameter (kernel_center r i) j).
Proof.
  intros Fs Ft D HFs HFt Hsum Hfuel Hkp Hmax. unfold LanczosResampler_new.
  rewrite (reducedDenominator_spec fuel) by lia. fold Fs Ft D.
  intros [= <-].
  assert (0 < D) as HD.
  { assert (0 < Z.gcd Fs Ft) as Hg.
    { pose proof (Z.gcd_nonneg Fs Ft) as Hnn.
      destruct (Z.eq_dec (Z.gcd Fs Ft) 0) as [Hz | Hz]; [| lia].
      apply Z.gcd_eq_0_l in Hz. lia. }
    apply Z.div_str_pos. split; [done |].
    apply Z.divide_pos_le; [lia | apply Z.gcd_divide_r]. }
  assert (wrap32 (2 * kernelParameter) = 2 * kernelParameter) as Hsize
    by (unfold wrap32; rewrite Z.mod_small; nia).
  assert (wrap32 (D * (2 * kernelParameter)) = D * (2 * kernelParameter)) as Hall
    by (unfold wrap32; rewrite Z.mod_small; nia).
  unfold precomputeKernels. cbn -[wrap32 Z.mul Z.div Z.gcd].
  rewrite Hsize, Hall.
  set (r0 := Build_LanczosResampler _ _ _ _ _ _ _ _ _ _ _ _ _ _ _ _ _).
  split.
  - rewrite precompute_kernels_length, length_replicate. nia.
  - intros i j Hi Hj.
    destruct (precompute_kernels_lookup r0 (Z.to_nat D) 0
                (replicate (Z.to_nat (D * (2 * kernelParameter))) F32.zero))
      as [_ Hrow]; try done.
    + rewrite length_replicate. cbn. nia.
    + rewrite length_replicate. nia.
    + cbn -[Z.mul Z.div Z.modulo Z.gcd] in Hrow.
      rewrite Z.mod_0_l in Hrow by lia.
      specialize (Hrow i j).
      assert (wrap32 (i * (2 * kernelParameter)) = i * (2 * kernelParameter)) as Hrow_at
        by (unfold wrap32; rewrite Z.mod_small; nia).
      split.
      * rewrite Hrow by lia. reflexivity.
      * rewrite Hrow_at, lookup_drop, <- Z2Nat.inj_add by nia.
        rewrite Hrow by lia. reflexivity.
Qed.

(** *** The read position in the source fragment *)

Lemma shiftSamples_body_in_fragment st :
  fragmentSize (myFormatFrom (this st)) < 2 ^ 32 ->
  in_fragment (this st) -> in_fragment (this (shiftSamples_body st)).
Proof.
  unfold in_fragment, shiftSamples_body.
  destruct st as [r p c]. cbn [this producer cerr].
  destruct r as [from to cnt sz ki kp ks cur fi un b bL bR hL hR h ti].
  cbn -[wrap32 Z.modulo]. intros Hmax Hfi.
  assert (wrap32 (fi + 1) = fi + 1) as Hw
    by (unfold wrap32; rewrite Z.mod_small; lia).
  repeat (match goal with
          | |- context [HighPass_apply ?h ?x] => destruct (HighPass_apply h x)
          | |- context [if stereo ?f then _ else _] => destruct (stereo f)
          end; cbn -[wrap32 Z.modulo]).
  all: rewrite Hw.
  all: destruct (Z.geb_spec (fi + 1) (fragmentSize from));
    [destruct (myNextFragmentCallback p) as [[nf |] p'] |];
    cbn -[Z.modulo]; try lia; apply Z.mod_pos_bound; lia.
Qed.

Lemma shiftSamples_in_fragment m st :
  fragmentSize (myFormatFrom (this st)) < 2 ^ 32 ->
  in_fragment (this st) -> in_fragment (this (shiftSamples m st)).
Proof.
  intros Hmax Hin. unfold shiftSamples.
  induction (Z.to_nat m) as [| k IH]; [done |]. rewrite Nat.iter_succ.
  apply shiftSamples_body_in_fragment; [| done].
  pose proof (proj1 (shiftSamples_schedule (Z.of_nat k) st)) as Hs.
  unfold shiftSamples in Hs. rewrite Nat2Z.id in Hs.
  unfold schedule in Hs. injection Hs as E1 _ _ _ _ _.
  rewrite E1. exact Hmax.
Qed.

Lemma advance_in_fragment st :
  fragmentSize (myFormatFrom (this st)) < 2 ^ 32 ->
  in_fragment (this st) -> in_fragment (this (advance st)).
Proof.
  intros Hmax Hin. unfold advance, fillFragment_body.
  destruct (_ =? 0); cbn [fst].
  - unfold in_fragment in *. by destruct (this st).
  - apply shiftSamples_in_fragment; unfold in_fragment in *;
      by destruct (this st).
Qed.

(** X4.  A call of [fillFragment] leaves the read position inside the source
    fragment: it is below [fragmentSize], whatever the rates, the length
    and the number of fragments fetched during the call.  This only needs
    the fragment size to fit [uInt32]. *)
Theorem X4_read_position_in_fragment (st : Audio) (fragment : list float) (len : Z) :
  fragmentSize (myFormatFrom (this st)) < 2 ^ 32 ->
  in_fragment (this st) ->
  in_fragment (this (fst (fillFragment st fragment len))).
Proof.
  intros Hmax Hin. unfold fillFragment.
  assert (fragmentSize (myFormatFrom (this (fillFragment_refill st))) < 2 ^ 32
          /\ in_fragment (this (fillFragment_refill st))) as [Hmax1 Hin1].
  { unfold fillFragment_refill, in_fragment in *.
    destruct (myIsUnderrun _); [| done].
    destruct (myNextFragmentCallback _) as [[nf |] p']; cbn [this]; [| done].
    destruct (this st); cbn in *. lia. }
  destruct (myCurrentFragment _); cbn [fst]; [| done].
  rewrite fillFragment_loop_fst.
  induction (Z.to_nat _) as [| n IH]; [done |]. rewrite Nat.iter_succ.
  apply advance_in_fragment; [| done].
  pose proof (iter_advance_schedule n (fillFragment_refill st)) as Hs.
  unfold schedule in Hs. injection Hs as E1 _ _ _ _ _. by rewrite E1.
Qed.

(** *** Source samples used per output sample *)

(** The state in which [fillFragment] calls [shiftSamples]: both counters
    are already advanced. *)
Definition retimed (st : Audio) : Audio :=
  let r := this st in
  let t := wrap32 (myTimeIndex r + sampleRate (myFormatFrom r)) in
  {| this :=
       set_myTimeIndex
         (if t / sampleRate (myFormatTo r) =? 0 then t
          else t mod sampleRate (myFormatTo r))
         (set_myCurrentKernelIndex
            (wrap32 (myCurrentKernelIndex r + 1) mod myPrecomputedKernelCount r) r);
     producer := producer st;
     cerr := cerr st |}.

Lemma advance_shift st :
  advance st
    = Nat.iter (Z.to_nat (samplesToShift (this st))) shiftSamples_body (retimed st).
Proof.
  unfold advance, fillFragment_body, samplesToShift, retimed, shiftSamples.
  destruct st as [r p c]. cbn [this producer cerr].
  destruct r as [from to cnt sz ki kp ks cur fi un b bL bR hL hR h ti].
  cbn -[wrap32 Z.div Z.modulo].
  by destruct (Z.eqb_spec (wrap32 (ti + sampleRate from) / sampleRate to) 0)
    as [-> | _].
Qed.

Lemma advance_time st :
  0 < sampleRate (myFormatTo (this st)) ->
  0 <= sampleRate (myFormatFrom (this st)) ->
  sampleRate (myFormatFrom (this st)) + sampleRate (myFormatTo (this st)) <= 2 ^ 32 ->
  0 <= myTimeIndex (this st) < sampleRate (myFormatTo (this st)) ->
  samplesToShift (this st)
    = (myTimeIndex (this st) + sampleRate (myFormatFrom (this st)))
        / sampleRate (myFormatTo (this st))
  /\ myTimeIndex (this (advance st))
     = (myTimeIndex (this st) + sampleRate (myFormatFrom (this st)))
         mod sampleRate (myFormatTo (this st)).
Proof.
  intros HFt HFs Hsum Ht.
  destruct (advance_schedule st) as (_ & _ & ->).
  unfold samplesToShift.
  assert (wrap32 (myTimeIndex (this st) + sampleRate (myFormatFrom (this st)))
            = myTimeIndex (this st) + sampleRate (myFormatFrom (this st))) as ->
    by (unfold wrap32; rewrite Z.mod_small; lia).
  split; [done |].
  destruct (Z.eqb_spec ((myTimeIndex (this st) + sampleRate (myFormatFrom (this st)))
                          / sampleRate (myFormatTo (this st))) 0) as [E | E];
    [| done].
  symmetry. apply Z.mod_small. apply Z.div_small_iff in E; lia.
Qed.

Lemma consumed_spec (n : nat) (st : Audio) :
  0 <= sampleRate (myFormatFrom (this st)) ->
  0 < sampleRate (myFormatTo (this st)) ->
  sampleRate (myFormatFrom (this st)) + sampleRate (myFormatTo (this st)) <= 2 ^ 32 ->
  0 <= myTimeIndex (this st) < sampleRate (myFormatTo (this st)) ->
  consumed n st
    = (myTimeIndex (this st) + Z.of_nat n * sampleRate (myFormatFrom (this st)))
        / sampleRate (myFormatTo (this st))
  /\ myTimeIndex (this (Nat.iter n advance st))
     = (myTimeIndex (this st) + Z.of_nat n * sampleRate (myFormatFrom (this st)))
         mod sampleRate (myFormatTo (this st)).
Proof.
  revert st. induction n as [| n IH]; intros st HFs HFt Hsum Ht.
  - cbn [consumed Nat.iter]. rewrite Z.mul_0_l, Z.add_0_r.
    by rewrite Z.div_small, Z.mod_small.
  - cbn [consumed]. rewrite Nat.iter_succ_r.
    destruct (advance_time st HFt HFs Hsum Ht) as [Hs Ht'].
    pose proof (proj1 (advance_schedule st)) as Hsch.
    unfold schedule in Hsch. injection Hsch as E1 E2 _ _ _ _.
    set (Fs := sampleRate (myFormatFrom (this st))) in *.
    set (Ft := sampleRate (myFormatTo (this st))) in *.
    destruct (IH (advance st)) as [IHc IHm];
      rewrite ?E1, ?E2; fold Fs Ft; try done.
    { rewrite Ht'. apply Z.mod_pos_bound. lia. }
    rewrite E1, E2 in IHc, IHm. fold Fs Ft in IHc, IHm.
    rewrite IHc, IHm, Hs, Ht'.
    replace (myTimeIndex (this st) + Z.of_nat (S n) * Fs)
      with ((myTimeIndex (this st) + Fs) + Z.of_nat n * Fs) by lia.
    set (a := myTimeIndex (this st) + Fs).
    split; [| by rewrite Zplus_mod_idemp_l].
    assert (a + Z.of_nat n * Fs
              = a / Ft * Ft + (a mod Ft + Z.of_nat n * Fs)) as ->
      by (pose proof (Z.div_mod a Ft); lia).
    by rewrite Z.div_add_l by lia.
Qed.

(** X5.  The conversion does not drift.  Each iteration of [fillFragment]
    shifts [samplesToShift] source samples into the buffers, and over [n]
    iterations started at time index [t0 < Ft] these add up to
    [(t0 + n * Fs) / Ft] while the time index ends at
    [(t0 + n * Fs) mod Ft]: [Ft * consumed + t_n = t0 + n * Fs], so the
    source is read at [Fs / Ft] samples per output sample exactly.  At
    equal rates every output sample shifts in one source sample. *)
Theorem X5_consumption_rate (n : nat) (st : Audio) :
  let Fs := sampleRate (myFormatFrom (this st)) in
  let Ft := sampleRate (myFormatTo (this st)) in
  0 <= Fs -> 0 < Ft -> Fs + Ft <= 2 ^ 32 ->
  0 <= myTimeIndex (this st) < Ft ->
  advance st
    = Nat.iter (Z.to_nat (samplesToShift (this st))) shiftSamples_body (retimed st)
  /\ consumed n st = (myTimeIndex (this st) + Z.of_nat n * Fs) / Ft
  /\ myTimeIndex (this (Nat.iter n advance st))
     = (myTimeIndex (this st) + Z.of_nat n * Fs) mod Ft
  /\ (Fs = Ft -> consumed n st = Z.of_nat n).
Proof.
  intros Fs Ft HFs HFt Hsum Ht.
  split; [apply advance_shift |].
  destruct (consumed_spec n st HFs HFt Hsum Ht) as [Hc Hm].
  fold Fs Ft in Hc, Hm.
  repeat apply conj; try done.
  intros E. rewrite Hc, E.
  rewrite Z.div_add by lia. rewrite Z.div_small by lia. lia.
Qed.

(** *** The period of the schedule *)

Lemma iter_advance_kernel_index (n : nat) (st : Audio) :
  rates_ok (this st) -> phase_locked (this st) ->
  myCurrentKernelIndex (this (Nat.iter n advance st))
    = (myCurrentKernelIndex (this st) + Z.of_nat n)
        mod myPrecomputedKernelCount (this st).
Proof.
  intros Hr Hp. induction n as [| n IH].
  - destruct Hp as [Hk _]. cbn [Nat.iter]. change (Z.of_nat 0) with 0.
    rewrite Z.add_0_r, Z.mod_small by lia. reflexivity.
  - rewrite Nat.iter_succ.
    destruct (advance_schedule (Nat.iter n advance st)) as (_ & -> & _).
    pose proof (iter_advance_schedule n st) as Hsch.
    unfold schedule in Hsch. injection Hsch as _ E2 E3 _ _ _.
    destruct (iter_advance_phase_locked n st Hr Hp) as [Hr' [Hk' _]].
    rewrite E3 in *. rewrite IH in *.
    assert (myPrecomputedKernelCount (this st) < 2 ^ 32) as Hsmall.
    { destruct Hr as [H1 H2 H3 H4]. rewrite H4.
      assert (sampleRate (myFormatTo (this st))
                / Z.gcd (sampleRate (myFormatFrom (this st)))
                        (sampleRate (myFormatTo (this st)))
              <= sampleRate (myFormatTo (this st))); [| lia].
      apply Z.div_le_upper_bound.
      - pose proof (Z.gcd_nonneg (sampleRate (myFormatFrom (this st)))
                      (sampleRate (myFormatTo (this st)))) as Hnn.
        destruct (Z.eq_dec (Z.gcd (sampleRate (myFormatFrom (this st)))
                              (sampleRate (myFormatTo (this st)))) 0) as [Hz | Hz];
          [| lia].
        apply Z.gcd_eq_0_l in Hz. lia.
      - assert (0 < Z.gcd (sampleRate (myFormatFrom (this st)))
                      (sampleRate (myFormatTo (this st)))) as Hg.
        { pose proof (Z.gcd_nonneg (sampleRate (myFormatFrom (this st)))
                        (sampleRate (myFormatTo (this st)))) as Hnn.
          destruct (Z.eq_dec (Z.gcd (sampleRate (myFormatFrom (this st)))
                                (sampleRate (myFormatTo (this st)))) 0) as [Hz | Hz];
            [| lia].
          apply Z.gcd_eq_0_l in Hz. lia. }
        nia. }
    unfold wrap32. rewrite (Z.mod_small (_ + 1) (2 ^ 32)) by lia.
    rewrite Zplus_mod_idemp_l. f_equal. lia.
Qed.

(** X20.  The schedule is periodic.  With [D = Ft / gcd(Fs, Ft)] kernels,
    after [D] output samples the kernel index and the time index are back
    where they were and exactly [Fs / gcd(Fs, Ft)] source samples have been
    shifted in: the alignment of the two sample grids repeats every [D]
    output samples, which is why [D] kernels are enough. *)
Theorem X20_schedule_period (st : Audio) :
  rates_ok (this st) -> phase_locked (this st) ->
  let Fs := sampleRate (myFormatFrom (this st)) in
  let Ft := sampleRate (myFormatTo (this st)) in
  let D := Z.to_nat (myPrecomputedKernelCount (this st)) in
  phase (this (Nat.iter D advance st)) = phase (this st)
  /\ schedule (this (Nat.iter D advance st)) = schedule (this st)
  /\ consumed D st = Fs / Z.gcd Fs Ft
  /\ Z.of_nat D * Fs = Fs / Z.gcd Fs Ft * Ft.
Proof.
  intros Hr Hp. cbv zeta.
  pose proof Hr as [H1 H2 H3 H4]. pose proof Hp as [Hk Ht].
  set (Fs := sampleRate (myFormatFrom (this st))) in *.
  set (Ft := sampleRate (myFormatTo (this st))) in *.
  set (D := Z.to_nat (myPrecomputedKernelCount (this st))).
  destruct (Z.gcd_divide_l Fs Ft) as [a Ha], (Z.gcd_divide_r Fs Ft) as [b Hb].
  assert (0 < Z.gcd Fs Ft) as Hg.
  { pose proof (Z.gcd_nonneg Fs Ft) as Hnn.
    destruct (Z.eq_dec (Z.gcd Fs Ft) 0) as [Hz | Hz]; [| lia].
    apply Z.gcd_eq_0_l in Hz. lia. }
  remember (Z.gcd Fs Ft) as g eqn:Eg. clear Eg.
  assert (Fs / g = a) as Hqa by (symmetry; apply Z.div_unique_exact; lia).
  assert (Ft / g = b) as Hqb by (symmetry; apply Z.div_unique_exact; lia).
  assert (Z.of_nat D = b) as HD by (unfold D; rewrite H4, Hqb; nia).
  assert (Z.of_nat D * Fs = a * Ft) as Hperiod by (rewrite HD, Ha, Hb; ring).
  assert (0 <= myTimeIndex (this st) < Ft) as Hrange
    by (rewrite Ht; apply Z.mod_pos_bound; lia).
  destruct (consumed_spec D st) as [Hc Hm]; try (fold Fs Ft; lia).
  fold Fs Ft in Hc, Hm.
  pose proof (iter_advance_kernel_index D st Hr Hp) as Hidx.
  rewrite H4, Hqb in Hidx, Hk. rewrite HD in Hidx.
  replace (myCurrentKernelIndex (this st) + b)
    with (myCurrentKernelIndex (this st) + 1 * b) in Hidx by lia.
  rewrite Z.mod_add, Z.mod_small in Hidx by lia.
  repeat apply conj.
  - unfold phase. f_equal; [exact Hidx |].
    rewrite Hm, Hperiod, Z.mod_add by lia. apply Z.mod_small. lia.
  - apply iter_advance_schedule.
  - rewrite Hc, Hperiod, Hqa, Z.div_add by lia.
    rewrite Z.div_small by lia. lia.
  - by rewrite Hqa.
Qed.

(** *** Underruns *)

Lemma shiftSamples_body_fragment st :
  (myCurrentFragment (this st) <> None ->
   myCurrentFragment (this (shiftSamples_body st)) <> None)
  /\ ((forall p, fst (myNextFragmentCallback p) = None) ->
      myCurrentFragment (this (shiftSamples_body st)) = myCurrentFragment (this st)).
Proof.
  unfold shiftSamples_body.
  destruct st as [r p c]. cbn [this producer cerr].
  destruct r as [from to cnt sz ki kp ks cur fi un b bL bR hL hR h ti].
  cbn -[wrap32 Z.modulo].
  repeat (match goal with
          | |- context [HighPass_apply ?h ?x] => destruct (HighPass_apply h x)
          | |- context [if stereo ?f then _ else _] => destruct (stereo f)
          end; cbn -[wrap32 Z.modulo]).
  all: destruct (_ >=? _); [| by split];
    destruct (myNextFragmentCallback p) as [[nf |] p'] eqn:Ecb; cbn;
    (split; [done |]); intros Hnone; specialize (Hnone p);
    rewrite Ecb in Hnone; done.
Qed.

Lemma advance_fragment st :
  (myCurrentFragment (this st) <> None ->
   myCurrentFragment (this (advance st)) <> None)
  /\ ((forall p, fst (myNextFragmentCallback p) = None) ->
      myCurrentFragment (this (advance st)) = myCurrentFragment (this st)).
Proof.
  rewrite advance_shift.
  assert (myCurrentFragment (this (retimed st)) = myCurrentFragment (this st))
    as Hre by (unfold retimed; cbn [this]; by destruct (this st)).
  rewrite <- Hre. generalize (retimed st). intros st0.
  induction (Z.to_nat _) as [| k [IH1 IH2]]; [done |].
  rewrite Nat.iter_succ.
  destruct (shiftSamples_body_fragment (Nat.iter k shiftSamples_body st0))
    as [H1 H2].
  split.
  - intros Hsome. by apply H1, IH1.
  - intros Hnone. by rewrite H2, IH2.
Qed.

(** X21.  Underruns do not bring back silence.  Once the resampler has a
    source fragment, it has one after every later call of [fillFragment],
    so the call keeps resampling and never again zeroes the output; and
    while the producer delivers nothing, the fragment in use stays the one
    it was, to be read again from its start. *)
Theorem X21_stale_fragment_kept (st : Audio) (fragment : list float) (len : Z) :
  let st' := fst (fillFragment st fragment len) in
  (myCurrentFragment (this st) <> None -> myCurrentFragment (this st') <> None)
  /\ ((forall p, fst (myNextFragmentCallback p) = None) ->
      myCurrentFragment (this st') = myCurrentFragment (this st)
      /\ (myCurrentFragment (this st) = None ->
          snd (fillFragment st fragment len)
            = replicate (Z.to_nat len) F32.zero ++ drop (Z.to_nat len) fragment)).
Proof.
  intros st'.
  assert ((myCurrentFragment (this st) <> None ->
           myCurrentFragment (this (fillFragment_refill st)) <> None)
          /\ ((forall p, fst (myNextFragmentCallback p) = None) ->
              myCurrentFragment (this (fillFragment_refill st))
                = myCurrentFragment (this st))) as [Hr1 Hr2].
  { unfold fillFragment_refill.
    destruct (myIsUnderrun _); [| by split].
    destruct (myNextFragmentCallback (producer st)) as [[nf |] p'] eqn:Ecb;
      cbn [this]; [| by split].
    split; [by destruct (this st) |].
    intros Hnone. specialize (Hnone (producer st)). by rewrite Ecb in Hnone. }
  assert (forall n s,
            (myCurrentFragment (this s) <> None ->
             myCurrentFragment (this (Nat.iter n advance s)) <> None)
            /\ ((forall p, fst (myNextFragmentCallback p) = None) ->
                myCurrentFragment (this (Nat.iter n advance s))
                  = myCurrentFragment (this s))) as Hiter.
  { intros n s. induction n as [| n [IH1 IH2]]; [done |].
    rewrite Nat.iter_succ.
    destruct (advance_fragment (Nat.iter n advance s)) as [H1 H2].
    split.
    - intros Hsome. by apply H1, IH1.
    - intros Hnone. by rewrite H2, IH2. }
  subst st'. unfold fillFragment.
  destruct (myCurrentFragment (this (fillFragment_refill st))) as [cur |] eqn:Ecur.
  - rewrite fillFragment_loop_fst.
    destruct (Hiter (Z.to_nat
                       (if stereo (myFormatTo (this (fillFragment_refill st)))
                        then Z.shiftr len 1 else len)) (fillFragment_refill st))
      as [H1 H2].
    split.
    + intros _. apply H1. by rewrite Ecur.
    + intros Hnone. rewrite H2, Ecur by done.
      split; [by apply Hr2 |].
      intros Habs. by rewrite <- Hr2 in Habs.
  - cbn [fst snd]. split.
    + intros Hsome. by apply Hr1 in Hsome.
    + intros Hnone. rewrite Ecur. split; [by apply Hr2 | done].
Qed.

(** *** Mono source, stereo target *)

Lemma frames_upmix n st (i : nat) :
  stereo (myFormatFrom (this st)) = false ->
  stereo (myFormatTo (this st)) = true ->
  (i < n)%nat ->
  is_Some (frames n st !! (2 * i)%nat)
  /\ frames n st !! (2 * i)%nat = frames n st !! (2 * i + 1)%nat.
Proof.
  revert st i. induction n as [| n IH]; intros st i HFrom HTo Hi; [lia |].
  cbn [frames]. unfold frame. rewrite HFrom, HTo.
  destruct i as [| i]; [by split; [eexists |] |].
  replace (2 * S i)%nat with (S (S (2 * i))) by lia.
  replace (S (S (2 * i)) + 1)%nat with (S (S (2 * i + 1))) by lia.
  cbn [app lookup list_lookup].
  pose proof (proj1 (advance_schedule st)) as Hsch.
  unfold schedule in Hsch. injection Hsch as E1 E2 _ _ _ _.
  apply IH; [by rewrite E1 | by rewrite E2 | lia].
Qed.

(** X6.  A mono source played to a stereo target gives both channels the same
    signal: in the array a call of [fillFragment] fills, entries [2 * i]
    and [2 * i + 1] are equal for every output sample [i] of the call. *)
Theorem X6_mono_source_both_channels (st : Audio) (fragment : list float)
    (len : Z) (i : nat) :
  is_uInt32 len ->
  (Z.to_nat len <= length fragment)%nat ->
  stereo (myFormatFrom (this st)) = false ->
  stereo (myFormatTo (this st)) = true ->
  myCurrentFragment (this (fillFragment_refill st)) <> None ->
  2 * Z.of_nat i + 1 < len ->
  is_Some (snd (fillFragment st fragment len) !! (2 * i)%nat)
  /\ snd (fillFragment st fragment len) !! (2 * i)%nat
     = snd (fillFragment st fragment len) !! (2 * i + 1)%nat.
Proof.
  intros Hlen Hfrag HFrom HTo Hcur Hi.
  rewrite (fillFragment_spec st len fragment Hlen Hfrag). cbv zeta.
  destruct (myCurrentFragment (this (fillFragment_refill st))); [| done].
  cbn [snd].
  destruct (fillFragment_refill_schedule st) as [Hsch _].
  unfold schedule in Hsch. injection Hsch as E1 E2 _ _ _ _.
  rewrite E2, HTo.
  assert (i < Z.to_nat (len / 2))%nat as Hin.
  { assert (Z.of_nat i + 1 <= len / 2); [| lia].
    apply Z.div_le_lower_bound; lia. }
  destruct (frames_upmix (Z.to_nat (len / 2)) (fillFragment_refill st) i)
    as [Hsome Heq]; [by rewrite E1 | by rewrite E2 | done |].
  assert (length (frames (Z.to_nat (len / 2)) (fillFragment_refill st))
            = (Z.to_nat (len / 2) * 2)%nat) as Hl.
  { rewrite frames_length. unfold channels. by rewrite E2, HTo. }
  rewrite !lookup_app_l by lia. done.
Qed.

End Lanczos.

(** ** Console.cxx: effects *)

(** How a C++ call ends: normally with a value, with an exception in
    flight, or in undefined behaviour (here: a call through a pointer to a
    local object whose lifetime is over). *)
Inductive result (A : Type) : Type :=
  | Val (a : A)
  | Exn
  | Undef.
Arguments Val {A} a.
Arguments Exn {A}.
Arguments Undef {A}.

(** A computation over a mutable state [St].  The state survives an
    exception: what was written before the [throw] stays written. *)
Definition Run (St A : Type) : Type := St -> result A * St.

Declare Scope run_scope.
Delimit Scope run_scope with run.

Section RunOps.
Context {St : Type}.

Definition ret {A} (a : A) : Run St A := fun s => (Val a, s).

Definition bind {A B} (m : Run St A) (k : A -> Run St B) : Run St B :=
  fun s =>
    match m s with
    | (Val a, s') => k a s'
    | (Exn, s') => (Exn, s')
    | (Undef, s') => (Undef, s')
    end.

(** [try { m } catch (...) { handler }] *)
Definition try_catch {A} (m handler : Run St A) : Run St A :=
  fun s =>
    match m s with
    | (Exn, s') => handler s'
    | other => other
    end.

(** [a && b] with its short circuit. *)
Definition and_also (a b : Run St bool) : Run St bool :=
  bind a (fun x => if x then b else ret false).

Definition gets {A} (f : St -> A) : Run St A := fun s => (Val (f s), s).
Definition modify (f : St -> St) : Run St unit := fun s => (Val tt, f s).

(** A body run [n] times in a row. *)
Fixpoint repeat_run (n : nat) (body : Run St unit) : Run St unit :=
  match n with
  | O => ret tt
  | S n' => bind body (fun _ => repeat_run n' body)
  end.

(** [for (int i = lo; i < hi; ++i) body], for a body that does not
    mention [i]. *)
Definition for_int (lo hi : Z) (body : Run St unit) : Run St unit :=
  repeat_run (Z.to_nat (hi - lo)) body.

End RunOps.

Notation "'let*' x ':=' m 'in' k" := (bind m (fun x => k))
  (at level 10, x name, m at level 100, k at level 200) : run_scope.
Notation "m1 ';;;' m2" := (bind m1 (fun _ => m2))
  (at level 100, m2 at level 200, right associativity) : run_scope.

(** ** Console.cxx: serialization interface *)

(** Modelled from the spec: the [Serializer] class, whose code is not part
    of this source tree.  A serializer is the sequence of bytes written and
    not yet read; writing appends at the end and reading consumes from the
    front. *)
Definition Serializer : Type := list Z.

(** Modelled from the spec: the [Serializable] interface ([save] is a
    [const] method, [load] updates the object in place); both return a
    [bool] and may throw. *)
Class Serializable (A : Type) : Type := {
  save : A -> Run Serializer bool;
  load : Run (A * Serializer) bool
}.

(** Modelled from the spec: what "must round-trip exactly" asks of one
    serializable component.  [save] appends an encoding of the object that
    does not depend on what the stream holds already, and [load] of a
    stream that starts with this encoding consumes exactly the encoding and
    leaves the object equal to the saved one.  The cartridge of this
    source tree does not have this property (see [cart_not_lawful]
    below). *)
Class SerializableLaws (A : Type) `{Serializable A} : Prop := {
  save_appends : forall (x : A) (s : Serializer),
    save x s = (fst (save x []), s ++ snd (save x []));
  load_save : forall (x y : A) (rest : Serializer),
    fst (save x []) = Val true ->
    load (y, snd (save x []) ++ rest) = (Val true, (x, rest))
}.

(** Modelled from the spec: the same requirement for one saved object [x]
    alone.  It is a condition on a component, not a fact about every
    component of this source tree: [CartStrongArmDev::save] and
    [CartStrongArmDev::load] write and read nothing, and a cartridge whose
    ROM can change does not meet it (see [cart_round_trips_only_itself]
    below). *)
Record round_trips {A : Type} `{!Serializable A} (x : A) : Prop := {
  rt_save_appends : forall s : Serializer,
    save x s = (fst (save x []), s ++ snd (save x []));
  rt_load_save : forall (y : A) (rest : Serializer),
    fst (save x []) = Val true ->
    load (y, snd (save x []) ++ rest) = (Val true, (x, rest))
}.

Lemma laws_round_trips {A : Type} `{SerializableLaws A} (x : A) : round_trips x.
Proof. split; [apply save_appends | apply load_save]. Qed.

(** ** Console.cxx: the console *)

(** [FrameLayout] of [FrameLayout.hxx]; both values occur in Console.cxx. *)
Inductive FrameLayout : Type := ntsc | pal.

Definition FrameLayout_eqb (a b : FrameLayout) : bool :=
  match a, b with
  | ntsc, ntsc | pal, pal => true
  | _, _ => false
  end.

(** What [TIA::myFrameManager] points to: the console's own frame manager
    or one of the detectors that live on the stack of the autodetection
    functions. *)
Inductive FrameManagerRef : Type :=
  | ref_myFrameManager
  | ref_frameLayoutDetector
  | ref_ystartDetector.

(** [YSTART_EXTRA] *)
Definition YSTART_EXTRA : Z := 2.

(** [PropertyType] of [Props.hxx]: the keys used below. *)
Inductive PropertyType : Type := Display_Format | Display_YStart | Display_Height.

(** [ConsoleTiming] of [ConsoleTiming.hxx]. *)
Inductive ConsoleTiming : Type :=
  | ConsoleTiming_ntsc
  | ConsoleTiming_pal
  | ConsoleTiming_secam.

(** [out << n] for an unsigned number. *)
Definition decimal (n : Z) : string := pretty (Z.to_N n).

(** [fmt.compare(0, n, s) == 0]: the first [n] characters of [fmt], or
    all of it when it is shorter, are the string [s]. *)
Definition compare_0 (n : nat) (s fmt : string) : bool :=
  String.eqb (String.substring 0 n fmt) s.

(** The second index of [palettes] in [setPalette]. *)
Definition column_of (displayFormat : string) : Z :=
  if compare_0 3 "PAL" displayFormat then 1
  else if compare_0 5 "SECAM" displayFormat then 2
  else 0.

Section Console.

#[local] Open Scope run_scope.

(** Collaborators whose code is outside this source tree: the emulated
    machine ([System] with the CPU, the RIOT, the TIA, the cartridge and
    the frame manager the console owns), the controllers, the switches,
    the host side ([OSystem]: settings, sound, frame buffer, together
    with the audio plumbing [initializeAudio] rebuilds) and the two
    detectors. *)
Context {System Controller Switches OSystem : Type}.
Context {FrameLayoutDetector YStartDetector : Type}.
Context `{!Serializable System, !Serializable Controller, !Serializable Switches}.

(** The state the emulation acts on while it runs. *)
Definition Emulation : Type := System * Controller * Controller * Switches.

(** [Settings::getBool], [Settings::setValue], [Sound::close]. *)
Variable getBool : string -> OSystem -> bool.
Variable setValue : string -> bool -> OSystem -> OSystem.
Variable sound_close : OSystem -> OSystem.
(** The rest of [initializeAudio] after [sound().close()]: the updates of
    [myEmulationTiming], [createAudioQueue], [TIA::setAudioQueue] and
    [Sound::open]. *)
Variable audio_setup : OSystem -> OSystem.

(** [TIA::update()] and [System::reset(bool)] with the console's own
    frame manager installed. *)
Variable TIA_update_own : Emulation * OSystem -> Emulation * OSystem.
Variable System_reset_own : bool -> Emulation * OSystem -> Emulation * OSystem.

(** The same two calls with a detector of type [D] installed. *)
Class Detector (D : Type) : Type := {
  TIA_update_with : Emulation * OSystem * D -> Emulation * OSystem * D;
  System_reset_with : bool -> Emulation * OSystem * D -> Emulation * OSystem * D
}.
Context `{!Detector FrameLayoutDetector, !Detector YStartDetector}.

(** The detectors' own interface. *)
Variable FrameLayoutDetector_new : FrameLayoutDetector.
Variable detectedLayout : FrameLayoutDetector -> FrameLayout.
Variable YStartDetector_new : YStartDetector.
Variable setLayout : FrameLayout -> YStartDetector -> YStartDetector.
Variable detectedYStart : YStartDetector -> Z.

(** The default argument of [autodetectYStart(bool reset)], declared in
    Console.hxx. *)
Variable autodetectYStart_default_reset : bool.

(** The members of [Console] these functions use ([myAutodetectedYstart]
    is a [uInt32]), the pointer the TIA holds to its frame manager, and the
    stack slots of the two detectors ([None] outside the lifetime of the
    local variable). *)
Record Console : Type := {
  mySystem : System;
  myLeftControl : Controller;
  myRightControl : Controller;
  mySwitches : Switches;
  myDisplayFormat : string;
  myAutodetectedYstart : Z;
  myYStartAutodetected : bool;
  myOSystem : OSystem;
  tia_myFrameManager : FrameManagerRef;
  frameLayoutDetector : option FrameLayoutDetector;
  ystartDetector : option YStartDetector
}.

Definition set_mySystem (v : System) (c : Console) :=
  let '(Build_Console _ b c' d e f g h i j k) := c in
  Build_Console v b c' d e f g h i j k.
Definition set_myLeftControl (v : Controller) (c : Console) :=
  let '(Build_Console a _ c' d e f g h i j k) := c in
  Build_Console a v c' d e f g h i j k.
Definition set_myRightControl (v : Controller) (c : Console) :=
  let '(Build_Console a b _ d e f g h i j k) := c in
  Build_Console a b v d e f g h i j k.
Definition set_mySwitches (v : Switches) (c : Console) :=
  let '(Build_Console a b c' _ e f g h i j k) := c in
  Build_Console a b c' v e f g h i j k.
Definition set_myDisplayFormat (v : string) (c : Console) :=
  let '(Build_Console a b c' d _ f g h i j k) := c in
  Build_Console a b c' d v f g h i j k.
Definition set_myAutodetectedYstart (v : Z) (c : Console) :=
  let '(Build_Console a b c' d e _ g h i j k) := c in
  Build_Console a b c' d e v g h i j k.
Definition set_myYStartAutodetected (v : bool) (c : Console) :=
  let '(Build_Console a b c' d e f _ h i j k) := c in
  Build_Console a b c' d e f v h i j k.
Definition set_myOSystem (v : OSystem) (c : Console) :=
  let '(Build_Console a b c' d e f g _ i j k) := c in
  Build_Console a b c' d e f g v i j k.
Definition set_tia_myFrameManager (v : FrameManagerRef) (c : Console) :=
  let '(Build_Console a b c' d e f g h _ j k) := c in
  Build_Console a b c' d e f g h v j k.
Definition set_frameLayoutDetector (v : option FrameLayoutDetector) (c : Console) :=
  let '(Build_Console a b c' d e f g h i _ k) := c in
  Build_Console a b c' d e f g h i v k.
Definition set_ystartDetector (v : option YStartDetector) (c : Console) :=
  let '(Build_Console a b c' d e f g h i j _) := c in
  Build_Console a b c' d e f g h i j v.

(** The emulation state: system, controllers and switches. *)
Definition emulation (c : Console) : Emulation :=
  (mySystem c, myLeftControl c, myRightControl c, mySwitches c).

Definition set_emulation (e : Emulation) (c : Console) : Console :=
  let '(sys, l, r, sw) := e in
  set_mySwitches sw (set_myRightControl r (set_myLeftControl l (set_mySystem sys c))).

(** A call that goes through [TIA::myFrameManager]: [own] when the
    console's frame manager is installed, [with_fld] / [with_ysd] when a
    detector is, undefined when the detector is gone. *)
Definition through_frame_manager
    (own : Emulation * OSystem -> Emulation * OSystem)
    (with_fld : Emulation * OSystem * FrameLayoutDetector
                -> Emulation * OSystem * FrameLayoutDetector)
    (with_ysd : Emulation * OSystem * YStartDetector
                -> Emulation * OSystem * YStartDetector)
    : Run Console unit :=
  fun c =>
    match tia_myFrameManager c with
    | ref_myFrameManager =>
        let '(e, o) := own (emulation c, myOSystem c) in
        (Val tt, set_myOSystem o (set_emulation e c))
    | ref_frameLayoutDetector =>
        match frameLayoutDetector c with
        | Some d =>
            let '(e, o, d') := with_fld (emulation c, myOSystem c, d) in
            (Val tt, set_frameLayoutDetector (Some d')
                       (set_myOSystem o (set_emulation e c)))
        | None => (Undef, c)
        end
    | ref_ystartDetector =>
        match ystartDetector c with
        | Some d =>
            let '(e, o, d') := with_ysd (emulation c, myOSystem c, d) in
            (Val tt, set_ystartDetector (Some d')
                       (set_myOSystem o (set_emulation e c)))
        | None => (Undef, c)
        end
    end.

(** [myTIA->update()] *)
Definition TIA_update : Run Console unit :=
  through_frame_manager TIA_update_own TIA_update_with TIA_update_with.

(** [mySystem->reset(autodetect)] *)
Definition System_reset (autodetect : bool) : Run Console unit :=
  through_frame_manager (System_reset_own autodetect)
    (System_reset_with autodetect) (System_reset_with autodetect).

(** [myTIA->setFrameManager(p)], as the assignment of the pointer. *)
Definition TIA_setFrameManager (p : FrameManagerRef) : Run Console unit :=
  modify (set_tia_myFrameManager p).

(** Reading a local detector; undefined outside its lifetime. *)
Definition local {D A} (slot : Console -> option D) (f : D -> A) : Run Console A :=
  fun c =>
    match slot c with
    | Some d => (Val (f d), c)
    | None => (Undef, c)
    end.

(** [void Console::autodetectFrameLayout(bool reset)] *)
Definition autodetectFrameLayout (reset : bool) : Run Console unit :=
  let* fastscbios := gets (fun c => getBool "fastscbios" (myOSystem c)) in
  modify (fun c => set_myOSystem (setValue "fastscbios" true (myOSystem c)) c);;;
  modify (set_frameLayoutDetector (Some FrameLayoutDetector_new));;;
  TIA_setFrameManager ref_frameLayoutDetector;;;
  (if reset then System_reset true else ret tt);;;
  for_int 0 60 TIA_update;;;
  TIA_setFrameManager ref_myFrameManager;;;
  let* layout := local frameLayoutDetector detectedLayout in
  modify (set_myDisplayFormat
            (if FrameLayout_eqb layout pal then "PAL" else "NTSC"));;;
  modify (fun c => set_myOSystem (setValue "fastscbios" fastscbios (myOSystem c)) c);;;
  modify (set_frameLayoutDetector None).

(** [void Console::autodetectYStart(bool reset)] *)
Definition autodetectYStart (reset : bool) : Run Console unit :=
  let* fastscbios := gets (fun c => getBool "fastscbios" (myOSystem c)) in
  modify (fun c => set_myOSystem (setValue "fastscbios" true (myOSystem c)) c);;;
  modify (set_ystartDetector (Some YStartDetector_new));;;
  let* format := gets myDisplayFormat in
  modify (fun c =>
    set_ystartDetector
      (setLayout (if String.eqb format "PAL" then pal else ntsc)
         <$> ystartDetector c) c);;;
  TIA_setFrameManager ref_ystartDetector;;;
  (if reset then System_reset true else ret tt);;;
  for_int 0 80 TIA_update;;;
  TIA_setFrameManager ref_myFrameManager;;;
  let* ystart := local ystartDetector detectedYStart in
  modify (set_myAutodetectedYstart (wrap32 (ystart - YSTART_EXTRA)));;;
  modify (fun c => set_myOSystem (setValue "fastscbios" fastscbios (myOSystem c)) c);;;
  modify (set_myYStartAutodetected true);;;
  modify (set_ystartDetector None).

(** [bool Console::save(Serializer& out) const].  The line the handler
    sends to [cerr] is left out, here and in [Console_load]. *)
Definition Console_save (c : Console) : Run Serializer bool :=
  try_catch
    (let* ok := save (mySystem c) in
     if negb ok then ret false
     else
       let* ok' :=
         and_also
           (and_also (save (myLeftControl c)) (save (myRightControl c)))
           (save (mySwitches c)) in
       if negb ok' then ret false else ret true)
    (ret false).

(** [member->load(in)] for a member of the console. *)
Definition load_member {A} `{!Serializable A}
    (get : Console -> A) (set : A -> Console -> Console)
    : Run (Console * Serializer) bool :=
  fun '(c, s) =>
    let '(r, (x, s')) := load (get c, s) in
    (r, (set x c, s')).

(** [bool Console::load(Serializer& in)] *)
Definition Console_load : Run (Console * Serializer) bool :=
  try_catch
    (let* ok := load_member mySystem set_mySystem in
     if negb ok then ret false
     else
       let* ok' :=
         and_also
           (and_also (load_member myLeftControl set_myLeftControl)
                     (load_member myRightControl set_myRightControl))
           (load_member mySwitches set_mySwitches) in
       if negb ok' then ret false else ret true)
    (ret false).

(** A call on the console with a serializer that is a local variable of
    the caller; the result carries the serializer's new contents. *)
Definition with_serializer {A} (s : Serializer)
    (m : Run (Console * Serializer) A) : Run Console (A * Serializer) :=
  fun c =>
    match m (c, s) with
    | (Val a, (c', s')) => (Val (a, s'), c')
    | (Exn, (c', _)) => (Exn, c')
    | (Undef, (c', _)) => (Undef, c')
    end.

(** [save(s)] called from a member function. *)
Definition save_this : Run (Console * Serializer) bool :=
  fun '(c, s) =>
    let '(r, s') := Console_save c s in
    (r, (c, s')).

(** [void Console::initializeAudio()] *)
Definition initializeAudio : Run Console unit :=
  modify (fun c => set_myOSystem (sound_close (myOSystem c)) c);;;
  modify (fun c => set_myOSystem (audio_setup (myOSystem c)) c).

(** [void Console::redetectFrameLayout()] *)
Definition redetectFrameLayout : Run Console unit :=
  modify (fun c => set_myOSystem (sound_close (myOSystem c)) c);;;
  let* saved := with_serializer [] save_this in
  autodetectFrameLayout false;;;
  let* again := gets myYStartAutodetected in
  (if again then autodetectYStart autodetectYStart_default_reset else ret tt);;;
  let* loaded := with_serializer (snd saved) Console_load in
  initializeAudio.

(** [void Console::redetectYStart()] *)
Definition redetectYStart : Run Console unit :=
  modify (fun c => set_myOSystem (sound_close (myOSystem c)) c);;;
  let* saved := with_serializer [] save_this in
  autodetectYStart false;;;
  let* loaded := with_serializer (snd saved) Console_load in
  initializeAudio.

(** *** Facts about the detection harness *)

(** The detection run itself: an optional reset, then [n] updates, on the
    emulation state, the host and the installed detector. *)
Definition run_detection {D} `{!Detector D} (reset : bool) (n : nat)
    (start : Emulation * OSystem * D) : Emulation * OSystem * D :=
  Nat.iter n TIA_update_with
    (if reset then System_reset_with true start else start).

(** Where [autodetectFrameLayout] starts its detector from. *)
Definition layout_start (c : Console) : Emulation * OSystem * FrameLayoutDetector :=
  (emulation c, setValue "fastscbios" true (myOSystem c), FrameLayoutDetector_new).

(** Where [autodetectYStart] starts its detector from. *)
Definition ystart_start (c : Console) : Emulation * OSystem * YStartDetector :=
  (emulation c, setValue "fastscbios" true (myOSystem c),
   setLayout (if String.eqb (myDisplayFormat c) "PAL" then pal else ntsc)
     YStartDetector_new).

Definition put_fld (t : Emulation * OSystem * FrameLayoutDetector) (c : Console) : Console :=
  let '(e, o, d) := t in
  set_frameLayoutDetector (Some d) (set_myOSystem o (set_emulation e c)).

Definition put_ysd (t : Emulation * OSystem * YStartDetector) (c : Console) : Console :=
  let '(e, o, d) := t in
  set_ystartDetector (Some d) (set_myOSystem o (set_emulation e c)).

Lemma repeat_TIA_update_fld (n : nat) (c : Console) (d : FrameLayoutDetector) :
  tia_myFrameManager c = ref_frameLayoutDetector ->
  frameLayoutDetector c = Some d ->
  repeat_run n TIA_update c
    = (Val tt, put_fld (Nat.iter n TIA_update_with (emulation c, myOSystem c, d)) c).
Proof.
  revert c d. induction n as [| n IH]; intros c d Hp Hd.
  - destruct c; simpl in *. subst. reflexivity.
  - rewrite Nat.iter_succ_r. cbn [repeat_run]. unfold bind.
    unfold TIA_update at 1, through_frame_manager. rewrite Hp, Hd.
    destruct (TIA_update_with (emulation c, myOSystem c, d)) as [[e o] d'] eqn:Hstep.
    rewrite (IH _ d').
    + f_equal. destruct c, e as [[[? ?] ?] ?]; simpl.
      destruct (Nat.iter n _ _) as [[[[[? ?] ?] ?] ?] ?]. reflexivity.
    + destruct c, e as [[[? ?] ?] ?]; simpl in *. done.
    + destruct c, e as [[[? ?] ?] ?]; simpl in *. done.
Qed.

Lemma repeat_TIA_update_ysd (n : nat) (c : Console) (d : YStartDetector) :
  tia_myFrameManager c = ref_ystartDetector ->
  ystartDetector c = Some d ->
  repeat_run n TIA_update c
    = (Val tt, put_ysd (Nat.iter n TIA_update_with (emulation c, myOSystem c, d)) c).
Proof.
  revert c d. induction n as [| n IH]; intros c d Hp Hd.
  - destruct c; simpl in *. subst. reflexivity.
  - rewrite Nat.iter_succ_r. cbn [repeat_run]. unfold bind.
    unfold TIA_update at 1, through_frame_manager. rewrite Hp, Hd.
    destruct (TIA_update_with (emulation c, myOSystem c, d)) as [[e o] d'] eqn:Hstep.
    rewrite (IH _ d').
    + f_equal. destruct c, e as [[[? ?] ?] ?]; simpl.
      destruct (Nat.iter n _ _) as [[[[[? ?] ?] ?] ?] ?]. reflexivity.
    + destruct c, e as [[[? ?] ?] ?]; simpl in *. done.
    + destruct c, e as [[[? ?] ?] ?]; simpl in *. done.
Qed.

(** The console [autodetectFrameLayout] leaves behind, given the outcome of
    the detection run. *)
Definition after_layout_detection (c : Console)
    (t : Emulation * OSystem * FrameLayoutDetector) : Console :=
  let '(e, o, d) := t in
  set_frameLayoutDetector None
    (set_myOSystem (setValue "fastscbios" (getBool "fastscbios" (myOSystem c)) o)
       (set_myDisplayFormat
          (if FrameLayout_eqb (detectedLayout d) pal then "PAL" else "NTSC")
          (set_tia_myFrameManager ref_myFrameManager (set_emulation e c)))).

(** The console [autodetectYStart] leaves behind. *)
Definition after_ystart_detection (c : Console)
    (t : Emulation * OSystem * YStartDetector) : Console :=
  let '(e, o, d) := t in
  set_ystartDetector None
    (set_myYStartAutodetected true
       (set_myOSystem (setValue "fastscbios" (getBool "fastscbios" (myOSystem c)) o)
          (set_myAutodetectedYstart (wrap32 (detectedYStart d - YSTART_EXTRA))
             (set_tia_myFrameManager ref_myFrameManager (set_emulation e c))))).

Lemma autodetectFrameLayout_spec (reset : bool) (c : Console) :
  autodetectFrameLayout reset c
    = (Val tt, after_layout_detection c (run_detection reset 60 (layout_start c))).
Proof.
  unfold autodetectFrameLayout, run_detection, layout_start, for_int.
  change (Z.to_nat (60 - 0)) with 60%nat.
  unfold bind at 1. unfold gets at 1.
  unfold bind at 1. unfold modify at 1.
  unfold bind at 1. unfold modify at 1.
  unfold bind at 1. unfold TIA_setFrameManager at 1, modify at 1.
  unfold bind at 1.
  set (c1 := set_tia_myFrameManager ref_frameLayoutDetector
               (set_frameLayoutDetector (Some FrameLayoutDetector_new)
                  (set_myOSystem (setValue "fastscbios" true (myOSystem c)) c))).
  assert (tia_myFrameManager c1 = ref_frameLayoutDetector) as Hp1 by (by destruct c).
  assert (frameLayoutDetector c1 = Some FrameLayoutDetector_new) as Hd1 by (by destruct c).
  assert (emulation c1 = emulation c) as He1 by (by destruct c).
  assert (myOSystem c1 = setValue "fastscbios" true (myOSystem c)) as Ho1 by (by destruct c).
  assert (exists c2 d2,
            (if reset then System_reset true else ret tt) c1 = (Val tt, c2)
            /\ tia_myFrameManager c2 = ref_frameLayoutDetector
            /\ frameLayoutDetector c2 = Some d2
            /\ (emulation c2, myOSystem c2, d2)
                 = (if reset
                    then System_reset_with true
                           (emulation c, setValue "fastscbios" true (myOSystem c),
                            FrameLayoutDetector_new)
                    else (emulation c, setValue "fastscbios" true (myOSystem c),
                          FrameLayoutDetector_new))
            /\ c2 = put_fld (emulation c2, myOSystem c2, d2) c1)
    as (c2 & d2 & -> & Hp2 & Hd2 & Hrun & Hc2).
  { destruct reset.
    - unfold System_reset, through_frame_manager. rewrite Hp1, Hd1, He1, Ho1.
      destruct (System_reset_with true _) as [[e o] d'].
      eexists _, d'. split; [reflexivity |].
      destruct c, e as [[[? ?] ?] ?]; simpl. done.
    - exists c1, FrameLayoutDetector_new. rewrite He1, Ho1.
      repeat split; try done. destruct c; reflexivity. }
  unfold bind at 1. rewrite (repeat_TIA_update_fld 60 c2 d2 Hp2 Hd2), Hrun.
  destruct (Nat.iter 60 TIA_update_with _) as [[e o] d].
  unfold bind, TIA_setFrameManager, modify, local.
  rewrite Hc2. unfold after_layout_detection, c1.
  destruct c, e as [[[? ?] ?] ?], (emulation c2) as [[[? ?] ?] ?]; simpl.
  reflexivity.
Qed.

Lemma autodetectYStart_spec (reset : bool) (c : Console) :
  autodetectYStart reset c
    = (Val tt, after_ystart_detection c (run_detection reset 80 (ystart_start c))).
Proof.
  unfold autodetectYStart, run_detection, ystart_start, for_int.
  change (Z.to_nat (80 - 0)) with 80%nat.
  unfold bind at 1. unfold gets at 1.
  unfold bind at 1. unfold modify at 1.
  unfold bind at 1. unfold modify at 1.
  unfold bind at 1. unfold gets at 1.
  unfold bind at 1. unfold modify at 1.
  unfold bind at 1. unfold TIA_setFrameManager at 1, modify at 1.
  unfold bind at 1.
  set (d0 := setLayout (if String.eqb (myDisplayFormat c) "PAL" then pal else ntsc)
               YStartDetector_new).
  match goal with
  | |- context [(if reset then System_reset true else ret tt) ?x] => set (c1 := x)
  end.
  assert (tia_myFrameManager c1 = ref_ystartDetector) as Hp1 by (by destruct c).
  assert (ystartDetector c1 = Some d0) as Hd1 by (by destruct c).
  assert (emulation c1 = emulation c) as He1 by (by destruct c).
  assert (myOSystem c1 = setValue "fastscbios" true (myOSystem c)) as Ho1 by (by destruct c).
  assert (exists c2 d2,
            (if reset then System_reset true else ret tt) c1 = (Val tt, c2)
            /\ tia_myFrameManager c2 = ref_ystartDetector
            /\ ystartDetector c2 = Some d2
            /\ (emulation c2, myOSystem c2, d2)
                 = (if reset
                    then System_reset_with true
                           (emulation c, setValue "fastscbios" true (myOSystem c), d0)
                    else (emulation c, setValue "fastscbios" true (myOSystem c), d0))
            /\ c2 = put_ysd (emulation c2, myOSystem c2, d2) c1)
    as (c2 & d2 & -> & Hp2 & Hd2 & Hrun & Hc2).
  { destruct reset.
    - unfold System_reset, through_frame_manager. rewrite Hp1, Hd1, He1, Ho1.
      destruct (System_reset_with true _) as [[e o] d'].
      eexists _, d'. split; [reflexivity |].
      destruct c, e as [[[? ?] ?] ?]; simpl. done.
    - exists c1, d0. rewrite He1, Ho1.
      repeat split; try done. destruct c; reflexivity. }
  unfold bind at 1. rewrite (repeat_TIA_update_ysd 80 c2 d2 Hp2 Hd2), Hrun.
  destruct (Nat.iter 80 TIA_update_with _) as [[e o] d].
  unfold bind, TIA_setFrameManager, modify, local.
  rewrite Hc2. unfold after_ystart_detection, c1.
  destruct c, e as [[[? ?] ?] ?], (emulation c2) as [[[? ?] ?] ?]; simpl.
  reflexivity.
Qed.

(** *** Facts about [save] and [load] *)

(** What [try { ... return r; } catch (...) { return false; }] makes of the
    outcome [r] of a component. *)
Definition caught (r : result bool) : result bool :=
  match r with
  | Val b => Val b
  | Exn => Val false
  | Undef => Undef
  end.

(** [Console::load], stage by stage: the four components are read in the
    order system, left controller, right controller, switches, and the
    first one that does not return [true] ends the call. *)
Lemma Console_load_staged (c : Console) (s : Serializer) :
  Console_load (c, s) =
    let '(r1, (x1, s1)) := load (mySystem c, s) in
    let c1 := set_mySystem x1 c in
    match r1 with
    | Val true =>
        let '(r2, (x2, s2)) := load (myLeftControl c, s1) in
        let c2 := set_myLeftControl x2 c1 in
        match r2 with
        | Val true =>
            let '(r3, (x3, s3)) := load (myRightControl c, s2) in
            let c3 := set_myRightControl x3 c2 in
            match r3 with
            | Val true =>
                let '(r4, (x4, s4)) := load (mySwitches c, s3) in
                (caught r4, (set_mySwitches x4 c3, s4))
            | _ => (caught r3, (c3, s3))
            end
        | _ => (caught r2, (c2, s2))
        end
    | _ => (caught r1, (c1, s1))
    end.
Proof.
  unfold Console_load, try_catch, and_also, load_member, bind, ret.
  destruct c as [sys l r sw f y b o p fl ys]; cbn.
  destruct (load (sys, s)) as [r1 [x1 s1]].
  destruct r1 as [[|] | |]; cbn; try reflexivity.
  destruct (load (l, s1)) as [r2 [x2 s2]].
  destruct r2 as [[|] | |]; cbn; try reflexivity.
  destruct (load (r, s2)) as [r3 [x3 s3]].
  destruct r3 as [[|] | |]; cbn; try reflexivity.
  destruct (load (sw, s3)) as [r4 [x4 s4]].
  destruct r4 as [[|] | |]; reflexivity.
Qed.

(** [Console::save], stage by stage. *)
Lemma Console_save_staged (c : Console) (s : Serializer) :
  Console_save c s =
    let '(r1, s1) := save (mySystem c) s in
    match r1 with
    | Val true =>
        let '(r2, s2) := save (myLeftControl c) s1 in
        match r2 with
        | Val true =>
            let '(r3, s3) := save (myRightControl c) s2 in
            match r3 with
            | Val true =>
                let '(r4, s4) := save (mySwitches c) s3 in
                (caught r4, s4)
            | _ => (caught r3, s3)
            end
        | _ => (caught r2, s2)
        end
    | _ => (caught r1, s1)
    end.
Proof.
  unfold Console_save, try_catch, and_also, bind, ret.
  destruct (save (mySystem c) s) as [r1 s1].
  destruct r1 as [[|] | |]; cbn; try reflexivity.
  destruct (save (myLeftControl c) s1) as [r2 s2].
  destruct r2 as [[|] | |]; cbn; try reflexivity.
  destruct (save (myRightControl c) s2) as [r3 s3].
  destruct r3 as [[|] | |]; cbn; try reflexivity.
  destruct (save (mySwitches c) s3) as [r4 s4].
  destruct r4 as [[|] | |]; reflexivity.
Qed.

(** [load] writes to the four serialized members only. *)
Lemma Console_load_others (c : Console) (s : Serializer) :
  let c' := fst (snd (Console_load (c, s))) in
  c' = set_emulation (emulation c') c.
Proof.
  rewrite Console_load_staged.
  destruct (load (mySystem c, s)) as [r1 [x1 s1]].
  destruct r1 as [[|] | |]; try (by destruct c).
  destruct (load (myLeftControl c, s1)) as [r2 [x2 s2]].
  destruct r2 as [[|] | |]; try (by destruct c).
  destruct (load (myRightControl c, s2)) as [r3 [x3 s3]].
  destruct r3 as [[|] | |]; try (by destruct c).
  destruct (load (mySwitches c, s3)) as [r4 [x4 s4]].
  by destruct c.
Qed.

Lemma Console_save_emulation (c c' : Console) (s : Serializer) :
  emulation c = emulation c' -> Console_save c s = Console_save c' s.
Proof.
  intros He. unfold emulation in He. injection He as H1 H2 H3 H4.
  unfold Console_save. by rewrite H1, H2, H3, H4.
Qed.

(** A component's [load] failed: it returned [false] or threw. *)
Definition failed (r : result bool) : Prop := r = Val false \/ r = Exn.

(** C3, as amended.  [Console::load] lets no exception escape and returns
    [false] as soon as the [load] of a component returns [false] or throws.
    The components are loaded in place, in the order system, left
    controller, right controller, switches: when the call returns [false]
    the components before the failing one have been restored, the failing
    one is in the state its own [load] left it in, the components after it
    are untouched, and so is every other member of the console.  The call
    returns [true] exactly when all four were restored. *)
Theorem C3_load_amended (c : Console) (s : Serializer) :
  let '(r1, (x1, s1)) := load (mySystem c, s) in
  let '(r2, (x2, s2)) := load (myLeftControl c, s1) in
  let '(r3, (x3, s3)) := load (myRightControl c, s2) in
  let '(r4, (x4, s4)) := load (mySwitches c, s3) in
  let '(r, (c', _)) := Console_load (c, s) in
  r <> Exn
  /\ c' = set_emulation (emulation c') c
  /\ (failed r1 -> r = Val false /\ c' = set_mySystem x1 c)
  /\ (r1 = Val true -> failed r2 ->
      r = Val false /\ c' = set_myLeftControl x2 (set_mySystem x1 c))
  /\ (r1 = Val true -> r2 = Val true -> failed r3 ->
      r = Val false
      /\ c' = set_myRightControl x3 (set_myLeftControl x2 (set_mySystem x1 c)))
  /\ (r1 = Val true -> r2 = Val true -> r3 = Val true -> failed r4 ->
      r = Val false
      /\ c' = set_mySwitches x4
                (set_myRightControl x3 (set_myLeftControl x2 (set_mySystem x1 c))))
  /\ (r1 = Val true -> r2 = Val true -> r3 = Val true -> r4 = Val true ->
      r = Val true
      /\ c' = set_mySwitches x4
                (set_myRightControl x3 (set_myLeftControl x2 (set_mySystem x1 c)))).
Proof using Type.
  clear TIA_update_own System_reset_own FrameLayoutDetector_new detectedLayout
    YStartDetector_new setLayout detectedYStart autodetectYStart_default_reset.
  pose proof (Console_load_others c s) as Hothers.
  rewrite Console_load_staged in Hothers |- *.
  destruct (load (mySystem c, s)) as [r1 [x1 s1]].
  destruct (load (myLeftControl c, s1)) as [r2 [x2 s2]].
  destruct (load (myRightControl c, s2)) as [r3 [x3 s3]].
  destruct (load (mySwitches c, s3)) as [r4 [x4 s4]].
  unfold failed.
  destruct r1 as [[|] | |], r2 as [[|] | |], r3 as [[|] | |], r4 as [[|] | |];
    cbn in Hothers |- *;
    (split; [discriminate |]);
    (split; [exact Hothers |]);
    repeat split; try done; intros; intuition congruence.
Qed.

(** C6.  [autodetectFrameLayout] runs [TIA::update] exactly 60 times with
    the [FrameLayoutDetector] installed and [autodetectYStart] exactly 80
    times with the [YStartDetector] installed.  When they return, the TIA
    points to the console's own frame manager again and the detector is
    gone. *)
Theorem C6_bounded_detection_runs (reset : bool) (c : Console) :
  (exists c' : Console,
     autodetectFrameLayout reset c = (Val tt, c')
     /\ emulation c'
        = fst (fst (Nat.iter 60 TIA_update_with
                      (if reset then System_reset_with true (layout_start c)
                       else layout_start c)))
     /\ tia_myFrameManager c' = ref_myFrameManager
     /\ frameLayoutDetector c' = None)
  /\ (exists c' : Console,
       autodetectYStart reset c = (Val tt, c')
       /\ emulation c'
          = fst (fst (Nat.iter 80 TIA_update_with
                        (if reset then System_reset_with true (ystart_start c)
                         else ystart_start c)))
       /\ tia_myFrameManager c' = ref_myFrameManager
       /\ ystartDetector c' = None).
Proof.
  split.
  - eexists. split; [apply autodetectFrameLayout_spec |].
    unfold run_detection, after_layout_detection.
    destruct (Nat.iter 60 _ _) as [[[[[sys l] r] sw] o] d].
    by destruct c.
  - eexists. split; [apply autodetectYStart_spec |].
    unfold run_detection, after_ystart_detection.
    destruct (Nat.iter 80 _ _) as [[[[[sys l] r] sw] o] d].
    by destruct c.
Qed.

(** C7.  [autodetectFrameLayout] always returns normally, and afterwards
    the display format is "PAL" when the detector reports the PAL layout
    and "NTSC" in every other case. *)
Theorem C7_display_format_fallback (reset : bool) (c : Console) :
  exists (c' : Console) (d : FrameLayoutDetector),
    autodetectFrameLayout reset c = (Val tt, c')
    /\ d = snd (run_detection reset 60 (layout_start c))
    /\ myDisplayFormat c'
       = (if FrameLayout_eqb (detectedLayout d) pal then "PAL" else "NTSC")
    /\ (myDisplayFormat c' = "PAL" <-> detectedLayout d = pal)
    /\ (myDisplayFormat c' = "NTSC" <-> detectedLayout d <> pal).
Proof.
  eexists _, _. split; [apply autodetectFrameLayout_spec |].
  split; [reflexivity |].
  unfold after_layout_detection.
  destruct (run_detection reset 60 (layout_start c)) as [[e o] d]. cbn [snd].
  destruct c, e as [[[? ?] ?] ?]. cbn.
  destruct (detectedLayout d); cbn; repeat split; try done; intros; congruence.
Qed.





(** *** [save] and [load] of components that round-trip *)

(** No exception leaves [Console::save] or [Console::load]. *)
Lemma Console_save_no_exn (c : Console) (s : Serializer) :
  fst (Console_save c s) <> Exn.
Proof.
  rewrite Console_save_staged.
  destruct (save (mySystem c) s) as [r1 s1].
  destruct r1 as [[|] | |]; try done.
  destruct (save (myLeftControl c) s1) as [r2 s2].
  destruct r2 as [[|] | |]; try done.
  destruct (save (myRightControl c) s2) as [r3 s3].
  destruct r3 as [[|] | |]; try done.
  destruct (save (mySwitches c) s3) as [r4 s4].
  by destruct r4 as [[|] | |].
Qed.

Lemma Console_load_no_exn (c : Console) (s : Serializer) :
  fst (Console_load (c, s)) <> Exn.
Proof.
  rewrite Console_load_staged.
  destruct (load (mySystem c, s)) as [r1 [x1 s1]].
  destruct r1 as [[|] | |]; try done.
  destruct (load (myLeftControl c, s1)) as [r2 [x2 s2]].
  destruct r2 as [[|] | |]; try done.
  destruct (load (myRightControl c, s2)) as [r3 [x3 s3]].
  destruct r3 as [[|] | |]; try done.
  destruct (load (mySwitches c, s3)) as [r4 [x4 s4]].
  by destruct r4 as [[|] | |].
Qed.

(** The four components of [c] round-trip. *)
Definition components_round_trip (c : Console) : Prop :=
  round_trips (mySystem c) /\ round_trips (myLeftControl c)
  /\ round_trips (myRightControl c) /\ round_trips (mySwitches c).

(** A successful [save] of such a console into an empty serializer writes
    the four encodings one after the other. *)
Lemma Console_save_round_trips (c : Console) (s : Serializer) :
  components_round_trip c ->
  Console_save c [] = (Val true, s) ->
  fst (save (mySystem c) []) = Val true
  /\ fst (save (myLeftControl c) []) = Val true
  /\ fst (save (myRightControl c) []) = Val true
  /\ fst (save (mySwitches c) []) = Val true
  /\ s = snd (save (mySystem c) []) ++ snd (save (myLeftControl c) [])
          ++ snd (save (myRightControl c) []) ++ snd (save (mySwitches c) []).
Proof.
  intros (Hsys & Hl & Hr & Hsw).
  rewrite Console_save_staged.
  destruct (save (mySystem c) []) as [r1 s1] eqn:E1.
  destruct r1 as [[|] | |]; try (simpl; congruence).
  rewrite (rt_save_appends _ Hl s1).
  destruct (save (myLeftControl c) []) as [r2 e2] eqn:E2. simpl.
  destruct r2 as [[|] | |]; try (simpl; congruence).
  rewrite (rt_save_appends _ Hr (s1 ++ e2)).
  destruct (save (myRightControl c) []) as [r3 e3] eqn:E3. simpl.
  destruct r3 as [[|] | |]; try (simpl; congruence).
  rewrite (rt_save_appends _ Hsw ((s1 ++ e2) ++ e3)).
  destruct (save (mySwitches c) []) as [r4 e4] eqn:E4. simpl.
  destruct r4 as [[|] | |]; try (simpl; congruence).
  intros [= <-]. by rewrite <- !app_assoc.
Qed.

(** Loading what such a console saved, into any console [c']. *)
Lemma Console_load_round_trips (c c' : Console) (s : Serializer) :
  components_round_trip c ->
  Console_save c [] = (Val true, s) ->
  Console_load (c', s) = (Val true, (set_emulation (emulation c) c', [])).
Proof.
  intros Hrt Hsave.
  destruct (Console_save_round_trips c s Hrt Hsave) as (H1 & H2 & H3 & H4 & ->).
  destruct Hrt as (Hsys & Hl & Hr & Hsw).
  rewrite Console_load_staged.
  rewrite (rt_load_save _ Hsys (mySystem c') _ H1).
  rewrite (rt_load_save _ Hl (myLeftControl c') _ H2).
  rewrite (rt_load_save _ Hr (myRightControl c') _ H3).
  rewrite <- (app_nil_r (snd (save (mySwitches c) []))).
  rewrite (rt_load_save _ Hsw (mySwitches c') _ H4).
  by destruct c, c'.
Qed.


(** *** Redetection without assumptions on the components *)

(** The console [redetectFrameLayout] hands to [load]: the one its
    detection runs leave. *)
Definition redetectFrameLayout_detected (c : Console) : Console :=
  let c0 := set_myOSystem (sound_close (myOSystem c)) c in
  let c1 := after_layout_detection c0 (run_detection false 60 (layout_start c0)) in
  if myYStartAutodetected c1
  then after_ystart_detection c1
         (run_detection autodetectYStart_default_reset 80 (ystart_start c1))
  else c1.

(** The console [redetectYStart] hands to [load]. *)
Definition redetectYStart_detected (c : Console) : Console :=
  let c0 := set_myOSystem (sound_close (myOSystem c)) c in
  after_ystart_detection c0 (run_detection false 80 (ystart_start c0)).

(** [load(s)] at the end of a redetection of console [c]: on the console
    [detected] that the detection left, from the serializer that [save(s)]
    filled at the start. *)
Definition reload (c detected : Console) : result bool * (Console * Serializer) :=
  Console_load (detected, snd (Console_save c [])).

(** What [initializeAudio] makes of a console. *)
Definition with_audio (c : Console) : Console :=
  set_myOSystem (audio_setup (sound_close (myOSystem c))) c.

(** Both redetections, whatever [save] and [load] return: the results of
    the two calls are dropped, and only undefined behaviour in a component
    stops the function. *)
Lemma redetectFrameLayout_outcome (c : Console) :
  redetectFrameLayout c =
    match fst (Console_save c []) with
    | Undef => (Undef, set_myOSystem (sound_close (myOSystem c)) c)
    | _ =>
        match fst (reload c (redetectFrameLayout_detected c)) with
        | Undef => (Undef, fst (snd (reload c (redetectFrameLayout_detected c))))
        | _ => (Val tt, with_audio (fst (snd (reload c (redetectFrameLayout_detected c)))))
        end
    end.
Proof.
  unfold redetectFrameLayout, reload, redetectFrameLayout_detected.
  set (c0 := set_myOSystem (sound_close (myOSystem c)) c).
  assert (Console_save c0 [] = Console_save c []) as Es0
    by (apply Console_save_emulation; by destruct c).
  pose proof (Console_save_no_exn c []) as Hne.
  unfold bind at 1. unfold modify at 1. fold c0.
  unfold bind at 1. unfold with_serializer at 1, save_this. rewrite Es0.
  destruct (Console_save c []) as [r s]. cbn [fst snd] in *.
  destruct r as [b | |]; [| done | done].
  unfold bind at 1. rewrite autodetectFrameLayout_spec.
  set (c1 := after_layout_detection c0 _).
  unfold bind at 1. unfold gets at 1.
  unfold bind at 1.
  assert (exists c2,
            (if myYStartAutodetected c1
             then autodetectYStart autodetectYStart_default_reset
             else ret tt) c1 = (Val tt, c2)
            /\ c2 = (if myYStartAutodetected c1
                     then after_ystart_detection c1
                            (run_detection autodetectYStart_default_reset 80
                               (ystart_start c1))
                     else c1))
    as (c2 & -> & <-).
  { destruct (myYStartAutodetected c1).
    - rewrite autodetectYStart_spec. by eexists.
    - by exists c1. }
  unfold bind at 1. unfold with_serializer. cbn [snd].
  pose proof (Console_load_no_exn c2 s) as Hle.
  destruct (Console_load (c2, s)) as [r' [c3 s']]. cbn [fst snd] in *.
  destruct r' as [b' | |]; [| done | reflexivity].
  unfold initializeAudio, bind, modify, with_audio. by destruct c3.
Qed.

Lemma redetectYStart_outcome (c : Console) :
  redetectYStart c =
    match fst (Console_save c []) with
    | Undef => (Undef, set_myOSystem (sound_close (myOSystem c)) c)
    | _ =>
        match fst (reload c (redetectYStart_detected c)) with
        | Undef => (Undef, fst (snd (reload c (redetectYStart_detected c))))
        | _ => (Val tt, with_audio (fst (snd (reload c (redetectYStart_detected c)))))
        end
    end.
Proof.
  unfold redetectYStart, reload, redetectYStart_detected.
  set (c0 := set_myOSystem (sound_close (myOSystem c)) c).
  assert (Console_save c0 [] = Console_save c []) as Es0
    by (apply Console_save_emulation; by destruct c).
  pose proof (Console_save_no_exn c []) as Hne.
  unfold bind at 1. unfold modify at 1. fold c0.
  unfold bind at 1. unfold with_serializer at 1, save_this. rewrite Es0.
  destruct (Console_save c []) as [r s]. cbn [fst snd] in *.
  destruct r as [b | |]; [| done | done].
  unfold bind at 1. rewrite autodetectYStart_spec.
  set (c1 := after_ystart_detection c0 _).
  unfold bind at 1. unfold with_serializer. cbn [snd].
  pose proof (Console_load_no_exn c1 s) as Hle.
  destruct (Console_load (c1, s)) as [r' [c3 s']]. cbn [fst snd] in *.
  destruct r' as [b' | |]; [| done | reflexivity].
  unfold initializeAudio, bind, modify, with_audio. by destruct c3.
Qed.

(** When the [save] at the start succeeded and the components round-trip,
    the reload puts system, controllers and switches back. *)
Lemma reload_round_trips (c detected : Console) :
  fst (Console_save c []) = Val true ->
  components_round_trip c ->
  reload c detected = (Val true, (set_emulation (emulation c) detected, [])).
Proof.
  intros Hsave Hrt. unfold reload.
  destruct (Console_save c []) as [r s] eqn:Es. cbn [fst snd] in *. subst r.
  exact (Console_load_round_trips c detected s Hrt Es).
Qed.

(** In that case neither call has undefined behaviour, which is all that
    the facts on redetection below ask for. *)
Lemma reload_defined (c detected : Console) :
  fst (Console_save c []) = Val true ->
  components_round_trip c ->
  fst (Console_save c []) <> Undef /\ fst (reload c detected) <> Undef.
Proof.
  intros Hsave Hrt. rewrite (reload_round_trips c detected Hsave Hrt), Hsave.
  by split.
Qed.


(** The outcome of the 60 frames [redetectFrameLayout] runs on console
    [c], and of the 80 frames [redetectYStart] runs. *)
Definition redetected_layout (c : Console) : FrameLayout :=
  let c0 := set_myOSystem (sound_close (myOSystem c)) c in
  detectedLayout (snd (run_detection false 60 (layout_start c0))).

Definition redetected_ystart (c : Console) : Z :=
  let c0 := set_myOSystem (sound_close (myOSystem c)) c in
  detectedYStart (snd (run_detection false 80 (ystart_start c0))).

(** [redetectFrameLayout] when [save] and [load] have defined behaviour,
    and what the reload keeps of the detection: [load] does not write these
    members. *)
Lemma redetectFrameLayout_defined (c : Console) :
  fst (Console_save c []) <> Undef ->
  fst (reload c (redetectFrameLayout_detected c)) <> Undef ->
  let c' := with_audio (fst (snd (reload c (redetectFrameLayout_detected c)))) in
  redetectFrameLayout c = (Val tt, c')
  /\ tia_myFrameManager c' = ref_myFrameManager
  /\ myDisplayFormat c'
     = (if FrameLayout_eqb (redetected_layout c) pal then "PAL" else "NTSC").
Proof.
  intros Hs Hl. cbv zeta. split.
  - rewrite redetectFrameLayout_outcome.
    destruct (fst (Console_save c [])); try done;
      by destruct (fst (reload c (redetectFrameLayout_detected c))).
  - clear Hs Hl. unfold reload, with_audio.
    pose proof (Console_load_others (redetectFrameLayout_detected c)
                  (snd (Console_save c []))) as H.
    cbv zeta in H. rewrite H. clear H.
    destruct (emulation _) as [[[sys l] r] sw].
    unfold redetectFrameLayout_detected, redetected_layout, after_layout_detection,
      after_ystart_detection.
    destruct (run_detection false 60 _) as [[[[[sys1 l1] r1] sw1] o1] d1].
    cbn [snd].
    match goal with
    | |- context [if myYStartAutodetected ?x then _ else _] =>
        destruct (myYStartAutodetected x) eqn:Eauto
    end.
    + destruct (run_detection _ 80 _) as [[[[[sys2 l2] r2] sw2] o2] d2].
      by destruct c.
    + by destruct c.
Qed.

(** [redetectYStart] when [save] and [load] have defined behaviour.  The
    flag [myYStartAutodetected] at the start does not matter: [save] does
    not write it and the detection sets it. *)
Lemma redetectYStart_defined (b : bool) (c : Console) :
  fst (Console_save c []) <> Undef ->
  fst (reload c (redetectYStart_detected c)) <> Undef ->
  redetectYStart c
    = (Val tt, with_audio (fst (snd (reload c (redetectYStart_detected c)))))
  /\ redetectYStart (set_myYStartAutodetected b c)
     = (Val tt, with_audio (fst (snd (reload c (redetectYStart_detected c))))).
Proof.
  intros Hs Hl.
  assert (redetectYStart_detected (set_myYStartAutodetected b c)
          = redetectYStart_detected c) as Hd.
  { unfold redetectYStart_detected, after_ystart_detection.
    assert (ystart_start
              (set_myOSystem
                 (sound_close (myOSystem (set_myYStartAutodetected b c)))
                 (set_myYStartAutodetected b c))
            = ystart_start (set_myOSystem (sound_close (myOSystem c)) c)) as ->
      by (by destruct c).
    destruct (run_detection false 80 _) as [[[[[sys1 l1] r1] sw1] o1] d1].
    by destruct c. }
  assert (Console_save (set_myYStartAutodetected b c) [] = Console_save c []) as Hsv
    by (apply Console_save_emulation; by destruct c).
  rewrite !redetectYStart_outcome. unfold reload in *. rewrite Hd, Hsv.
  destruct (fst (Console_save c [])); try done;
    by destruct (fst (Console_load (redetectYStart_detected c, _))).
Qed.

(** What the reload keeps of the detection: [load] does not write these
    members. *)
Lemma reload_redetectYStart_members (c : Console) :
  let reloaded := fst (snd (reload c (redetectYStart_detected c))) in
  myAutodetectedYstart reloaded = wrap32 (redetected_ystart c - YSTART_EXTRA)
  /\ myYStartAutodetected reloaded = true.
Proof.
  cbv zeta. unfold reload.
  pose proof (Console_load_others (redetectYStart_detected c)
                (snd (Console_save c []))) as H.
  cbv zeta in H. rewrite H. clear H.
  destruct (emulation _) as [[[sys l] r] sw].
  unfold redetectYStart_detected, redetected_ystart, after_ystart_detection.
  destruct (run_detection false 80 _) as [[[[[sys1 l1] r1] sw1] o1] d1].
  cbn [snd]. by destruct c.
Qed.

(** C10.  After [autodetectYStart] the member [myAutodetectedYstart] holds
    the detector's Y-start minus [YSTART_EXTRA = 2], computed in [uInt32]
    (so it is the plain difference whenever the detector reports at least
    2), and [myYStartAutodetected] is [true].  The same holds after
    [redetectYStart], whose [load] does not touch these members, whatever
    its [save] and [load] return, unless one of them has undefined
    behaviour. *)
Theorem C10_ystart_offset (reset : bool) (c : Console) :
  (exists c' : Console,
     let d := snd (run_detection reset 80 (ystart_start c)) in
     autodetectYStart reset c = (Val tt, c')
     /\ myAutodetectedYstart c' = wrap32 (detectedYStart d - 2)
     /\ (2 <= detectedYStart d < 2 ^ 32 ->
         myAutodetectedYstart c' = detectedYStart d - 2)
     /\ myYStartAutodetected c' = true)
  /\ (fst (Console_save c []) <> Undef ->
      fst (reload c (redetectYStart_detected c)) <> Undef ->
      exists c' : Console,
        let c0 := set_myOSystem (sound_close (myOSystem c)) c in
        let d := snd (run_detection false 80 (ystart_start c0)) in
        redetectYStart c = (Val tt, c')
        /\ myAutodetectedYstart c' = wrap32 (detectedYStart d - 2)
        /\ myYStartAutodetected c' = true).
Proof.
  split.
  - eexists. cbv zeta. split; [apply autodetectYStart_spec |].
    unfold after_ystart_detection.
    destruct (run_detection reset 80 _) as [[[[[sys1 l1] r1] sw1] o1] d1].
    cbn [snd]. destruct c; cbn. repeat split.
    intros Hy. unfold wrap32, YSTART_EXTRA. rewrite Z.mod_small; lia.
  - intros Hs Hl. eexists. cbv zeta.
    split; [exact (proj1 (redetectYStart_defined false c Hs Hl)) |].
    destruct (reload_redetectYStart_members c) as [Ha Hf]. cbv zeta in Ha, Hf.
    unfold with_audio.
    destruct (fst (snd (reload c (redetectYStart_detected c)))). cbn in *.
    by split.
Qed.


(** ** Console.cxx: the display format and the vertical start *)

Section Display.

(** More collaborators whose code is outside this source tree: the
    properties of the cartridge, the message line of the frame buffer, the
    frame rate counter, and the vertical start the TIA holds.
    [maxYStart] is [TIAConstants::maxYStart]. *)
Context {Properties : Type}.
Variable Properties_get : PropertyType -> Properties -> string.
Variable Properties_set : PropertyType -> string -> Properties -> Properties.
Variable showMessage : string -> OSystem -> OSystem.
Variable resetFps : OSystem -> OSystem.
Variable TIA_ystart : System -> Z.
Variable TIA_setYStart : Z -> System -> System.
Variable maxYStart : Z.
Variable System_consoleChanged : ConsoleTiming -> System -> System.

(** The console with the further members these functions use. *)
Record DisplayConsole : Type := {
  console : Console;
  myProperties : Properties;
  myCurrentFormat : Z;
  myConsoleTiming : ConsoleTiming;
  myConsoleInfo_DisplayFormat : string
}.

(** [setPalette(myOSystem.settings().getString("palette"))] and
    [initializeVideo()] as [setFormat] calls them: they read the console
    and write the TIA and the host.  The choice [setPalette] makes among
    the palette tables is modelled further down, in [Video]. *)
Variable setPalette_from_settings : DisplayConsole -> System * OSystem.
Variable initializeVideo : DisplayConsole -> System * OSystem.

Definition set_console (v : Console) (s : DisplayConsole) :=
  let '(Build_DisplayConsole _ b c d e) := s in Build_DisplayConsole v b c d e.
Definition set_myProperties (v : Properties) (s : DisplayConsole) :=
  let '(Build_DisplayConsole a _ c d e) := s in Build_DisplayConsole a v c d e.
Definition set_myCurrentFormat (v : Z) (s : DisplayConsole) :=
  let '(Build_DisplayConsole a b _ d e) := s in Build_DisplayConsole a b v d e.
Definition set_myConsoleTiming (v : ConsoleTiming) (s : DisplayConsole) :=
  let '(Build_DisplayConsole a b c _ e) := s in Build_DisplayConsole a b c v e.
Definition set_myConsoleInfo_DisplayFormat (v : string) (s : DisplayConsole) :=
  let '(Build_DisplayConsole a b c d _) := s in Build_DisplayConsole a b c d v.

(** A member function of the part of the console modelled above. *)
Definition on_console {A} (m : Run Console A) : Run DisplayConsole A :=
  fun s => let '(r, c) := m (console s) in (r, set_console c s).

(** A change of a member of that part. *)
Definition update_console (f : Console -> Console) : Run DisplayConsole unit :=
  modify (fun s => set_console (f (console s)) s).

(** [myOSystem.frameBuffer().showMessage(message)] *)
Definition show (message : string) : Run DisplayConsole unit :=
  update_console (fun c => set_myOSystem (showMessage message (myOSystem c)) c).

(** [throw runtime_error(...)] *)
Definition throw {A} : Run DisplayConsole A := fun s => (Exn, s).

(** [myProperties.set(Display_YStart, val); myTIA->setYStart(ystart);] *)
Definition store_ystart (val : string) (ystart : Z) : Run DisplayConsole unit :=
  modify (fun s =>
    set_myProperties (Properties_set Display_YStart val (myProperties s)) s);;;
  update_console (fun c => set_mySystem (TIA_setYStart ystart (mySystem c)) c).

(** [changeYStart] from the declaration of [val] on, for the new value
    [ystart] of the local variable. *)
Definition changeYStart_apply (ystart : Z) : Run DisplayConsole unit :=
  let val := decimal ystart in
  if ystart =? 0 then
    on_console redetectYStart;;;
    let* autodetected := gets (fun s => myAutodetectedYstart (console s)) in
    show "YStart autodetected";;;
    store_ystart val autodetected
  else
    let* autodetected := gets (fun s => myAutodetectedYstart (console s)) in
    if (autodetected >? 0) && (autodetected =? ystart) then
      show (String.append "YStart " (String.append val " (Auto)"));;;
      update_console (set_myYStartAutodetected false);;;
      store_ystart (decimal 0) ystart
    else
      show (String.append "YStart " val);;;
      update_console (set_myYStartAutodetected false);;;
      store_ystart val ystart.

(** [void Console::changeYStart(int direction)] *)
Definition changeYStart (direction : Z) : Run DisplayConsole unit :=
  let* ystart := gets (fun s => TIA_ystart (mySystem (console s))) in
  if direction =? 1 then
    if ystart >=? maxYStart then show "YStart at maximum"
    else
      update_console (set_myYStartAutodetected false);;;
      changeYStart_apply (wrap32 (ystart + 1))
  else if direction =? -1 then
    if ystart =? 0 then throw
    else
      update_console (set_myYStartAutodetected false);;;
      changeYStart_apply (wrap32 (ystart - 1))
  else ret tt.

(** [void Console::updateYStart(uInt32 ystart)] *)
Definition updateYStart (ystart : Z) : Run DisplayConsole unit :=
  if ystart >? maxYStart then ret tt
  else
    let ss := decimal ystart in
    let* stored := gets (fun s => Properties_get Display_YStart (myProperties s)) in
    if String.eqb ss stored then ret tt
    else
      modify (fun s =>
        set_myProperties (Properties_set Display_YStart ss (myProperties s)) s);;;
      if ystart =? 0 then
        on_console redetectYStart;;;
        let* autodetected := gets (fun s => myAutodetectedYstart (console s)) in
        update_console (fun c =>
          set_mySystem (TIA_setYStart autodetected (mySystem c)) c)
      else
        update_console (fun c => set_mySystem (TIA_setYStart ystart (mySystem c)) c);;;
        update_console (set_myYStartAutodetected false).

(** [atoi] of the C library, [BSPF::clamp(value, low, high)] of
    [bspf.hxx], two more constants of [TIAConstants], three more functions
    of the TIA, and the two updates of [myEmulationTiming], which is host
    side state here. *)
Variable atoi : string -> Z.
Variable BSPF_clamp : Z -> Z -> Z -> Z.
Variable minViewableHeight maxViewableHeight : Z.
Variable TIA_setLayout : FrameLayout -> System -> System.
Variable TIA_setHeight : Z -> System -> System.
Variable TIA_frameLayout : System -> FrameLayout.
Variable EmulationTiming_updateFrameLayout : FrameLayout -> OSystem -> OSystem.
Variable EmulationTiming_updateConsoleTiming : ConsoleTiming -> OSystem -> OSystem.

(** [void Console::setTIAProperties()] *)
Definition setTIAProperties : Run DisplayConsole unit :=
  let* properties := gets myProperties in
  let ystart0 := wrap32 (atoi (Properties_get Display_YStart properties)) in
  let ystart :=
    if ystart0 =? 0 then ystart0 else BSPF_clamp ystart0 0 maxYStart in
  let height0 := wrap32 (atoi (Properties_get Display_Height properties)) in
  let height1 :=
    if height0 =? 0 then height0
    else BSPF_clamp height0 minViewableHeight maxViewableHeight in
  let* displayFormat := gets (fun s => myDisplayFormat (console s)) in
  let ntsc_like :=
    String.eqb displayFormat "NTSC" || String.eqb displayFormat "PAL60"
    || String.eqb displayFormat "SECAM60" in
  let height :=
    if ntsc_like then height1
    else if height1 =? 0 then height1 else Z.max height1 250 in
  update_console (fun c =>
    set_mySystem (TIA_setLayout (if ntsc_like then ntsc else pal) (mySystem c)) c);;;
  let* autodetected := gets (fun s => myAutodetectedYstart (console s)) in
  update_console (fun c =>
    set_mySystem
      (TIA_setYStart (if autodetected =? 0 then ystart else autodetected)
         (mySystem c)) c);;;
  update_console (fun c => set_mySystem (TIA_setHeight height (mySystem c)) c);;;
  update_console (fun c =>
    set_myOSystem
      (EmulationTiming_updateFrameLayout (TIA_frameLayout (mySystem c))
         (myOSystem c)) c);;;
  let* timing := gets myConsoleTiming in
  update_console (fun c =>
    set_myOSystem (EmulationTiming_updateConsoleTiming timing (myOSystem c)) c).

(** One of the cases 1 to 6 of the [switch] in [setFormat]; the result is
    [reset], [saveformat], [autodetected] and [message]. *)
Definition fixed_format (name : string) (timing : ConsoleTiming) (message : string)
    : Run DisplayConsole (bool * string * string * string) :=
  update_console (set_myDisplayFormat name);;;
  modify (set_myConsoleTiming timing);;;
  ret (true, name, EmptyString, message).

(** The [switch] in [setFormat]; it has no default case. *)
Definition setFormat_switch (format : Z)
    : Run DisplayConsole (bool * string * string * string) :=
  if format =? 0 then
    let* oldDisplayFormat := gets (fun s => myDisplayFormat (console s)) in
    on_console redetectFrameLayout;;;
    on_console TIA_update;;;
    let* displayFormat := gets (fun s => myDisplayFormat (console s)) in
    modify (set_myConsoleTiming
              (if String.eqb displayFormat "PAL" then ConsoleTiming_pal
               else ConsoleTiming_ntsc));;;
    ret (negb (String.eqb oldDisplayFormat displayFormat), "AUTO", "*",
         String.append "Auto-detect mode: " displayFormat)
  else if format =? 1 then fixed_format "NTSC" ConsoleTiming_ntsc "NTSC mode"
  else if format =? 2 then fixed_format "PAL" ConsoleTiming_pal "PAL mode"
  else if format =? 3 then fixed_format "SECAM" ConsoleTiming_secam "SECAM mode"
  else if format =? 4 then fixed_format "NTSC50" ConsoleTiming_ntsc "NTSC50 mode"
  else if format =? 5 then fixed_format "PAL60" ConsoleTiming_pal "PAL60 mode"
  else if format =? 6 then fixed_format "SECAM60" ConsoleTiming_secam "SECAM60 mode"
  else ret (true, EmptyString, EmptyString, EmptyString).

(** The block [if (reset) { ... }] of [setFormat]. *)
Definition setFormat_refresh : Run DisplayConsole unit :=
  modify (fun s =>
    let '(sys, o) := setPalette_from_settings s in
    set_console (set_myOSystem o (set_mySystem sys (console s))) s);;;
  setTIAProperties;;;
  modify (fun s =>
    let '(sys, o) := initializeVideo s in
    set_console (set_myOSystem o (set_mySystem sys (console s))) s);;;
  on_console initializeAudio;;;
  update_console (fun c => set_myOSystem (resetFps (myOSystem c)) c).

(** [void Console::setFormat(uInt32 format)] *)
Definition setFormat (format : Z) : Run DisplayConsole unit :=
  let* current := gets myCurrentFormat in
  if current =? format then ret tt
  else
    modify (set_myCurrentFormat format);;;
    let* chosen := setFormat_switch format in
    let '(reset, saveformat, autodetected, message) := chosen in
    modify (fun s =>
      set_myProperties (Properties_set Display_Format saveformat (myProperties s)) s);;;
    modify (fun s =>
      set_myConsoleInfo_DisplayFormat
        (String.append (myDisplayFormat (console s)) autodetected) s);;;
    (if reset then setFormat_refresh else ret tt);;;
    show message;;;
    modify (fun s =>
      set_console
        (set_mySystem
           (System_consoleChanged (myConsoleTiming s) (mySystem (console s)))
           (console s)) s).

(** [void Console::toggleFormat(int direction)] *)
Definition toggleFormat (direction : Z) : Run DisplayConsole unit :=
  let* current := gets myCurrentFormat in
  let format :=
    if direction =? 1 then wrap32 (current + 1) mod 7
    else if direction =? -1 then
      if current >? 0 then wrap32 (current - 1) else 6
    else current in
  setFormat format.

(** *** Facts about the display format *)

(** What [setTIAProperties] does: it hands a layout, a vertical start
    and a height to the TIA and updates the host; no other member
    changes. *)
Lemma setTIAProperties_spec (s : DisplayConsole) :
  exists (o' : OSystem) (ystart height : Z),
    setTIAProperties s
      = (Val tt,
         set_console
           (set_myOSystem o'
              (set_mySystem
                 (TIA_setHeight height
                    (TIA_setYStart
                       (if myAutodetectedYstart (console s) =? 0 then ystart
                        else myAutodetectedYstart (console s))
                       (TIA_setLayout
                          (if String.eqb (myDisplayFormat (console s)) "NTSC"
                              || String.eqb (myDisplayFormat (console s)) "PAL60"
                              || String.eqb (myDisplayFormat (console s)) "SECAM60"
                           then ntsc else pal)
                          (mySystem (console s)))))
                 (console s)))
           s).
Proof.
  unfold setTIAProperties, bind, gets, update_console, modify.
  destruct s as [c props cur timing info]. destruct c.
  cbn -[wrap32 Z.max]. eexists _, _, _. reflexivity.
Qed.

Lemma setFormat_refresh_spec (s : DisplayConsole) :
  exists (sys : System) (o : OSystem),
    setFormat_refresh s
      = (Val tt, set_console (set_myOSystem o (set_mySystem sys (console s))) s).
Proof.
  unfold setFormat_refresh.
  unfold bind at 1. unfold modify at 1.
  destruct (setPalette_from_settings s) as [sys0 o0].
  unfold bind at 1.
  match goal with
  | |- context [setTIAProperties ?x] =>
      destruct (setTIAProperties_spec x) as (o1 & ystart & height & ->)
  end.
  unfold bind at 1. unfold modify at 1.
  match goal with
  | |- context [initializeVideo ?x] => destruct (initializeVideo x) as [sys2 o2]
  end.
  unfold bind, on_console, initializeAudio, update_console, modify.
  destruct s as [c props cur timing info]. destruct c. cbn.
  eexists _, _. reflexivity.
Qed.

#[local] Arguments setFormat_refresh : simpl never.


(** The values of [saveformat], by format number. *)
Definition format_names : list string :=
  ["AUTO"; "NTSC"; "PAL"; "SECAM"; "NTSC50"; "PAL60"; "SECAM60"]%string.

Definition format_name (n : Z) : string :=
  default EmptyString (format_names !! Z.to_nat n).

(** The palette column that belongs to a console timing. *)
Definition timing_column (t : ConsoleTiming) : Z :=
  match t with
  | ConsoleTiming_ntsc => 0
  | ConsoleTiming_pal => 1
  | ConsoleTiming_secam => 2
  end.

Lemma setFormat_fixed (n : Z) (s : DisplayConsole) :
  1 <= n <= 6 -> myCurrentFormat s <> n ->
  exists s' : DisplayConsole,
    setFormat n s = (Val tt, s')
    /\ myCurrentFormat s' = n
    /\ myDisplayFormat (console s') = format_name n
    /\ myProperties s'
       = Properties_set Display_Format (format_name n) (myProperties s)
    /\ myConsoleInfo_DisplayFormat s' = format_name n
    /\ timing_column (myConsoleTiming s') = column_of (format_name n).
Proof.
  intros Hn Hcur. unfold setFormat. unfold bind at 1. unfold gets at 1.
  destruct (Z.eqb_spec (myCurrentFormat s) n) as [E | _]; [done |].
  destruct s as [c props cur timing info]. destruct c.
  assert (n = 1 \/ n = 2 \/ n = 3 \/ n = 4 \/ n = 5 \/ n = 6)
    as [-> | [-> | [-> | [-> | [-> | ->]]]]] by lia;
    unfold bind, modify, gets, ret, setFormat_switch, fixed_format, update_console,
      show, on_console;
    cbn;
    match goal with
    | |- context [setFormat_refresh ?x] =>
        destruct (setFormat_refresh_spec x) as (sys & o & ->)
    end;
    cbn; eexists; (split; [reflexivity |]); cbn; by repeat split.
Qed.

(** X12.  Stepping through the display formats.  From format number [c] between
    0 and 6, [toggleFormat(+1)] and [toggleFormat(-1)] go to
    [(c + 1) mod 7] and [(c - 1) mod 7].  When that is one of the fixed
    formats 1 to 6, the call returns normally with the display format, the
    stored property [Display_Format] and the console information all set to
    the name of that format, and with a console timing whose colour system
    is the one [setPalette] derives from the name. *)
Theorem X12_toggleFormat_cycle (direction : Z) (s : DisplayConsole) :
  0 <= myCurrentFormat s < 7 ->
  direction = 1 \/ direction = -1 ->
  let n := (myCurrentFormat s + direction) mod 7 in
  n <> 0 ->
  exists s' : DisplayConsole,
    toggleFormat direction s = (Val tt, s')
    /\ myCurrentFormat s' = n
    /\ myDisplayFormat (console s') = format_name n
    /\ myProperties s'
       = Properties_set Display_Format (format_name n) (myProperties s)
    /\ myConsoleInfo_DisplayFormat s' = format_name n
    /\ timing_column (myConsoleTiming s') = column_of (myDisplayFormat (console s')).
Proof.
  intros Hcur Hdir n Hn.
  assert (0 <= n < 7) as Hrange by (apply Z.mod_pos_bound; lia).
  assert (myCurrentFormat s <> n) as Hne.
  { unfold n. destruct Hdir as [-> | ->].
    - destruct (Z.eq_dec (myCurrentFormat s) 6) as [E | E].
      + rewrite E. by vm_compute.
      + rewrite Z.mod_small; lia.
    - destruct (Z.eq_dec (myCurrentFormat s) 0) as [E | E].
      + rewrite E. by vm_compute.
      + rewrite Z.mod_small; lia. }
  assert (toggleFormat direction s = setFormat n s) as ->.
  { unfold toggleFormat. unfold bind at 1. unfold gets at 1. f_equal.
    unfold n, wrap32. destruct Hdir as [-> | ->]; cbn [Z.eqb Pos.eqb].
    - by rewrite (Z.mod_small (_ + 1) (2 ^ 32)) by lia.
    - destruct (Z.gtb_spec (myCurrentFormat s) 0) as [Hpos | Hzero].
      + rewrite (Z.mod_small (_ - 1) (2 ^ 32)) by lia.
        symmetry. apply Z.mod_small. lia.
      + assert (myCurrentFormat s = 0) as -> by lia. by vm_compute. }
  destruct (setFormat_fixed n s) as (s' & Hrun & H1 & H2 & H3 & H4 & H5);
    [lia | done |].
  exists s'. rewrite H2. by repeat split.
Qed.

(** *** Facts about the vertical start *)

(** X13.  Stepping the vertical start.  With [y] the TIA's current value:
    a direction other than +1 and -1 changes nothing; +1 at or above
    [maxYStart] only shows a message; -1 at [y = 0] throws and changes
    nothing.  Every other step that does not arrive at 0 returns normally,
    hands [y + direction], which is at most [maxYStart] when stepping up,
    to the TIA, clears [myYStartAutodetected], and stores in
    [Display_YStart] the new value in decimal, or ["0"] when the new value
    is the autodetected one. *)
Theorem X13_changeYStart_steps (direction : Z) (s : DisplayConsole) :
  let y := TIA_ystart (mySystem (console s)) in
  let autodetected := myAutodetectedYstart (console s) in
  0 <= y < 2 ^ 32 -> maxYStart < 2 ^ 32 ->
  (direction <> 1 -> direction <> -1 -> changeYStart direction s = (Val tt, s))
  /\ (direction = 1 -> maxYStart <= y ->
      changeYStart direction s
        = (Val tt,
           set_console
             (set_myOSystem (showMessage "YStart at maximum" (myOSystem (console s)))
                (console s)) s))
  /\ (direction = -1 -> y = 0 -> changeYStart direction s = (Exn, s))
  /\ (direction = 1 /\ y < maxYStart \/ direction = -1 /\ 1 < y ->
      exists s' : DisplayConsole,
        changeYStart direction s = (Val tt, s')
        /\ mySystem (console s') = TIA_setYStart (y + direction) (mySystem (console s))
        /\ (direction = 1 -> y + direction <= maxYStart)
        /\ myYStartAutodetected (console s') = false
        /\ myAutodetectedYstart (console s') = autodetected
        /\ myProperties s'
           = Properties_set Display_YStart
               (if (autodetected >? 0) && (autodetected =? y + direction)
                then "0" else decimal (y + direction))
               (myProperties s)
        /\ myLeftControl (console s') = myLeftControl (console s)
        /\ myRightControl (console s') = myRightControl (console s)
        /\ mySwitches (console s') = mySwitches (console s)
        /\ myDisplayFormat (console s') = myDisplayFormat (console s)).
Proof.
  intros y autodetected Hy Hmax. repeat apply conj.
  - intros H1 H2. unfold changeYStart, bind, gets.
    destruct (Z.eqb_spec direction 1); [done |].
    by destruct (Z.eqb_spec direction (-1)).
  - intros -> Hge. unfold changeYStart, bind, gets. cbn [Z.eqb Pos.eqb].
    fold y. by destruct (Z.geb_spec y maxYStart); [| lia].
  - intros -> Hzero. unfold changeYStart, bind, gets. cbn [Z.eqb].
    fold y. rewrite Hzero. reflexivity.
  - intros Hstep.
    assert (wrap32 (y + direction) = y + direction /\ y + direction <> 0
            /\ (direction = 1 -> y + direction <= maxYStart)) as (Hw & Hnz & Hle)
      by (unfold wrap32; destruct Hstep as [[-> ?] | [-> ?]];
          rewrite Z.mod_small; lia).
    assert (changeYStart direction s
            = bind (update_console (set_myYStartAutodetected false))
                (fun _ => changeYStart_apply (y + direction)) s) as ->.
    { unfold changeYStart. unfold bind at 1. unfold gets at 1. fold y.
      destruct Hstep as [[-> Hlt] | [-> Hgt]]; cbn [Z.eqb Pos.eqb].
      - destruct (Z.geb_spec y maxYStart); [lia |]. by rewrite Hw.
      - destruct (Z.eqb_spec y 0); [lia |].
        change (y - 1) with (y + -1). by rewrite Hw. }
    unfold changeYStart_apply.
    destruct (Z.eqb_spec (y + direction) 0) as [E | _]; [done |].
    unfold bind, update_console, modify, gets, show, store_ystart.
    destruct s as [c props cur timing info]. destruct c. cbn in *.
    fold autodetected.
    destruct ((autodetected >? 0) && (autodetected =? y + direction));
      eexists; (split; [reflexivity |]); cbn; by repeat split.
Qed.

(** X14.  Asking for a vertical start.  [updateYStart(ystart)] does nothing when
    [ystart] is above [maxYStart] or when its decimal form is what
    [Display_YStart] already holds.  Otherwise a value other than 0 is
    stored in the property and handed to the TIA, and
    [myYStartAutodetected] is cleared; with properties that return what
    was stored, asking for the same value again changes nothing more. *)
Theorem X14_updateYStart (ystart : Z) (s : DisplayConsole) :
  (maxYStart < ystart -> updateYStart ystart s = (Val tt, s))
  /\ (Properties_get Display_YStart (myProperties s) = decimal ystart ->
      updateYStart ystart s = (Val tt, s))
  /\ (ystart <= maxYStart -> ystart <> 0 ->
      Properties_get Display_YStart (myProperties s) <> decimal ystart ->
      exists s' : DisplayConsole,
        updateYStart ystart s = (Val tt, s')
        /\ mySystem (console s') = TIA_setYStart ystart (mySystem (console s))
        /\ myYStartAutodetected (console s') = false
        /\ myProperties s'
           = Properties_set Display_YStart (decimal ystart) (myProperties s)
        /\ myAutodetectedYstart (console s') = myAutodetectedYstart (console s)
        /\ ((forall key value props,
               Properties_get key (Properties_set key value props) = value) ->
            updateYStart ystart s' = (Val tt, s'))).
Proof.
  repeat apply conj.
  - intros Hgt. unfold updateYStart. by destruct (Z.gtb_spec ystart maxYStart); [| lia].
  - intros Hsame. unfold updateYStart.
    destruct (ystart >? maxYStart); [done |].
    unfold bind, gets. rewrite Hsame. by rewrite String.eqb_refl.
  - intros Hle Hnz Hdiff. unfold updateYStart.
    destruct (Z.gtb_spec ystart maxYStart) as [| _]; [lia |].
    unfold bind at 1. unfold gets at 1.
    destruct (String.eqb_spec (decimal ystart)
                (Properties_get Display_YStart (myProperties s))) as [E | _];
      [by rewrite E in Hdiff |].
    destruct (Z.eqb_spec ystart 0) as [| _]; [done |].
    unfold bind, modify, update_console.
    destruct s as [c props cur timing info]. destruct c. cbn in *.
    eexists. split; [reflexivity |]. cbn. repeat split.
    intros Hget. unfold gets. cbn. by rewrite Hget, String.eqb_refl.
Qed.

(** *** From autodetection to the TIA *)

(** X17.  What autodetection finds is what the TIA is set up with.  After
    [autodetectFrameLayout], [setTIAProperties] gives the TIA the layout
    the detector reported; after [autodetectYStart] it gives the TIA the
    detector's vertical start minus [YSTART_EXTRA], whatever the property
    [Display_YStart] holds, unless that difference is 0.  Both pairs of
    calls return normally. *)
Theorem X17_autodetected_to_TIA (reset : bool) (s : DisplayConsole) :
  (exists (s1 s2 : DisplayConsole) (ystart height : Z),
     on_console (autodetectFrameLayout reset) s = (Val tt, s1)
     /\ setTIAProperties s1 = (Val tt, s2)
     /\ mySystem (console s2)
        = TIA_setHeight height
            (TIA_setYStart ystart
               (TIA_setLayout
                  (detectedLayout
                     (snd (run_detection reset 60 (layout_start (console s)))))
                  (mySystem (console s1)))))
  /\ (exists (s1 s2 : DisplayConsole) (layout : FrameLayout) (ystart height : Z),
        on_console (autodetectYStart reset) s = (Val tt, s1)
        /\ setTIAProperties s1 = (Val tt, s2)
        /\ mySystem (console s2)
           = TIA_setHeight height
               (TIA_setYStart ystart (TIA_setLayout layout (mySystem (console s1))))
        /\ let found :=
             wrap32 (detectedYStart
                       (snd (run_detection reset 80 (ystart_start (console s))))
                     - YSTART_EXTRA) in
           myAutodetectedYstart (console s2) = found
           /\ (found <> 0 -> ystart = found)).
Proof.
  split.
  - unfold on_console. rewrite autodetectFrameLayout_spec.
    set (c1 := after_layout_detection _ _).
    destruct (setTIAProperties_spec (set_console c1 s))
      as (o2 & ystart & height & Hrun).
    eexists (set_console c1 s), _, _, height. split; [reflexivity |].
    split; [exact Hrun |].
    assert (forall (c : Console) (x : DisplayConsole), console (set_console c x) = c)
      as Hconsole by (by intros c []).
    assert (forall o sys (c : Console),
              mySystem (set_myOSystem o (set_mySystem sys c)) = sys) as Hsys
      by (by intros o sys []).
    rewrite !Hconsole, Hsys.
    assert (myDisplayFormat c1
            = if FrameLayout_eqb
                   (detectedLayout
                      (snd (run_detection reset 60 (layout_start (console s)))))
                   pal
              then "PAL" else "NTSC") as ->.
    { unfold c1, after_layout_detection.
      destruct (run_detection reset 60 _) as [[[[[sys1 l1] r1] sw1] o1] d1].
      by destruct (console s). }
    by destruct (detectedLayout _).
  - unfold on_console. rewrite autodetectYStart_spec.
    set (c1 := after_ystart_detection _ _).
    destruct (setTIAProperties_spec (set_console c1 s))
      as (o2 & ystart & height & Hrun).
    assert (forall (c : Console) (x : DisplayConsole), console (set_console c x) = c)
      as Hconsole by (by intros c []).
    assert (forall o sys (c : Console),
              mySystem (set_myOSystem o (set_mySystem sys c)) = sys
              /\ myAutodetectedYstart (set_myOSystem o (set_mySystem sys c))
                 = myAutodetectedYstart c) as Hsys
      by (by intros o sys []).
    assert (myAutodetectedYstart c1
            = wrap32 (detectedYStart
                        (snd (run_detection reset 80 (ystart_start (console s))))
                      - YSTART_EXTRA)) as Hfound.
    { unfold c1, after_ystart_detection.
      destruct (run_detection reset 80 _) as [[[[[sys1 l1] r1] sw1] o1] d1].
      by destruct (console s). }
    rewrite !Hconsole in Hrun.
    eexists (set_console c1 s), _, _, _, height. split; [reflexivity |].
    split; [exact Hrun |].
    rewrite !Hconsole, (proj1 (Hsys _ _ _)), (proj2 (Hsys _ _ _)), Hfound.
    split; [reflexivity |]. cbv zeta. split; [done |].
    intros Hnz.
    match goal with
    | |- context [?x =? 0] => by destruct (Z.eqb_spec x 0)
    end.
Qed.

(** *** Switching to autodetection *)

(** X15.  Format 0, autodetection.  Unless a component's [save] or [load]
    has undefined behaviour, [setFormat(0)] from another format returns
    normally, whatever [save] and [load] returned: the layout is detected
    anew on the running system, the display format becomes "PAL" for a
    detected PAL layout and "NTSC" for anything else, [Display_Format] is
    stored as "AUTO", the console information shows the format followed by
    a star, and the console timing is the one of the detected format. *)
Theorem X15_setFormat_autodetect (s : DisplayConsole) :
  fst (Console_save (console s) []) <> Undef ->
  fst (reload (console s) (redetectFrameLayout_detected (console s))) <> Undef ->
  myCurrentFormat s <> 0 ->
  let detected :=
    if FrameLayout_eqb (redetected_layout (console s)) pal then "PAL" else "NTSC" in
  exists s' : DisplayConsole,
    setFormat 0 s = (Val tt, s')
    /\ myCurrentFormat s' = 0
    /\ myDisplayFormat (console s') = detected
    /\ myProperties s' = Properties_set Display_Format "AUTO" (myProperties s)
    /\ myConsoleInfo_DisplayFormat s' = String.append detected "*"
    /\ timing_column (myConsoleTiming s') = column_of detected
    /\ (myConsoleTiming s' = ConsoleTiming_pal
        <-> redetected_layout (console s) = pal).
Proof.
  intros Hsave Hload Hcur detected.
  destruct (redetectFrameLayout_defined (console s) Hsave Hload)
    as (Hred & Hptr & Hfmt).
  fold detected in Hfmt.
  set (c1 := with_audio _) in *.
  assert (exists c2, TIA_update c1 = (Val tt, c2)
                     /\ myDisplayFormat c2 = detected) as (c2 & Hupd & Hfmt2).
  { unfold TIA_update, through_frame_manager. rewrite Hptr.
    destruct (TIA_update_own _) as [e o]. eexists. split; [reflexivity |].
    rewrite <- Hfmt. destruct c1, e as [[[? ?] ?] ?]. reflexivity. }
  unfold setFormat. unfold bind at 1. unfold gets at 1.
  destruct (Z.eqb_spec (myCurrentFormat s) 0) as [| _]; [done |].
  destruct s as [c props cur timing info]. cbn [console] in *.
  unfold bind at 1. unfold modify at 1. cbn [set_myCurrentFormat].
  unfold bind at 1. unfold setFormat_switch. cbn [Z.eqb].
  unfold bind at 1. unfold gets at 1. cbn [console].
  unfold bind at 1. unfold on_console at 1. cbn [console]. rewrite Hred.
  cbn [set_console].
  unfold bind at 1. unfold on_console at 1. cbn [console]. rewrite Hupd.
  cbn [set_console].
  unfold bind at 1. unfold gets at 1. cbn [console]. rewrite Hfmt2.
  unfold bind at 1. unfold modify at 1. cbn [set_myConsoleTiming].
  unfold ret at 1.
  assert (timing_column
            (if String.eqb detected "PAL" then ConsoleTiming_pal
             else ConsoleTiming_ntsc) = column_of detected
          /\ ((if String.eqb detected "PAL" then ConsoleTiming_pal
               else ConsoleTiming_ntsc) = ConsoleTiming_pal
              <-> redetected_layout c = pal)) as [Htiming Hpal].
  { unfold detected. destruct (redetected_layout c); cbn; by split. }
  set (new_timing := if String.eqb detected "PAL" then ConsoleTiming_pal
                     else ConsoleTiming_ntsc) in *.
  clearbody new_timing.
  destruct (String.eqb (myDisplayFormat c) detected);
    unfold bind, modify, ret, update_console, show, on_console;
    cbn [negb set_myProperties set_myConsoleInfo_DisplayFormat console
         myProperties myConsoleTiming set_console].
  - eexists. split; [reflexivity |].
    destruct c2. cbn in Hfmt2. cbn. rewrite Hfmt2.
    repeat split; try done; apply Hpal.
  - match goal with
    | |- context [setFormat_refresh ?x] =>
        destruct (setFormat_refresh_spec x) as (sys & o & ->)
    end.
    eexists. split; [reflexivity |].
    destruct c2. cbn in Hfmt2. cbn. rewrite Hfmt2.
    repeat split; try done; apply Hpal.
Qed.

(** X16.  Vertical start 0, autodetection.  Unless a component's [save] or
    [load] has undefined behaviour, both [changeYStart(-1)] from 1 and
    [updateYStart(0)] return normally after detecting the vertical start
    anew, whatever [save] and [load] returned: [myAutodetectedYstart] is
    the detector's value minus [YSTART_EXTRA], this value is handed to the
    TIA of the system that the reload in [redetectYStart] left,
    controllers and switches are the ones the reload left,
    [Display_YStart] is stored as "0", and [myYStartAutodetected] is
    set. *)
Theorem X16_ystart_autodetect (s : DisplayConsole) :
  let c := console s in
  let autodetected := wrap32 (redetected_ystart c - YSTART_EXTRA) in
  let reloaded := fst (snd (reload c (redetectYStart_detected c))) in
  let switched (s' : DisplayConsole) :=
    myAutodetectedYstart (console s') = autodetected
    /\ myYStartAutodetected (console s') = true
    /\ mySystem (console s') = TIA_setYStart autodetected (mySystem reloaded)
    /\ myLeftControl (console s') = myLeftControl reloaded
    /\ myRightControl (console s') = myRightControl reloaded
    /\ mySwitches (console s') = mySwitches reloaded
    /\ myProperties s' = Properties_set Display_YStart "0" (myProperties s) in
  fst (Console_save c []) <> Undef ->
  fst (reload c (redetectYStart_detected c)) <> Undef ->
  (TIA_ystart (mySystem c) = 1 ->
   exists s', changeYStart (-1) s = (Val tt, s') /\ switched s')
  /\ (0 <= maxYStart ->
      Properties_get Display_YStart (myProperties s) <> "0" ->
      exists s', updateYStart 0 s = (Val tt, s') /\ switched s').
Proof.
  intros c autodetected reloaded switched Hs Hl.
  destruct (redetectYStart_defined false c Hs Hl) as [Hrun Hrun'].
  destruct (reload_redetectYStart_members c) as [Ha Hf].
  fold reloaded autodetected in Hrun, Hrun', Ha, Hf.
  clearbody reloaded. clear Hs Hl.
  split.
  - intros Hy. unfold changeYStart. unfold bind at 1. unfold gets at 1.
    fold c. rewrite Hy. cbn [Z.eqb Pos.eqb]. change (wrap32 (1 - 1)) with 0.
    unfold changeYStart_apply. cbn [Z.eqb].
    destruct s as [c0 props cur timing info]. cbn [console myProperties] in *.
    subst c.
    unfold bind at 1. unfold update_console at 1, modify at 1.
    cbn [console set_console].
    unfold bind at 1. unfold on_console at 1. cbn [console]. rewrite Hrun'.
    cbn [set_console].
    unfold bind, gets, show, store_ystart, update_console, modify, with_audio.
    cbn [console set_console set_myProperties myProperties].
    eexists. split; [reflexivity |]. unfold switched. cbn [console myProperties].
    destruct reloaded. cbn in *. subst. by repeat split.
  - intros Hmax Hstored. unfold updateYStart.
    destruct (Z.gtb_spec 0 maxYStart) as [| _]; [lia |].
    unfold bind at 1. unfold gets at 1.
    destruct (String.eqb_spec (decimal 0)
                (Properties_get Display_YStart (myProperties s))) as [E | _];
      [by rewrite <- E in Hstored |].
    cbn [Z.eqb].
    destruct s as [c0 props cur timing info]. cbn [console myProperties] in *.
    subst c.
    unfold bind at 1. unfold modify at 1. cbn [set_myProperties].
    unfold bind at 1. unfold on_console at 1. cbn [console]. rewrite Hrun.
    cbn [set_console].
    unfold bind, gets, update_console, modify, with_audio.
    cbn [console set_console].
    eexists. split; [reflexivity |]. unfold switched. cbn [console myProperties].
    destruct reloaded. cbn in *. subst. by repeat split.
Qed.

End Display.

End Console.

(** ** Console.cxx: [loadUserPalette] *)

Abbreviation byte := Byte.byte.

(** The static user palette tables ([uInt32 [256]] each) and the member
    [myUserPaletteDefined]. *)
Record UserPalette : Type := {
  ourUserNTSCPalette : list Z;
  ourUserPALPalette : list Z;
  ourUserSECAMPalette : list Z;
  myUserPaletteDefined : bool
}.

(** [int(b)] for a [uInt8]. *)
Definition int_of_byte (b : byte) : Z := Z.of_N (Byte.to_N b).

(** [in.read(buf, n)]: as many of the next [n] bytes as the file still has
    are copied to the start of [buf]; the result is the buffer and what is
    left of the file. *)
Definition ifstream_read (n : nat) (buf stream : list byte) : list byte * list byte :=
  let got := take n stream in
  (got ++ drop (length got) buf, drop n stream).

(** [(int(pixbuf[0]) << 16) + (int(pixbuf[1]) << 8) + int(pixbuf[2])],
    stored in a [uInt32]. *)
Definition pixel_of (pixbuf : list byte) : Z :=
  let b k := int_of_byte (default Byte.x00 (pixbuf !! k)) in
  wrap32 (Z.shiftl (b 0%nat) 16 + Z.shiftl (b 1%nat) 8 + b 2%nat).

(** The loops over the NTSC and the PAL palette: [n] more iterations from
    [i] on. *)
Fixpoint palette_loop (n : nat) (i : Z) (stream pixbuf : list byte)
    (table : list Z) : list byte * list byte * list Z :=
  match n with
  | O => (stream, pixbuf, table)
  | S n' =>
      let '(pixbuf', stream') := ifstream_read 3 pixbuf stream in
      let pixel := pixel_of pixbuf' in
      palette_loop n' (i + 1) stream' pixbuf'
        (<[ Z.to_nat (Z.shiftl i 1) := pixel ]> table)
  end.

(** The loop over the SECAM colours, which fills the local array [secam]. *)
Fixpoint secam_loop (n : nat) (i : Z) (stream pixbuf : list byte)
    (secam : list Z) : list byte * list byte * list Z :=
  match n with
  | O => (stream, pixbuf, secam)
  | S n' =>
      let '(pixbuf', stream') := ifstream_read 3 pixbuf stream in
      let pixel := pixel_of pixbuf' in
      secam_loop n' (i + 1) stream' pixbuf'
        (<[ Z.to_nat (Z.shiftl i 1 + 1) := 0 ]>
           (<[ Z.to_nat (Z.shiftl i 1) := pixel ]> secam))
  end.

(** [for (j ...) *ptr++ = *s++;]: [n] more copies. *)
Fixpoint copy_loop (n : nat) (ptr s : nat) (secam table : list Z) : nat * list Z :=
  match n with
  | O => (ptr, table)
  | S n' =>
      copy_loop n' (S ptr) (S s) secam
        (<[ ptr := default 0 (secam !! s) ]> table)
  end.

(** [for (i ...) { s = secam; for (j ...) ... }]: [n] more rounds. *)
Fixpoint replicate_loop (n : nat) (ptr : nat) (secam table : list Z) : list Z :=
  match n with
  | O => table
  | S n' =>
      let '(ptr', table') := copy_loop 16 ptr 0 secam table in
      replicate_loop n' ptr' secam table'
  end.

(** [void Console::loadUserPalette()].  [file] is the content of the
    palette file, [None] when it cannot be opened; [pixbuf0] and [secam0]
    are the indeterminate initial contents of the two local arrays. *)
Definition loadUserPalette (file : option (list byte))
    (pixbuf0 : list byte) (secam0 : list Z) (c : UserPalette) : UserPalette :=
  match file with
  | None => c
  | Some bytes =>
      if Z.of_nat (length bytes) <? 128 * 3 * 2 + 8 * 3 then c
      else
        let '(stream1, pixbuf1, ntscTable) :=
          palette_loop 128 0 bytes pixbuf0 (ourUserNTSCPalette c) in
        let '(stream2, pixbuf2, palTable) :=
          palette_loop 128 0 stream1 pixbuf1 (ourUserPALPalette c) in
        let '(stream3, pixbuf3, secam) :=
          secam_loop 8 0 stream2 pixbuf2 secam0 in
        {| ourUserNTSCPalette := ntscTable;
           ourUserPALPalette := palTable;
           ourUserSECAMPalette :=
             replicate_loop 16 0 secam (ourUserSECAMPalette c);
           myUserPaletteDefined := true |}
  end.

(** The colour made of the three bytes at offset [off] of the file. *)
Definition rgb_at (bytes : list byte) (off : nat) : Z :=
  int_of_byte (default Byte.x00 (bytes !! off)) * 65536
  + int_of_byte (default Byte.x00 (bytes !! S off)) * 256
  + int_of_byte (default Byte.x00 (bytes !! S (S off))).

(** *** Facts about the palette loops *)

Lemma int_of_byte_range (b : byte) : 0 <= int_of_byte b <= 255.
Proof. unfold int_of_byte. pose proof (Byte.to_N_bounded b). lia. Qed.

Lemma ifstream_read_3 (pixbuf stream : list byte) :
  (3 <= length stream)%nat ->
  snd (ifstream_read 3 pixbuf stream) = drop 3 stream
  /\ pixel_of (fst (ifstream_read 3 pixbuf stream)) = rgb_at stream 0.
Proof.
  intros Hlen. split; [done |].
  destruct stream as [| b0 [| b1 [| b2 rest]]]; simpl in Hlen; try lia.
  unfold ifstream_read, pixel_of, rgb_at. cbn [take fst app lookup list_lookup default].
  simpl.
  pose proof (int_of_byte_range b0). pose proof (int_of_byte_range b1).
  pose proof (int_of_byte_range b2).
  rewrite !Z.shiftl_mul_pow2 by lia. unfold wrap32.
  rewrite Z.mod_small; lia.
Qed.

Lemma rgb_at_drop (bytes : list byte) (n off : nat) :
  rgb_at (drop n bytes) off = rgb_at bytes (n + off).
Proof.
  unfold rgb_at. rewrite !lookup_drop.
  by rewrite !Nat.add_succ_r.
Qed.

Lemma palette_loop_spec (n : nat) (i : Z) (stream pixbuf : list byte) (table : list Z) :
  (3 * n <= length stream)%nat -> 0 <= i ->
  exists pixbuf' table',
    palette_loop n i stream pixbuf table = (drop (3 * n) stream, pixbuf', table')
    /\ length table' = length table
    /\ (forall k : nat, (k < n)%nat ->
          (Z.to_nat (2 * (i + Z.of_nat k)) < length table)%nat ->
          table' !! Z.to_nat (2 * (i + Z.of_nat k)) = Some (rgb_at stream (3 * k)))
    /\ (forall j : nat,
          (forall k : nat, (k < n)%nat -> j <> Z.to_nat (2 * (i + Z.of_nat k))) ->
          table' !! j = table !! j).
Proof.
  revert i stream pixbuf table.
  induction n as [| n IH]; intros i stream pixbuf table Hlen Hi.
  - exists pixbuf, table. simpl. repeat split; try done. intros; lia.
  - cbn [palette_loop].
    destruct (ifstream_read_3 pixbuf stream ltac:(lia)) as [Hs Hp].
    destruct (ifstream_read 3 pixbuf stream) as [pixbuf1 stream1].
    cbn [fst snd] in Hs, Hp. subst stream1. rewrite Hp.
    rewrite Z.shiftl_mul_pow2 by lia. change (2 ^ 1) with 2.
    destruct (IH (i + 1) (drop 3 stream) pixbuf1
                (<[Z.to_nat (i * 2) := rgb_at stream 0]> table))
      as (pixbuf' & table' & Hrun & Hl & Hset & Hkeep).
    { rewrite length_drop. lia. }
    { lia. }
    exists pixbuf', table'. rewrite Hrun, drop_drop.
    rewrite length_insert in Hl.
    split; [do 2 f_equal; f_equal; lia |].
    split; [done |]. split.
    + intros k Hk Hin. destruct k as [| k].
      * rewrite Hkeep.
        -- replace (Z.to_nat (2 * (i + Z.of_nat 0))) with (Z.to_nat (i * 2)) in * by lia.
           by rewrite list_lookup_insert_eq by lia.
        -- intros k' _. lia.
      * replace (2 * (i + Z.of_nat (S k))) with (2 * (i + 1 + Z.of_nat k)) in * by lia.
        rewrite Hset by (rewrite ?length_insert; lia).
        rewrite rgb_at_drop.
        by replace (3 + 3 * k)%nat with (3 * S k)%nat by lia.
    + intros j Hj. rewrite Hkeep.
      * rewrite list_lookup_insert_ne; [done |].
        specialize (Hj 0%nat ltac:(lia)). lia.
      * intros k Hk. specialize (Hj (S k) ltac:(lia)). lia.
Qed.

Lemma secam_loop_spec (n : nat) (i : Z) (stream pixbuf : list byte) (secam : list Z) :
  (3 * n <= length stream)%nat -> 0 <= i ->
  (Z.to_nat (2 * (i + Z.of_nat n)) <= length secam)%nat ->
  exists pixbuf' secam',
    secam_loop n i stream pixbuf secam = (drop (3 * n) stream, pixbuf', secam')
    /\ length secam' = length secam
    /\ (forall k : nat, (k < n)%nat ->
          secam' !! Z.to_nat (2 * (i + Z.of_nat k)) = Some (rgb_at stream (3 * k))
          /\ secam' !! S (Z.to_nat (2 * (i + Z.of_nat k))) = Some 0)
    /\ (forall j : nat, (j < Z.to_nat (2 * i))%nat -> secam' !! j = secam !! j).
Proof.
  revert i stream pixbuf secam.
  induction n as [| n IH]; intros i stream pixbuf secam Hlen Hi Hsz.
  - exists pixbuf, secam. simpl. repeat split; try done; intros; lia.
  - cbn [secam_loop].
    destruct (ifstream_read_3 pixbuf stream ltac:(lia)) as [Hs Hp].
    destruct (ifstream_read 3 pixbuf stream) as [pixbuf1 stream1].
    cbn [fst snd] in Hs, Hp. subst stream1. rewrite Hp.
    rewrite Z.shiftl_mul_pow2 by lia. change (2 ^ 1) with 2.
    set (secam1 := <[Z.to_nat (i * 2 + 1) := 0]>
                     (<[Z.to_nat (i * 2) := rgb_at stream 0]> secam)).
    assert (length secam1 = length secam) as Hl1
      by (unfold secam1; by rewrite !length_insert).
    destruct (IH (i + 1) (drop 3 stream) pixbuf1 secam1)
      as (pixbuf' & secam' & Hrun & Hl & Hset & Hkeep).
    { rewrite length_drop. lia. }
    { lia. }
    { rewrite Hl1. lia. }
    exists pixbuf', secam'. rewrite Hrun, drop_drop.
    split; [do 2 f_equal; f_equal; lia |].
    split; [congruence |]. split.
    + intros k Hk. destruct k as [| k].
      * rewrite !Hkeep by lia. unfold secam1.
        replace (Z.to_nat (2 * (i + Z.of_nat 0))) with (Z.to_nat (i * 2)) by lia.
        replace (S (Z.to_nat (i * 2))) with (Z.to_nat (i * 2 + 1)) by lia.
        split.
        -- rewrite list_lookup_insert_ne by lia.
           by rewrite list_lookup_insert_eq by lia.
        -- by rewrite list_lookup_insert_eq by (rewrite length_insert; lia).
      * replace (2 * (i + Z.of_nat (S k))) with (2 * (i + 1 + Z.of_nat k)) by lia.
        destruct (Hset k ltac:(lia)) as [-> ->].
        rewrite rgb_at_drop.
        by replace (3 + 3 * k)%nat with (3 * S k)%nat by lia.
    + intros j Hj. rewrite Hkeep by lia. unfold secam1.
      by rewrite !list_lookup_insert_ne by lia.
Qed.

Lemma copy_loop_spec (n ptr s : nat) (secam table : list Z) :
  (s + n <= length secam)%nat -> (ptr + n <= length table)%nat ->
  copy_loop n ptr s secam table
    = ((ptr + n)%nat,
       take ptr table ++ take n (drop s secam) ++ drop (ptr + n) table).
Proof.
  revert ptr s table.
  induction n as [| n IH]; intros ptr s table Hs Hp.
  - simpl. by rewrite Nat.add_0_r, take_drop.
  - cbn [copy_loop].
    assert (is_Some (secam !! s)) as [v Hv] by (apply lookup_lt_is_Some; lia).
    rewrite Hv. cbn [default from_option]. unfold id.
    rewrite IH by (rewrite ?length_insert; lia).
    f_equal; [lia |].
    rewrite (drop_S secam v s Hv). cbn [take].
    rewrite drop_insert_lt by lia.
    rewrite (take_S_r _ ptr v) by (apply list_lookup_insert_eq; lia).
    rewrite take_insert_ge by lia.
    replace (S ptr + n)%nat with (ptr + S n)%nat by lia.
    by rewrite <- app_assoc.
Qed.

Lemma replicate_loop_spec (n ptr : nat) (secam table : list Z) :
  length secam = 16%nat -> (ptr + 16 * n <= length table)%nat ->
  replicate_loop n ptr secam table
    = take ptr table ++ concat (replicate n secam) ++ drop (ptr + 16 * n) table.
Proof.
  intros Hsec. revert ptr table.
  induction n as [| n IH]; intros ptr table Hp.
  - simpl. by rewrite Nat.add_0_r, take_drop.
  - cbn [replicate_loop].
    rewrite copy_loop_spec by lia.
    rewrite drop_0, (take_ge secam) by lia.
    rewrite IH.
    2:{ rewrite !length_app, length_take, length_drop. lia. }
    rewrite (app_assoc (take ptr table) secam).
    rewrite take_app_length' by (rewrite length_app, length_take; lia).
    rewrite (drop_app_add' _ _ (ptr + 16) (16 * n))
      by (rewrite length_app, length_take; lia).
    rewrite drop_drop. cbn [replicate concat].
    replace (ptr + 16 * S n)%nat with (ptr + 16 + 16 * n)%nat by lia.
    by rewrite <- !app_assoc.
Qed.

Lemma lookup_concat_replicate (n k j : nat) (secam : list Z) :
  length secam = 16%nat -> (k < n)%nat -> (j < 16)%nat ->
  concat (replicate n secam) !! (16 * k + j)%nat = secam !! j.
Proof.
  intros Hsec. revert k.
  induction n as [| n IH]; intros k Hk Hj; [lia |].
  cbn [replicate concat]. destruct k as [| k].
  - rewrite lookup_app_l by lia. f_equal.
  - rewrite lookup_app_r by lia. rewrite Hsec.
    replace (16 * S k + j - 16)%nat with (16 * k + j)%nat by lia.
    apply IH; lia.
Qed.

(** C8.  If the palette file cannot be opened or holds fewer than 792
    bytes, [loadUserPalette] changes nothing: the three user tables and
    [myUserPaletteDefined] (which the constructor set to [false]) are as
    before.  If it holds at least 792 bytes, the flag becomes [true]; the
    even entries [2 i] of the NTSC and PAL tables are the colours made of
    bytes [3 i ..] and [384 + 3 i ..] of the file, their odd entries are
    untouched, and the SECAM table is 16 copies of the 8 colours at bytes
    [768 + 3 i ..], each followed by a zero entry. *)
Theorem C8_user_palette (pixbuf0 : list byte) (secam0 : list Z) (c : UserPalette) :
  length (ourUserNTSCPalette c) = 256%nat ->
  length (ourUserPALPalette c) = 256%nat ->
  length (ourUserSECAMPalette c) = 256%nat ->
  length secam0 = 16%nat ->
  loadUserPalette None pixbuf0 secam0 c = c
  /\ (forall bytes : list byte,
        (length bytes < 792)%nat ->
        loadUserPalette (Some bytes) pixbuf0 secam0 c = c)
  /\ (forall bytes : list byte,
        (792 <= length bytes)%nat ->
        let c' := loadUserPalette (Some bytes) pixbuf0 secam0 c in
        myUserPaletteDefined c' = true
        /\ (forall i : nat, (i < 128)%nat ->
              ourUserNTSCPalette c' !! (2 * i)%nat = Some (rgb_at bytes (3 * i))
              /\ ourUserNTSCPalette c' !! (2 * i + 1)%nat
                 = ourUserNTSCPalette c !! (2 * i + 1)%nat)
        /\ (forall i : nat, (i < 128)%nat ->
              ourUserPALPalette c' !! (2 * i)%nat
                = Some (rgb_at bytes (384 + 3 * i))
              /\ ourUserPALPalette c' !! (2 * i + 1)%nat
                 = ourUserPALPalette c !! (2 * i + 1)%nat)
        /\ (forall k i : nat, (k < 16)%nat -> (i < 8)%nat ->
              ourUserSECAMPalette c' !! (16 * k + 2 * i)%nat
                = Some (rgb_at bytes (768 + 3 * i))
              /\ ourUserSECAMPalette c' !! (16 * k + 2 * i + 1)%nat = Some 0)).
Proof.
  intros Hn Hp Hs Hsec. repeat apply conj.
  - reflexivity.
  - intros bytes Hlen. unfold loadUserPalette.
    destruct (Z.ltb_spec (Z.of_nat (length bytes)) (128 * 3 * 2 + 8 * 3)); [done | lia].
  - intros bytes Hlen. unfold loadUserPalette.
    destruct (Z.ltb_spec (Z.of_nat (length bytes)) (128 * 3 * 2 + 8 * 3)); [lia |].
    destruct (palette_loop_spec 128 0 bytes pixbuf0 (ourUserNTSCPalette c))
      as (pixbuf1 & ntsc & -> & Hl1 & Hset1 & Hkeep1); [lia | lia |].
    destruct (palette_loop_spec 128 0 (drop (3 * 128) bytes) pixbuf1
                (ourUserPALPalette c))
      as (pixbuf2 & palT & -> & Hl2 & Hset2 & Hkeep2);
      [rewrite length_drop; lia | lia |].
    destruct (secam_loop_spec 8 0 (drop (3 * 128) (drop (3 * 128) bytes)) pixbuf2 secam0)
      as (pixbuf3 & secam & -> & Hl3 & Hset3 & _);
      [rewrite !length_drop; lia | lia | lia |].
    cbn [myUserPaletteDefined ourUserNTSCPalette ourUserPALPalette
         ourUserSECAMPalette].
    split; [done |]. split; [| split].
    + intros i Hi. split.
      * specialize (Hset1 i Hi).
        replace (Z.to_nat (2 * (0 + Z.of_nat i))) with (2 * i)%nat in Hset1 by lia.
        apply Hset1. lia.
      * apply Hkeep1. intros k Hk. lia.
    + intros i Hi. split.
      * specialize (Hset2 i Hi).
        replace (Z.to_nat (2 * (0 + Z.of_nat i))) with (2 * i)%nat in Hset2 by lia.
        rewrite Hset2 by lia. rewrite rgb_at_drop. f_equal.
      * apply Hkeep2. intros k Hk. lia.
    + intros k i Hk Hi.
      rewrite (replicate_loop_spec 16 0 secam (ourUserSECAMPalette c)) by lia.
      rewrite take_0, app_nil_l.
      assert (length (concat (replicate 16 secam)) = 256%nat) as Hcat.
      { rewrite length_concat, fmap_replicate, sum_list_replicate. lia. }
      rewrite <- Nat.add_assoc.
      rewrite !lookup_app_l by lia.
      rewrite !lookup_concat_replicate by lia.
      destruct (Hset3 i Hi) as [Ha Hb].
      replace (Z.to_nat (2 * (0 + Z.of_nat i))) with (2 * i)%nat in Ha, Hb by lia.
      replace (2 * i + 1)%nat with (S (2 * i)) by lia.
      rewrite Ha, Hb, !rgb_at_drop. split; [f_equal; f_equal; lia | done].
Qed.

(** ** Console.cxx: the colour-loss entries *)

(** Double precision, for the grayscale formula. *)
Module F64.

Definition prec : Z := 53.
Definition emax : Z := 1024.

Definition float : Type := spec_float.

Definition add : float -> float -> float := SFadd prec emax.
Definition mul : float -> float -> float := SFmul prec emax.
Definition div : float -> float -> float := SFdiv prec emax.

(** An [int] converted to [double]. *)
Definition of_Z (z : Z) : float := binary_normalize prec emax z 0 false.

(** The literal [n / 10000], as [0.2989] is [2989 / 10000]: the double
    nearest to the decimal fraction. *)
Definition of_decimal4 (n : Z) : float := div (of_Z n) (of_Z 10000).

(** Conversion to an integer type discards the fraction. *)
Definition truncate (x : float) : Z :=
  match x with
  | S754_finite s m e =>
      let v := if 0 <=? e then Z.pos m * 2 ^ e else Z.pos m / 2 ^ (- e) in
      if s then - v else v
  | _ => 0
  end.

End F64.

(** [uInt8(x)] for a double [x].  C++ defines the result only when the
    truncated value is between 0 and 255; for other values this is the
    low byte of the truncated value. *)
Definition uInt8_of_double (x : F64.float) : Z := F64.truncate x mod 256.

(** The body of the inner loop of [generateColorLossPalette]: the gray
    entry for the colour [pixel]. *)
Definition colorLoss_gray (pixel : Z) : Z :=
  let r := Z.land (Z.shiftr pixel 16) 255 in
  let g := Z.land (Z.shiftr pixel 8) 255 in
  let b := Z.land (Z.shiftr pixel 0) 255 in
  let sum :=
    uInt8_of_double
      (F64.add
         (F64.add (F64.mul (F64.of_Z r) (F64.of_decimal4 2989))
                  (F64.mul (F64.of_Z g) (F64.of_decimal4 5870)))
         (F64.mul (F64.of_Z b) (F64.of_decimal4 1140))) in
  Z.shiftl sum 16 + Z.shiftl sum 8 + sum.

(** [for (int j = ...; j < 128; ++j)] on one table: [n] more iterations
    from [j] on. *)
Fixpoint colorLoss_loop (n : nat) (j : Z) (table : list Z) : list Z :=
  match n with
  | O => table
  | S n' =>
      let pixel := default 0 (table !! Z.to_nat (Z.shiftl j 1)) in
      colorLoss_loop n' (j + 1)
        (<[ Z.to_nat (Z.shiftl j 1 + 1) := colorLoss_gray pixel ]> table)
  end.

(** The static palette tables of [Console], each a [uInt32[256]], and the
    member [myUserPaletteDefined], which sits in [userPalette]. *)
Record Palettes : Type := {
  ourNTSCPalette : list Z;
  ourPALPalette : list Z;
  ourSECAMPalette : list Z;
  ourNTSCPaletteZ26 : list Z;
  ourPALPaletteZ26 : list Z;
  ourSECAMPaletteZ26 : list Z;
  userPalette : UserPalette
}.

(** [void Console::generateColorLossPalette()].  The nine tables are
    distinct arrays, so the order of the outer loop does not show. *)
Definition generateColorLossPalette (p : Palettes) : Palettes :=
  let fill := colorLoss_loop 128 0 in
  {| ourNTSCPalette := fill (ourNTSCPalette p);
     ourPALPalette := fill (ourPALPalette p);
     ourSECAMPalette := fill (ourSECAMPalette p);
     ourNTSCPaletteZ26 := fill (ourNTSCPaletteZ26 p);
     ourPALPaletteZ26 := fill (ourPALPaletteZ26 p);
     ourSECAMPaletteZ26 := fill (ourSECAMPaletteZ26 p);
     userPalette :=
       let u := userPalette p in
       if myUserPaletteDefined u then
         {| ourUserNTSCPalette := fill (ourUserNTSCPalette u);
            ourUserPALPalette := fill (ourUserPALPalette u);
            ourUserSECAMPalette := fill (ourUserSECAMPalette u);
            myUserPaletteDefined := myUserPaletteDefined u |}
       else u |}.

(** Every table has its 256 entries. *)
Record palettes_wf (p : Palettes) : Prop := {
  wf_ntsc : length (ourNTSCPalette p) = 256%nat;
  wf_pal : length (ourPALPalette p) = 256%nat;
  wf_secam : length (ourSECAMPalette p) = 256%nat;
  wf_ntsc_z26 : length (ourNTSCPaletteZ26 p) = 256%nat;
  wf_pal_z26 : length (ourPALPaletteZ26 p) = 256%nat;
  wf_secam_z26 : length (ourSECAMPaletteZ26 p) = 256%nat;
  wf_user_ntsc : length (ourUserNTSCPalette (userPalette p)) = 256%nat;
  wf_user_pal : length (ourUserPALPalette (userPalette p)) = 256%nat;
  wf_user_secam : length (ourUserSECAMPalette (userPalette p)) = 256%nat
}.

(** [table'] is [table] with the odd entries replaced by the gray of the
    colour before them. *)
Definition gray_filled (table table' : list Z) : Prop :=
  length table' = length table
  /\ forall j : nat, (j < 128)%nat ->
       table' !! (2 * j)%nat = table !! (2 * j)%nat
       /\ table' !! (2 * j + 1)%nat
          = Some (colorLoss_gray (default 0 (table !! (2 * j)%nat))).

Lemma colorLoss_loop_length n j table :
  length (colorLoss_loop n j table) = length table.
Proof.
  revert j table. induction n as [| n IH]; intros j table; [done |].
  cbn [colorLoss_loop]. by rewrite IH, length_insert.
Qed.

Lemma colorLoss_loop_lookup n (j : Z) table (k : nat) :
  0 <= j -> 2 * (j + Z.of_nat n) <= Z.of_nat (length table) ->
  colorLoss_loop n j table !! k
    = if decide (Nat.odd k = true /\ 2 * j <= Z.of_nat k < 2 * (j + Z.of_nat n))
      then Some (colorLoss_gray (default 0 (table !! (k - 1)%nat)))
      else table !! k.
Proof.
  revert j table. induction n as [| n IH]; intros j table Hj Hlen.
  - cbn [colorLoss_loop]. by rewrite decide_False by lia.
  - cbn [colorLoss_loop]. rewrite Z.shiftl_mul_pow2 by lia. change (2 ^ 1) with 2.
    rewrite IH by (rewrite ?length_insert; lia).
    destruct (decide (Nat.odd k = true
                      /\ 2 * (j + 1) <= Z.of_nat k < 2 * (j + 1 + Z.of_nat n)))
      as [[Hodd Hin] | Hout].
    + rewrite decide_True by (split; [done | lia]).
      rewrite list_lookup_insert_ne; [done |].
      apply Nat.odd_spec in Hodd as [m Hm]. lia.
    + destruct (decide (k = Z.to_nat (j * 2 + 1))) as [-> | Hne].
      * rewrite decide_True.
        2:{ split; [| lia].
            replace (Z.to_nat (j * 2 + 1)) with (2 * Z.to_nat j + 1)%nat by lia.
            rewrite Nat.odd_add, Nat.odd_mul. reflexivity. }
        rewrite list_lookup_insert_eq by lia.
        by replace (Z.to_nat (j * 2 + 1) - 1)%nat with (Z.to_nat (j * 2)) by lia.
      * rewrite list_lookup_insert_ne by done.
        destruct (decide (Nat.odd k = true
                          /\ 2 * j <= Z.of_nat k < 2 * (j + Z.of_nat (S n))))
          as [[Hodd Hin] |]; [| done].
        exfalso. apply Hout. split; [done |].
        assert (Z.of_nat k <> 2 * j).
        { intros E. assert (k = (2 * Z.to_nat j)%nat) as -> by lia.
          rewrite Nat.odd_mul in Hodd. discriminate. }
        lia.
Qed.

Lemma colorLoss_loop_filled table :
  length table = 256%nat -> gray_filled table (colorLoss_loop 128 0 table).
Proof.
  intros Hlen. split; [apply colorLoss_loop_length |].
  intros j Hj. rewrite !colorLoss_loop_lookup by lia. split.
  - rewrite decide_False; [done |].
    intros [Hodd _]. rewrite Nat.odd_mul in Hodd. discriminate.
  - rewrite decide_True.
    + by replace (2 * j + 1 - 1)%nat with (2 * j)%nat by lia.
    + split; [| lia]. rewrite Nat.odd_add, Nat.odd_mul. reflexivity.
Qed.

Lemma colorLoss_loop_idempotent table :
  length table = 256%nat ->
  colorLoss_loop 128 0 (colorLoss_loop 128 0 table) = colorLoss_loop 128 0 table.
Proof.
  intros Hlen. apply list_eq. intros k.
  rewrite (colorLoss_loop_lookup 128 0 (colorLoss_loop 128 0 table))
    by (rewrite ?colorLoss_loop_length; lia).
  destruct (decide (Nat.odd k = true /\ 2 * 0 <= Z.of_nat k < 2 * (0 + Z.of_nat 128)))
    as [[Hodd Hin] | Hout]; [| done].
  rewrite !colorLoss_loop_lookup by lia.
  destruct (decide (Nat.odd k = true /\ _)) as [_ | Hn];
    [| exfalso; apply Hn; done].
  destruct (decide (Nat.odd (k - 1) = true /\ _)) as [[Hodd' _] | _]; [| done].
  exfalso. apply Nat.odd_spec in Hodd as [m Hm], Hodd' as [m' Hm']. lia.
Qed.

#[local] Arguments colorLoss_loop : simpl never.

(** X7.  The colour-loss palettes.  [generateColorLossPalette] never changes a
    colour: in each of the six built-in tables the even entries are kept
    and every odd entry becomes the gray computed from the colour in front
    of it.  The three user tables are treated the same when a user palette
    has been loaded and are not touched otherwise, and
    [myUserPaletteDefined] is never changed. *)
Theorem X7_color_loss_entries (p : Palettes) :
  palettes_wf p ->
  let p' := generateColorLossPalette p in
  palettes_wf p'
  /\ Forall (fun table : Palettes -> list Z => gray_filled (table p) (table p'))
       [ourNTSCPalette; ourPALPalette; ourSECAMPalette;
        ourNTSCPaletteZ26; ourPALPaletteZ26; ourSECAMPaletteZ26]
  /\ myUserPaletteDefined (userPalette p') = myUserPaletteDefined (userPalette p)
  /\ (myUserPaletteDefined (userPalette p) = true ->
      Forall (fun table : UserPalette -> list Z =>
                gray_filled (table (userPalette p)) (table (userPalette p')))
        [ourUserNTSCPalette; ourUserPALPalette; ourUserSECAMPalette])
  /\ (myUserPaletteDefined (userPalette p) = false ->
      userPalette p' = userPalette p).
Proof.
  intros [H1 H2 H3 H4 H5 H6 H7 H8 H9] p'. subst p'.
  unfold generateColorLossPalette.
  destruct p as [t1 t2 t3 t4 t5 t6 [u1 u2 u3 defined]]. cbn in *.
  repeat apply conj.
  - destruct defined; split; cbn; by rewrite ?colorLoss_loop_length.
  - repeat constructor; cbn; by apply colorLoss_loop_filled.
  - by destruct defined.
  - intros ->. repeat constructor; cbn; by apply colorLoss_loop_filled.
  - by intros ->.
Qed.

(** X8.  [generateColorLossPalette] can be run again at any time, as
    [initializeVideo] does: a second run changes nothing. *)
Theorem X8_color_loss_idempotent (p : Palettes) :
  palettes_wf p ->
  generateColorLossPalette (generateColorLossPalette p)
    = generateColorLossPalette p.
Proof.
  intros [H1 H2 H3 H4 H5 H6 H7 H8 H9].
  unfold generateColorLossPalette.
  destruct p as [t1 t2 t3 t4 t5 t6 [u1 u2 u3 defined]]. cbn in *.
  destruct defined; cbn; by rewrite !colorLoss_loop_idempotent.
Qed.

(** ** Console.cxx and FrameBuffer.cxx: choosing a palette *)

(** The addresses in the table [palettes] of [Console::setPalette]. *)
Inductive PalettePtr : Type :=
  | ptr_ourNTSCPalette
  | ptr_ourPALPalette
  | ptr_ourSECAMPalette
  | ptr_ourNTSCPaletteZ26
  | ptr_ourPALPaletteZ26
  | ptr_ourSECAMPaletteZ26
  | ptr_ourUserNTSCPalette
  | ptr_ourUserPALPalette
  | ptr_ourUserSECAMPalette.

(** The array at an address. *)
Definition deref (q : PalettePtr) (p : Palettes) : list Z :=
  match q with
  | ptr_ourNTSCPalette => ourNTSCPalette p
  | ptr_ourPALPalette => ourPALPalette p
  | ptr_ourSECAMPalette => ourSECAMPalette p
  | ptr_ourNTSCPaletteZ26 => ourNTSCPaletteZ26 p
  | ptr_ourPALPaletteZ26 => ourPALPaletteZ26 p
  | ptr_ourSECAMPaletteZ26 => ourSECAMPaletteZ26 p
  | ptr_ourUserNTSCPalette => ourUserNTSCPalette (userPalette p)
  | ptr_ourUserPALPalette => ourUserPALPalette (userPalette p)
  | ptr_ourUserSECAMPalette => ourUserSECAMPalette (userPalette p)
  end.

Definition is_user_table (q : PalettePtr) : bool :=
  match q with
  | ptr_ourUserNTSCPalette | ptr_ourUserPALPalette | ptr_ourUserSECAMPalette => true
  | _ => false
  end.

(** [static uInt32* palettes[3][3]] *)
Definition palettes : list (list PalettePtr) :=
  [ [ptr_ourNTSCPalette; ptr_ourPALPalette; ptr_ourSECAMPalette];
    [ptr_ourNTSCPaletteZ26; ptr_ourPALPaletteZ26; ptr_ourSECAMPaletteZ26];
    [ptr_ourUserNTSCPalette; ptr_ourUserPALPalette; ptr_ourUserSECAMPalette] ].

(** [palettes[num][col]] for indices inside the table. *)
Definition palettes_at (num col : Z) : PalettePtr :=
  default ptr_ourNTSCPalette
    (palettes !! Z.to_nat num ≫= fun row => row !! Z.to_nat col).

(** The local variable [paletteNum] of [setPalette] after the chain of
    tests. *)
Definition paletteNum_of (type : string) (userDefined : bool) : Z :=
  if String.eqb type "standard" then 0
  else if String.eqb type "z26" then 1
  else if String.eqb type "user" && userDefined then 2
  else 0.

(** The first part of [togglePalette]: the new value of the setting and
    the message, from the old value. *)
Definition toggled (palette : string) (userDefined : bool) : string * string :=
  if String.eqb palette "standard" then ("z26", "Z26 palette")
  else if String.eqb palette "z26" then
    if userDefined then ("user", "User-defined palette")
    else ("standard", "Standard Stella palette")
  else if String.eqb palette "user" then ("standard", "Standard Stella palette")
  else ("standard", "Standard Stella palette").

Module Video.

Section SetPalette.

(** Collaborators whose code is outside this source tree.  [Host] is the
    state behind [myOSystem] apart from [FrameBuffer::myPalette]: the
    settings, the message of the frame buffer and the TIA surface.
    [mapRGB] is the virtual function of [FrameBuffer]. *)
Context {Host TIA : Type}.
Variable getString : string -> Host -> string.
Variable setValue : string -> string -> Host -> Host.
Variable showMessage : string -> Host -> Host.
Variable mapRGB : Z -> Z -> Z -> Z.
(** [TIASurface::setPalette(tia_palette, rgb_palette)], given the contents
    of the two arrays. *)
Variable TIASurface_setPalette : list Z -> list Z -> Host -> Host.
Variable usingFixedColors : TIA -> bool.
Variable enableFixedColors : bool -> TIA -> TIA.

(** The members of [Console] and of [FrameBuffer] that [setPalette] and
    [togglePalette] use. *)
Record Console : Type := {
  myDisplayFormat : string;
  tables : Palettes;
  myPalette : list Z;
  host : Host;
  myTIA : TIA
}.

Definition set_host (h : Host) (c : Console) : Console :=
  {| myDisplayFormat := myDisplayFormat c; tables := tables c;
     myPalette := myPalette c; host := h; myTIA := myTIA c |}.

Definition set_tables (p : Palettes) (c : Console) : Console :=
  {| myDisplayFormat := myDisplayFormat c; tables := p;
     myPalette := myPalette c; host := host c; myTIA := myTIA c |}.

(** [mapRGB(r, g, b)] for the three bytes of a table entry. *)
Definition mapped (pixel : Z) : Z :=
  mapRGB (Z.land (Z.shiftr pixel 16) 255)
         (Z.land (Z.shiftr pixel 8) 255)
         (Z.land pixel 255).

(** The loop of [FrameBuffer::setPalette]: [n] more entries from [i] on. *)
Fixpoint setPalette_loop (n : nat) (i : nat) (raw_palette palette : list Z)
    : list Z :=
  match n with
  | O => palette
  | S n' =>
      setPalette_loop n' (S i) raw_palette
        (<[ i := mapped (default 0 (raw_palette !! i)) ]> palette)
  end.

(** [void FrameBuffer::setPalette(const uInt32* raw_palette)] *)
Definition FrameBuffer_setPalette (raw_palette : list Z) (c : Console) : Console :=
  let palette := setPalette_loop 256 0 raw_palette (myPalette c) in
  {| myDisplayFormat := myDisplayFormat c;
     tables := tables c;
     myPalette := palette;
     host := TIASurface_setPalette palette raw_palette (host c);
     myTIA := myTIA c |}.

(** The pointer [palette] of [Console::setPalette]. *)
Definition chosen (type : string) (c : Console) : PalettePtr :=
  palettes_at
    (paletteNum_of type (myUserPaletteDefined (userPalette (tables c))))
    (column_of (myDisplayFormat c)).

(** [void Console::setPalette(const string& type)] *)
Definition setPalette (type : string) (c : Console) : Console :=
  let c1 := FrameBuffer_setPalette (deref (chosen type c) (tables c)) c in
  if usingFixedColors (myTIA c1) then
    {| myDisplayFormat := myDisplayFormat c1;
       tables := tables c1;
       myPalette := myPalette c1;
       host := host c1;
       myTIA := enableFixedColors true (myTIA c1) |}
  else c1.

(** [void Console::togglePalette()] *)
Definition togglePalette (c : Console) : Console :=
  let '(palette, message) :=
    toggled (getString "palette" (host c))
            (myUserPaletteDefined (userPalette (tables c))) in
  setPalette palette
    (set_host (showMessage message (setValue "palette" palette (host c))) c).

Lemma setPalette_loop_spec (n i : nat) (raw_palette palette : list Z) :
  (i + n <= length raw_palette)%nat -> (i + n <= length palette)%nat ->
  setPalette_loop n i raw_palette palette
    = take i palette ++ map mapped (take n (drop i raw_palette))
        ++ drop (i + n) palette.
Proof.
  revert i palette. induction n as [| n IH]; intros i palette Hraw Hpal.
  - simpl. by rewrite Nat.add_0_r, take_drop.
  - cbn [setPalette_loop].
    assert (is_Some (raw_palette !! i)) as [v Hv]
      by (apply lookup_lt_is_Some; lia).
    rewrite Hv. cbn [default from_option]. unfold id.
    rewrite IH by (rewrite ?length_insert; lia).
    rewrite (drop_S raw_palette v i Hv). cbn [take map].
    rewrite drop_insert_lt by lia.
    rewrite (take_S_r _ i (mapped v)) by (apply list_lookup_insert_eq; lia).
    rewrite take_insert_ge by lia.
    replace (S i + n)%nat with (i + S n)%nat by lia.
    by rewrite <- app_assoc.
Qed.

Lemma paletteNum_of_range (type : string) (userDefined : bool) :
  0 <= paletteNum_of type userDefined <= 2.
Proof.
  unfold paletteNum_of.
  destruct (String.eqb type "standard"), (String.eqb type "z26"),
    (String.eqb type "user"), userDefined; simpl; lia.
Qed.

Lemma column_of_range (displayFormat : string) : 0 <= column_of displayFormat <= 2.
Proof.
  unfold column_of.
  destruct (compare_0 3 "PAL" displayFormat),
    (compare_0 5 "SECAM" displayFormat); lia.
Qed.

Lemma palettes_at_user (num col : Z) :
  0 <= num <= 2 -> 0 <= col <= 2 ->
  is_user_table (palettes_at num col) = true <-> num = 2.
Proof.
  intros Hn Hc.
  assert (num = 0 \/ num = 1 \/ num = 2) as [-> | [-> | ->]] by lia;
    assert (col = 0 \/ col = 1 \/ col = 2) as [-> | [-> | ->]] by lia;
    cbn; split; (done || lia).
Qed.

Lemma paletteNum_of_user (type : string) (userDefined : bool) :
  paletteNum_of type userDefined = 2 <-> type = "user" /\ userDefined = true.
Proof.
  unfold paletteNum_of.
  destruct (String.eqb_spec type "standard") as [-> | H1];
    [split; [lia | by intros []] |].
  destruct (String.eqb_spec type "z26") as [-> | H2];
    [split; [lia | by intros []] |].
  destruct (String.eqb_spec type "user") as [-> | H3], userDefined; cbn;
    split; try done; try lia; by intros [].
Qed.

Lemma chosen_user (type : string) (c : Console) :
  is_user_table (chosen type c) = true
  <-> type = "user" /\ myUserPaletteDefined (userPalette (tables c)) = true.
Proof.
  unfold chosen.
  rewrite palettes_at_user
    by (apply paletteNum_of_range || apply column_of_range).
  apply paletteNum_of_user.
Qed.

Lemma chosen_length (type : string) (c : Console) :
  palettes_wf (tables c) -> length (deref (chosen type c) (tables c)) = 256%nat.
Proof.
  intros [H1 H2 H3 H4 H5 H6 H7 H8 H9]. unfold chosen.
  pose proof (paletteNum_of_range type
                (myUserPaletteDefined (userPalette (tables c)))) as Hn.
  pose proof (column_of_range (myDisplayFormat c)) as Hc.
  set (num := paletteNum_of _ _) in *. set (col := column_of _) in *.
  assert (num = 0 \/ num = 1 \/ num = 2) as [-> | [-> | ->]] by lia;
    assert (col = 0 \/ col = 1 \/ col = 2) as [-> | [-> | ->]] by lia; done.
Qed.

Lemma setPalette_spec (type : string) (c : Console) :
  palettes_wf (tables c) ->
  (256 <= length (myPalette c))%nat ->
  myPalette (setPalette type c)
    = map mapped (deref (chosen type c) (tables c)) ++ drop 256 (myPalette c)
  /\ tables (setPalette type c) = tables c
  /\ myDisplayFormat (setPalette type c) = myDisplayFormat c.
Proof.
  intros Hwf Hlen. pose proof (chosen_length type c Hwf) as Hraw.
  unfold setPalette, FrameBuffer_setPalette.
  cbn [myTIA myPalette tables myDisplayFormat].
  destruct (usingFixedColors (myTIA c)); cbn [myPalette tables myDisplayFormat];
    (split; [| done]);
    rewrite setPalette_loop_spec by lia;
    rewrite take_0, drop_0, app_nil_l, take_ge by lia; done.
Qed.

(** X9.  What [setPalette] installs.  The first 256 entries of the frame
    buffer's palette become [mapRGB] of the three colour bytes of the
    entries of one table and the entries after them (the colours of the
    user interface) are kept; neither the tables nor the display format
    change.  The table is one of the user's exactly when the type is
    ["user"] and a user palette has been loaded: every other type, and
    ["user"] without a loaded palette, gives a built-in table.  Its column
    is PAL for a display format that starts with PAL, SECAM for one that
    starts with SECAM, and NTSC otherwise. *)
Theorem X9_setPalette_installs (type : string) (c : Console) :
  palettes_wf (tables c) ->
  (256 <= length (myPalette c))%nat ->
  let c' := setPalette type c in
  myPalette c'
    = map mapped (deref (chosen type c) (tables c)) ++ drop 256 (myPalette c)
  /\ tables c' = tables c
  /\ myDisplayFormat c' = myDisplayFormat c
  /\ (is_user_table (chosen type c) = true
      <-> type = "user" /\ myUserPaletteDefined (userPalette (tables c)) = true)
  /\ (forall rest : string,
        column_of (String.append "PAL" rest) = 1
        /\ column_of (String.append "SECAM" rest) = 2)
  /\ (column_of (myDisplayFormat c) = 0
      <-> String.substring 0 3 (myDisplayFormat c) <> "PAL"
          /\ String.substring 0 5 (myDisplayFormat c) <> "SECAM").
Proof.
  intros Hwf Hlen c'.
  destruct (setPalette_spec type c Hwf Hlen) as (Hp & Ht & Hf).
  do 3 (split; [done |]). split; [apply chosen_user |]. split.
  - intros rest. unfold column_of, compare_0. by destruct rest.
  - unfold column_of, compare_0.
    destruct (String.eqb_spec (String.substring 0 3 (myDisplayFormat c)) "PAL");
      [split; [lia | by intros []] |].
    destruct (String.eqb_spec (String.substring 0 5 (myDisplayFormat c)) "SECAM");
      [split; [lia | by intros []] | done].
Qed.

(** *** From the palette file to the frame buffer *)

(** [loadUserPalette()] on the tables of the console. *)
Definition loadUserPalette_here (file : option (list byte))
    (pixbuf0 : list byte) (secam0 : list Z) (c : Console) : Console :=
  let p := tables c in
  set_tables
    {| ourNTSCPalette := ourNTSCPalette p;
       ourPALPalette := ourPALPalette p;
       ourSECAMPalette := ourSECAMPalette p;
       ourNTSCPaletteZ26 := ourNTSCPaletteZ26 p;
       ourPALPaletteZ26 := ourPALPaletteZ26 p;
       ourSECAMPaletteZ26 := ourSECAMPaletteZ26 p;
       userPalette := loadUserPalette file pixbuf0 secam0 (userPalette p) |}
    c.

(** Byte [k] of the palette file, as a number. *)
Definition file_byte (bytes : list byte) (k : nat) : Z :=
  int_of_byte (default Byte.x00 (bytes !! k)).

Lemma mapped_rgb_at (bytes : list byte) (off : nat) :
  mapped (rgb_at bytes off)
    = mapRGB (file_byte bytes off) (file_byte bytes (S off))
             (file_byte bytes (S (S off))).
Proof.
  unfold mapped, rgb_at, file_byte.
  pose proof (int_of_byte_range (default Byte.x00 (bytes !! off))) as H0.
  pose proof (int_of_byte_range (default Byte.x00 (bytes !! S off))) as H1.
  pose proof (int_of_byte_range (default Byte.x00 (bytes !! S (S off)))) as H2.
  set (b0 := int_of_byte (default Byte.x00 (bytes !! off))) in *.
  set (b1 := int_of_byte (default Byte.x00 (bytes !! S off))) in *.
  set (b2 := int_of_byte (default Byte.x00 (bytes !! S (S off)))) in *.
  change 255 with (Z.ones 8). rewrite !Z.land_ones, !Z.shiftr_div_pow2 by lia.
  change (2 ^ 16) with 65536. change (2 ^ 8) with 256.
  f_equal.
  - replace (b0 * 65536 + b1 * 256 + b2) with (b0 * 65536 + (b1 * 256 + b2)) by ring.
    rewrite Z.div_add_l, (Z.div_small (b1 * 256 + b2)), Z.add_0_r by lia.
    apply Z.mod_small. lia.
  - replace (b0 * 65536 + b1 * 256 + b2) with ((b0 * 256 + b1) * 256 + b2) by ring.
    rewrite Z.div_add_l, (Z.div_small b2), Z.add_0_r by lia.
    rewrite Z.add_comm, Z.mod_add by lia. apply Z.mod_small. lia.
  - replace (b0 * 65536 + b1 * 256 + b2) with (b2 + (b0 * 256 + b1) * 256) by ring.
    rewrite Z.mod_add by lia. apply Z.mod_small. lia.
Qed.

Lemma loadUserPalette_rejects (file : option (list byte))
    (pixbuf0 : list byte) (secam0 : list Z) (u : UserPalette) :
  (forall bytes, file = Some bytes -> (length bytes < 792)%nat) ->
  loadUserPalette file pixbuf0 secam0 u = u.
Proof.
  intros Hshort. destruct file as [bytes |]; [| done].
  specialize (Hshort bytes eq_refl). unfold loadUserPalette.
  destruct (Z.ltb_spec (Z.of_nat (length bytes)) (128 * 3 * 2 + 8 * 3)); [done | lia].
Qed.

Lemma loadUserPalette_colours (bytes pixbuf0 : list byte) (secam0 : list Z)
    (u : UserPalette) :
  length (ourUserNTSCPalette u) = 256%nat ->
  length (ourUserPALPalette u) = 256%nat ->
  length (ourUserSECAMPalette u) = 256%nat ->
  length secam0 = 16%nat ->
  (792 <= length bytes)%nat ->
  let u' := loadUserPalette (Some bytes) pixbuf0 secam0 u in
  myUserPaletteDefined u' = true
  /\ length (ourUserNTSCPalette u') = 256%nat
  /\ length (ourUserPALPalette u') = 256%nat
  /\ length (ourUserSECAMPalette u') = 256%nat
  /\ forall i : nat, (i < 128)%nat ->
       ourUserNTSCPalette u' !! (2 * i)%nat = Some (rgb_at bytes (3 * i))
       /\ ourUserPALPalette u' !! (2 * i)%nat = Some (rgb_at bytes (384 + 3 * i)).
Proof.
  intros Hn Hp Hs Hsec Hlen. unfold loadUserPalette.
  destruct (Z.ltb_spec (Z.of_nat (length bytes)) (128 * 3 * 2 + 8 * 3)); [lia |].
  destruct (palette_loop_spec 128 0 bytes pixbuf0 (ourUserNTSCPalette u))
    as (pixbuf1 & ntscT & -> & Hl1 & Hset1 & _); [lia | lia |].
  destruct (palette_loop_spec 128 0 (drop (3 * 128) bytes) pixbuf1
              (ourUserPALPalette u))
    as (pixbuf2 & palT & -> & Hl2 & Hset2 & _);
    [rewrite length_drop; lia | lia |].
  destruct (secam_loop_spec 8 0 (drop (3 * 128) (drop (3 * 128) bytes)) pixbuf2 secam0)
    as (pixbuf3 & secam & -> & Hl3 & _ & _);
    [rewrite !length_drop; lia | lia | lia |].
  cbn [myUserPaletteDefined ourUserNTSCPalette ourUserPALPalette
       ourUserSECAMPalette].
  split; [done |]. split; [lia |]. split; [lia |]. split.
  - rewrite (replicate_loop_spec 16 0 secam (ourUserSECAMPalette u)) by lia.
    rewrite take_0, app_nil_l, length_app, length_drop.
    rewrite length_concat, fmap_replicate, sum_list_replicate. lia.
  - intros i Hi. split.
    + specialize (Hset1 i Hi).
      replace (Z.to_nat (2 * (0 + Z.of_nat i))) with (2 * i)%nat in Hset1 by lia.
      apply Hset1. lia.
    + specialize (Hset2 i Hi).
      replace (Z.to_nat (2 * (0 + Z.of_nat i))) with (2 * i)%nat in Hset2 by lia.
      rewrite Hset2 by lia. by rewrite rgb_at_drop.
Qed.

(** X10.  From the palette file to the screen.  On a console whose user palette
    is not yet defined, as the constructor leaves it, [loadUserPalette]
    followed by [setPalette("user")] behaves as follows.  If the file is
    missing or has fewer than 792 bytes, the result is that of
    [setPalette("standard")]: the built-in palette is used.  If the file
    has at least 792 bytes, colour [2 * i] of the frame buffer is [mapRGB]
    of bytes [3 * i], [3 * i + 1] and [3 * i + 2] of the file when the
    display format selects the NTSC column, and of the three bytes from
    [384 + 3 * i] on when it selects the PAL column. *)
Theorem X10_user_palette_on_screen (file : option (list byte))
    (pixbuf0 : list byte) (secam0 : list Z) (c : Console) :
  palettes_wf (tables c) ->
  (256 <= length (myPalette c))%nat ->
  length secam0 = 16%nat ->
  myUserPaletteDefined (userPalette (tables c)) = false ->
  let c1 := loadUserPalette_here file pixbuf0 secam0 c in
  ((forall bytes, file = Some bytes -> (length bytes < 792)%nat) ->
   setPalette "user" c1 = setPalette "standard" c1
   /\ is_user_table (chosen "user" c1) = false)
  /\ (forall bytes : list byte, file = Some bytes -> (792 <= length bytes)%nat ->
      forall i : nat, (i < 128)%nat ->
        (column_of (myDisplayFormat c) = 0 ->
         myPalette (setPalette "user" c1) !! (2 * i)%nat
           = Some (mapRGB (file_byte bytes (3 * i)) (file_byte bytes (3 * i + 1))
                          (file_byte bytes (3 * i + 2))))
        /\ (column_of (myDisplayFormat c) = 1 ->
            myPalette (setPalette "user" c1) !! (2 * i)%nat
              = Some (mapRGB (file_byte bytes (384 + 3 * i))
                             (file_byte bytes (384 + 3 * i + 1))
                             (file_byte bytes (384 + 3 * i + 2))))).
Proof.
  intros Hwf Hlen Hsec Hundef c1. split.
  - intros Hshort. subst c1. unfold loadUserPalette_here.
    rewrite (loadUserPalette_rejects file pixbuf0 secam0 _ Hshort).
    assert (chosen "user"
              (set_tables
                 {| ourNTSCPalette := ourNTSCPalette (tables c);
                    ourPALPalette := ourPALPalette (tables c);
                    ourSECAMPalette := ourSECAMPalette (tables c);
                    ourNTSCPaletteZ26 := ourNTSCPaletteZ26 (tables c);
                    ourPALPaletteZ26 := ourPALPaletteZ26 (tables c);
                    ourSECAMPaletteZ26 := ourSECAMPaletteZ26 (tables c);
                    userPalette := userPalette (tables c) |} c)
            = chosen "standard"
                (set_tables
                   {| ourNTSCPalette := ourNTSCPalette (tables c);
                      ourPALPalette := ourPALPalette (tables c);
                      ourSECAMPalette := ourSECAMPalette (tables c);
                      ourNTSCPaletteZ26 := ourNTSCPaletteZ26 (tables c);
                      ourPALPaletteZ26 := ourPALPaletteZ26 (tables c);
                      ourSECAMPaletteZ26 := ourSECAMPaletteZ26 (tables c);
                      userPalette := userPalette (tables c) |} c)) as Hsame.
    { unfold chosen. cbn [tables set_tables userPalette]. by rewrite Hundef. }
    split.
    + unfold setPalette. by rewrite Hsame.
    + rewrite Hsame. unfold chosen.
      destruct (is_user_table _) eqn:E; [| done].
      apply palettes_at_user in E;
        [done | apply paletteNum_of_range | apply column_of_range].
  - intros bytes -> Hbytes i Hi.
    destruct Hwf as [H1 H2 H3 H4 H5 H6 H7 H8 H9].
    destruct (loadUserPalette_colours bytes pixbuf0 secam0
                (userPalette (tables c)) H7 H8 H9 Hsec Hbytes)
      as (Hdef & Hl1 & Hl2 & Hl3 & Hcol).
    destruct (Hcol i Hi) as [Hntsc Hpal].
    assert (palettes_wf (tables c1)) as Hwf1 by (by split).
    destruct (setPalette_spec "user" c1 Hwf1 Hlen) as (-> & _ & _).
    assert (chosen "user" c1
              = palettes_at 2 (column_of (myDisplayFormat c))) as Hch.
    { unfold chosen. subst c1.
      cbn [tables loadUserPalette_here set_tables userPalette myDisplayFormat].
      by rewrite Hdef. }
    rewrite Hch. split; intros ->.
    + change (deref (palettes_at 2 0) (tables c1))
        with (ourUserNTSCPalette
                (loadUserPalette (Some bytes) pixbuf0 secam0 (userPalette (tables c)))).
      rewrite lookup_app_l by (rewrite length_map; lia).
      rewrite list_lookup_fmap, Hntsc. cbn [fmap option_fmap option_map].
      rewrite mapped_rgb_at. do 3 f_equal; lia.
    + change (deref (palettes_at 2 1) (tables c1))
        with (ourUserPALPalette
                (loadUserPalette (Some bytes) pixbuf0 secam0 (userPalette (tables c)))).
      rewrite lookup_app_l by (rewrite length_map; lia).
      rewrite list_lookup_fmap, Hpal. cbn [fmap option_fmap option_map].
      rewrite mapped_rgb_at. do 3 f_equal; lia.
Qed.

(** *** Stepping through the palettes *)

Lemma togglePalette_spec (c : Console) :
  let next :=
    fst (toggled (getString "palette" (host c))
           (myUserPaletteDefined (userPalette (tables c)))) in
  let message :=
    snd (toggled (getString "palette" (host c))
           (myUserPaletteDefined (userPalette (tables c)))) in
  togglePalette c
    = setPalette next
        (set_host (showMessage message (setValue "palette" next (host c))) c).
Proof. unfold togglePalette. by destruct (toggled _ _). Qed.

Lemma toggled_cases (palette : string) (userDefined : bool) :
  let next := fst (toggled palette userDefined) in
  (next = "standard" \/ next = "z26" \/ next = "user")
  /\ (next = "user" -> userDefined = true /\ palette = "z26")
  /\ (palette = "standard" -> next = "z26")
  /\ (palette = "z26" -> next = if userDefined then "user" else "standard")
  /\ (palette <> "standard" -> palette <> "z26" -> next = "standard").
Proof.
  unfold toggled.
  destruct (String.eqb_spec palette "standard") as [-> | H1]; [cbn; by intuition |].
  destruct (String.eqb_spec palette "z26") as [-> | H2];
    [destruct userDefined; cbn; by intuition |].
  destruct (String.eqb_spec palette "user") as [-> | H3]; cbn; by intuition.
Qed.

(** X11.  Stepping through the palettes.  When the host keeps what is stored
    under ["palette"], [togglePalette] stores the successor of the stored
    name: ["z26"] after ["standard"], after ["z26"] the name ["user"] if a
    user palette is loaded and ["standard"] if not, and ["standard"] after
    anything else.  So ["user"] is stored only while a user palette is
    loaded, and the frame buffer gets the table the stored name stands for,
    a user table exactly when the name is ["user"]. *)
Theorem X11_togglePalette_cycle (c : Console) :
  (forall v h, getString "palette" (setValue "palette" v h) = v) ->
  (forall m h, getString "palette" (showMessage m h) = getString "palette" h) ->
  (forall a b h,
     getString "palette" (TIASurface_setPalette a b h) = getString "palette" h) ->
  palettes_wf (tables c) ->
  (256 <= length (myPalette c))%nat ->
  let userDefined := myUserPaletteDefined (userPalette (tables c)) in
  let stored c' := getString "palette" (host c') in
  stored (togglePalette c) = fst (toggled (stored c) userDefined)
  /\ tables (togglePalette c) = tables c
  /\ (stored (togglePalette c) = "user" -> userDefined = true)
  /\ myPalette (togglePalette c)
     = map mapped (deref (chosen (stored (togglePalette c)) c) (tables c))
         ++ drop 256 (myPalette c)
  /\ (is_user_table (chosen (stored (togglePalette c)) c) = true
      <-> stored (togglePalette c) = "user")
  /\ (stored c = "standard" ->
      stored (togglePalette (togglePalette (togglePalette c)))
        = if userDefined then "standard" else "z26")
  /\ (stored c = "standard" -> userDefined = false ->
      stored (togglePalette (togglePalette c)) = "standard").
Proof.
  intros Hset Hmsg Htia Hwf Hlen userDefined stored.
  assert (forall c0 : Console,
            stored (togglePalette c0)
              = fst (toggled (stored c0)
                       (myUserPaletteDefined (userPalette (tables c0))))
            /\ tables (togglePalette c0) = tables c0) as Hstep.
  { intros c0. rewrite togglePalette_spec. cbv zeta.
    set (next := fst (toggled _ _)). set (message := snd (toggled _ _)).
    unfold stored, setPalette, FrameBuffer_setPalette.
    cbn [myTIA host tables set_host].
    destruct (usingFixedColors (myTIA c0)); cbn [host tables];
      by rewrite Htia, Hmsg, Hset. }
  destruct (Hstep c) as [Hs Ht]. fold userDefined in Hs.
  destruct (toggled_cases (stored c) userDefined) as (Hcases & Huser & Hstd & Hz26 & Hother).
  cbv zeta in Hcases, Huser, Hstd, Hz26, Hother. rewrite <- Hs in *.
  split; [done |]. split; [done |]. split; [by intros E; apply Huser in E as [] |].
  split; [| split; [| split]].
  - pose proof (togglePalette_spec c) as Hspec. cbv zeta in Hspec.
    fold userDefined in Hspec. fold (stored c) in Hspec. rewrite <- Hs in Hspec.
    set (next := stored (togglePalette c)) in *. rewrite Hspec.
    match goal with
    | |- myPalette (setPalette ?t ?c0) = _ =>
        destruct (setPalette_spec t c0) as (-> & _ & _); [done | done |]
    end.
    reflexivity.
  - rewrite chosen_user. fold userDefined. split; [by intros [] |].
    intros E. split; [done |]. by apply Huser in E as [].
  - intros E. specialize (Hstd E).
    destruct (Hstep (togglePalette c)) as [Hs2 Ht2]. rewrite Ht in Hs2.
    fold userDefined in Hs2.
    destruct (Hstep (togglePalette (togglePalette c))) as [Hs3 Ht3].
    rewrite Ht2, Ht in Hs3. fold userDefined in Hs3.
    rewrite Hs3, Hs2, Hstd. by destruct userDefined.
  - intros E Hno. specialize (Hstd E).
    destruct (Hstep (togglePalette c)) as [Hs2 Ht2]. rewrite Ht in Hs2.
    fold userDefined in Hs2. rewrite Hs2, Hstd, Hno. reflexivity.
Qed.

End SetPalette.

End Video.

(** ** FrameBuffer.cxx: the largest zoom *)

(** The [for (;;)] loop of [maxWindowSizeForScreen] from the value
    [multiplier] of the loop variable on; the result is the value at the
    [break].  [None]: the loop is still running when the fuel is used up. *)
Fixpoint maxWindowSizeForScreen_loop (fuel : nat)
    (baseWidth baseHeight screenWidth screenHeight multiplier : Z) : option Z :=
  match fuel with
  | O => None
  | S fuel' =>
      let width := wrap32 (baseWidth * multiplier) in
      let height := wrap32 (baseHeight * multiplier) in
      if (width >? screenWidth) || (height >? screenHeight) then Some multiplier
      else
        maxWindowSizeForScreen_loop fuel' baseWidth baseHeight screenWidth
          screenHeight (wrap32 (multiplier + 1))
  end.

(** [uInt32 FrameBuffer::maxWindowSizeForScreen(uInt32 baseWidth,
    uInt32 baseHeight, uInt32 screenWidth, uInt32 screenHeight) const] *)
Definition maxWindowSizeForScreen (fuel : nat)
    (baseWidth baseHeight screenWidth screenHeight : Z) : option Z :=
  match maxWindowSizeForScreen_loop fuel baseWidth baseHeight screenWidth
          screenHeight 1 with
  | Some multiplier => Some (if multiplier >? 1 then multiplier - 1 else 1)
  | None => None
  end.

Section MaxWindowSize.

Variables baseWidth baseHeight screenWidth screenHeight : Z.

(** The number of times the base size fits the screen in both directions. *)
Definition fits : Z := Z.min (screenWidth / baseWidth) (screenHeight / baseHeight).

Hypothesis base_width_pos : 0 < baseWidth.
Hypothesis base_height_pos : 0 < baseHeight.
Hypothesis screen_width_range : 0 <= screenWidth.
Hypothesis screen_height_range : 0 <= screenHeight.
Hypothesis width_no_wrap : baseWidth + screenWidth < 2 ^ 32.
Hypothesis height_no_wrap : baseHeight + screenHeight < 2 ^ 32.

Lemma fits_bounds :
  0 <= fits
  /\ baseWidth * fits <= screenWidth
  /\ baseHeight * fits <= screenHeight
  /\ (screenWidth < baseWidth * (fits + 1) \/ screenHeight < baseHeight * (fits + 1)).
Proof.
  unfold fits.
  pose proof (Z.div_pos screenWidth baseWidth screen_width_range base_width_pos).
  pose proof (Z.div_pos screenHeight baseHeight screen_height_range base_height_pos).
  pose proof (Z.mul_div_le screenWidth baseWidth base_width_pos).
  pose proof (Z.mul_div_le screenHeight baseHeight base_height_pos).
  pose proof (Z.mul_succ_div_gt screenWidth baseWidth base_width_pos).
  pose proof (Z.mul_succ_div_gt screenHeight baseHeight base_height_pos).
  destruct (Z.min_spec (screenWidth / baseWidth) (screenHeight / baseHeight))
    as [[Hlt ->] | [Hle ->]]; repeat split; try lia; try nia.
Qed.

Lemma maxWindowSizeForScreen_loop_spec (fuel : nat) (multiplier : Z) :
  1 <= multiplier <= fits + 1 ->
  fits + 1 - multiplier < Z.of_nat fuel ->
  maxWindowSizeForScreen_loop fuel baseWidth baseHeight screenWidth screenHeight
    multiplier = Some (fits + 1).
Proof.
  destruct fits_bounds as (H0 & Hw & Hh & Hnext).
  revert multiplier.
  induction fuel as [| fuel IH]; intros multiplier Hm Hfuel; [lia |].
  cbn [maxWindowSizeForScreen_loop].
  assert (wrap32 (baseWidth * multiplier) = baseWidth * multiplier) as ->
    by (unfold wrap32; rewrite Z.mod_small; nia).
  assert (wrap32 (baseHeight * multiplier) = baseHeight * multiplier) as ->
    by (unfold wrap32; rewrite Z.mod_small; nia).
  destruct (Z.eq_dec multiplier (fits + 1)) as [-> | Hne].
  - destruct Hnext as [Hnext | Hnext].
    + by destruct (Z.gtb_spec (baseWidth * (fits + 1)) screenWidth); [| lia].
    + destruct (Z.gtb_spec (baseHeight * (fits + 1)) screenHeight); [| lia].
      by rewrite orb_true_r.
  - destruct (Z.gtb_spec (baseWidth * multiplier) screenWidth); [nia |].
    destruct (Z.gtb_spec (baseHeight * multiplier) screenHeight); [nia |].
    cbn [orb].
    assert (wrap32 (multiplier + 1) = multiplier + 1) as ->
      by (unfold wrap32; rewrite Z.mod_small; nia).
    apply IH; lia.
Qed.

End MaxWindowSize.

(** X18.  The largest zoom.  For a base size with positive width and height,
    and when neither [baseWidth + screenWidth] nor
    [baseHeight + screenHeight] reaches [2 ^ 32], the loop of
    [maxWindowSizeForScreen] ends and the result is the number of times the
    base size fits the screen in both directions,
    [min (screenWidth / baseWidth) (screenHeight / baseHeight)], but at
    least 1: a window of the base size is offered even when it does not
    fit.  With a base size of 0 by 0 the loop never ends, whatever the
    screen size. *)
Theorem X18_maxWindowSizeForScreen (fuel : nat)
    (baseWidth baseHeight screenWidth screenHeight : Z) :
  0 < baseWidth -> 0 < baseHeight ->
  0 <= screenWidth -> 0 <= screenHeight ->
  baseWidth + screenWidth < 2 ^ 32 ->
  baseHeight + screenHeight < 2 ^ 32 ->
  let zoom := fits baseWidth baseHeight screenWidth screenHeight in
  zoom < Z.of_nat fuel ->
  maxWindowSizeForScreen fuel baseWidth baseHeight screenWidth screenHeight
    = Some (Z.max 1 zoom)
  /\ (1 <= zoom ->
      baseWidth * zoom <= screenWidth
      /\ baseHeight * zoom <= screenHeight
      /\ (screenWidth < baseWidth * (zoom + 1)
          \/ screenHeight < baseHeight * (zoom + 1)))
  /\ (forall (fuel' : nat) (width height : Z),
        0 <= width -> 0 <= height ->
        maxWindowSizeForScreen fuel' 0 0 width height = None).
Proof.
  intros Hbw Hbh Hsw Hsh Hw Hh zoom Hfuel.
  destruct (fits_bounds baseWidth baseHeight screenWidth screenHeight)
    as (H0 & H1 & H2 & H3); try done.
  fold zoom in H0, H1, H2, H3.
  repeat apply conj.
  - unfold maxWindowSizeForScreen.
    rewrite maxWindowSizeForScreen_loop_spec by (fold zoom; lia). fold zoom.
    f_equal. destruct (Z.gtb_spec (zoom + 1) 1); lia.
  - by intros _.
  - intros fuel' width height Hwidth Hheight. unfold maxWindowSizeForScreen.
    assert (forall m, maxWindowSizeForScreen_loop fuel' 0 0 width height m = None)
      as ->; [| done].
    induction fuel' as [| fuel' IH]; intros m; [done |].
    cbn [maxWindowSizeForScreen_loop]. rewrite !Z.mul_0_l.
    change (wrap32 0) with 0.
    destruct (Z.gtb_spec 0 width); [lia |].
    destruct (Z.gtb_spec 0 height); [lia |]. apply IH.
Qed.

(** ** CartStrongArmDev.cxx: the address space *)

Section StrongArm.

(** Collaborators whose code is outside this source tree: the TIA and the
    RIOT, whose [peek] may change their state. *)
Context {TIA M6532 : Type}.
Variable TIA_peek : Z -> TIA -> Z * TIA.
Variable M6532_peek : Z -> M6532 -> Z * M6532.

(** The member [_romHistory], a [uInt8[4096]], the two chips reached
    through [mySystem], and the file's static variables [lastPeekAddress]
    and [lastReadValue]. *)
Record CartStrongArmDev : Type := {
  _romHistory : list Z;
  tia : TIA;
  m6532 : M6532;
  lastPeekAddress : Z;
  lastReadValue : Z
}.

(** [uInt8 CartStrongArmDev::peek(uInt16 address)] *)
Definition peek (address : Z) (c : CartStrongArmDev) : Z * CartStrongArmDev :=
  let address := Z.land address 0x1FFF in
  let '(value, tia', m6532') :=
    if Z.land address 0x1080 =? 0 then
      let '(value, tia') := TIA_peek address (tia c) in (value, tia', m6532 c)
    else if Z.land address 0x1080 =? 0x0080 then
      let '(value, m6532') := M6532_peek address (m6532 c) in (value, tia c, m6532')
    else
      (default 0 (_romHistory c !! Z.to_nat (Z.land address 0x0fff)), tia c, m6532 c) in
  (value,
   {| _romHistory := _romHistory c;
      tia := tia';
      m6532 := m6532';
      lastPeekAddress := address;
      lastReadValue := value |}).

(** [bool CartStrongArmDev::patch(uInt16 address, uInt8 value)] *)
Definition patch (address value : Z) (c : CartStrongArmDev) : bool * CartStrongArmDev :=
  if Z.land address 0x1000 =? 0x1000 then
    (true,
     {| _romHistory := <[ Z.to_nat (Z.land address 0x0fff) := value ]> (_romHistory c);
        tia := tia c;
        m6532 := m6532 c;
        lastPeekAddress := lastPeekAddress c;
        lastReadValue := lastReadValue c |})
  else (false, c).

(** With bit 12 set an address is neither in the TIA's nor in the RIOT's
    range, and masking with [0x1FFF] keeps its low 12 bits. *)
Lemma rom_address (address : Z) :
  0 <= address ->
  Z.land address 0x1000 = 0x1000 ->
  Z.land (Z.land address 0x1FFF) 0x1080 <> 0
  /\ Z.land (Z.land address 0x1FFF) 0x1080 <> 0x0080
  /\ Z.land (Z.land address 0x1FFF) 0x0fff = Z.land address 0x0fff
  /\ 0 <= Z.land address 0x0fff < 4096.
Proof.
  intros Hpos Hbit.
  rewrite <- !Z.land_assoc.
  change (Z.land 0x1FFF 0x1080) with 0x1080.
  change (Z.land 0x1FFF 0x0fff) with 0x0fff.
  assert (forall r, Z.land address 0x1080 = r -> Z.land r 0x1000 = 0x1000) as Hr.
  { intros r <-. rewrite <- Z.land_assoc. exact Hbit. }
  repeat apply conj.
  - intros E. by specialize (Hr _ E).
  - intros E. by specialize (Hr _ E).
  - reflexivity.
  - apply Z.land_nonneg. by left.
  - change 0x0fff with (Z.ones 12). rewrite Z.land_ones by lia.
    apply Z.mod_pos_bound. lia.
Qed.

(** X19.  The ROM of the cartridge.  [patch] accepts exactly the addresses with
    bit 12 set and changes nothing for the others.  After an accepted
    [patch(address, value)], [peek(address)] returns [value] without
    touching the TIA or the RIOT, every address that differs from
    [address] by a multiple of [0x1000] and has bit 12 set reads the same
    value, and ROM addresses with other low 12 bits read what they read
    before. *)
Theorem X19_patch_then_peek (address value : Z) (c : CartStrongArmDev) :
  0 <= address < 2 ^ 16 ->
  length (_romHistory c) = 4096%nat ->
  (fst (patch address value c) = true <-> Z.land address 0x1000 = 0x1000)
  /\ (fst (patch address value c) = false -> snd (patch address value c) = c)
  /\ (Z.land address 0x1000 = 0x1000 ->
      let c' := snd (patch address value c) in
      fst (peek address c') = value
      /\ tia (snd (peek address c')) = tia c
      /\ m6532 (snd (peek address c')) = m6532 c
      /\ forall other : Z,
           0 <= other -> Z.land other 0x1000 = 0x1000 ->
           (Z.land other 0x0fff = Z.land address 0x0fff ->
            fst (peek other c') = value)
           /\ (Z.land other 0x0fff <> Z.land address 0x0fff ->
               fst (peek other c') = fst (peek other c))).
Proof.
  intros Haddr Hlen. unfold patch.
  destruct (Z.eqb_spec (Z.land address 0x1000) 0x1000) as [Hbit | Hbit];
    cbn [fst snd].
  2:{ repeat split; try done. }
  split; [done |]. split; [done |]. intros _.
  set (c' := Build_CartStrongArmDev _ _ _ _ _).
  assert (forall other : Z,
            0 <= other -> Z.land other 0x1000 = 0x1000 ->
            forall x : CartStrongArmDev,
              peek other x
                = (default 0 (_romHistory x !! Z.to_nat (Z.land other 0x0fff)),
                   {| _romHistory := _romHistory x;
                      tia := tia x;
                      m6532 := m6532 x;
                      lastPeekAddress := Z.land other 0x1FFF;
                      lastReadValue :=
                        default 0 (_romHistory x !! Z.to_nat (Z.land other 0x0fff)) |}))
    as Hpeek.
  { intros other Hpos Hob x. unfold peek.
    destruct (rom_address other Hpos Hob) as (H1 & H2 & H3 & _).
    destruct (Z.eqb_spec (Z.land (Z.land other 0x1FFF) 0x1080) 0); [done |].
    destruct (Z.eqb_spec (Z.land (Z.land other 0x1FFF) 0x1080) 0x0080); [done |].
    by rewrite H3. }
  destruct (rom_address address) as (_ & _ & _ & Hrange); [lia | done |].
  assert (fst (peek address c') = value) as Hvalue.
  { rewrite Hpeek by (lia || done). cbn [fst]. unfold c'. cbn [_romHistory].
    by rewrite list_lookup_insert_eq by lia. }
  split; [exact Hvalue |].
  split; [by rewrite Hpeek by (lia || done) |].
  split; [by rewrite Hpeek by (lia || done) |].
  intros other Hpos Hob.
  destruct (rom_address other Hpos Hob) as (_ & _ & _ & Hrange').
  rewrite !Hpeek by done. cbn [fst]. unfold c'. cbn [_romHistory]. split.
  - intros ->. by rewrite list_lookup_insert_eq by lia.
  - intros Hne. rewrite list_lookup_insert_ne; [done |]. lia.
Qed.

(** *** The cartridge and snapshots *)

(** [bool CartStrongArmDev::save(Serializer& out) const]: an empty [try]
    block, then [return true].  The line the handler sends to [cerr] is
    left out, here and in [CartStrongArmDev_load]. *)
Definition CartStrongArmDev_save (c : CartStrongArmDev) : Run Serializer bool :=
  try_catch (ret true) (ret false).

(** [bool CartStrongArmDev::load(Serializer& in)] *)
Definition CartStrongArmDev_load : Run (CartStrongArmDev * Serializer) bool :=
  try_catch (ret true) (ret false).

#[global] Instance CartStrongArmDev_serializable : Serializable CartStrongArmDev := {
  save := CartStrongArmDev_save;
  load := CartStrongArmDev_load
}.

(** A read from the ROM range. *)
Lemma peek_rom (other : Z) (x : CartStrongArmDev) :
  0 <= other -> Z.land other 0x1000 = 0x1000 ->
  fst (peek other x) = default 0 (_romHistory x !! Z.to_nat (Z.land other 0x0fff)).
Proof.
  intros Hpos Hob. unfold peek.
  destruct (rom_address other Hpos Hob) as (H1 & H2 & H3 & _).
  destruct (Z.eqb_spec (Z.land (Z.land other 0x1FFF) 0x1080) 0); [done |].
  destruct (Z.eqb_spec (Z.land (Z.land other 0x1FFF) 0x1080) 0x0080); [done |].
  by rewrite H3.
Qed.

(** The cartridge meets the round-trip requirement only where there is
    nothing to restore: [load] leaves every cartridge as it is. *)
Lemma cart_round_trips_only_itself (c : CartStrongArmDev) :
  round_trips c -> forall y : CartStrongArmDev, y = c.
Proof.
  intros Hrt y.
  pose proof (rt_load_save c Hrt y [] eq_refl) as Hload.
  cbn in Hload. congruence.
Qed.

Lemma cart_not_lawful (c y : CartStrongArmDev) :
  y <> c -> ~ SerializableLaws CartStrongArmDev.
Proof.
  intros Hne Hlaws. apply Hne.
  apply cart_round_trips_only_itself, laws_round_trips.
Qed.

(** X22.  The cartridge is not part of a snapshot.  [save] writes nothing
    and [load] reads nothing and changes nothing, both returning [true].
    So a byte patched into the ROM after [save] is still there after
    [load] of that snapshot and is what [peek] returns, and where the
    patch changed what the address reads, the cartridge does not
    round-trip. *)
Theorem X22_cart_not_in_snapshot (address value : Z) (c y : CartStrongArmDev)
    (s : Serializer) :
  0 <= address < 2 ^ 16 ->
  length (_romHistory c) = 4096%nat ->
  Z.land address 0x1000 = 0x1000 ->
  let snapshot := snd (save c []) in
  let patched := snd (patch address value c) in
  save c s = (Val true, s)
  /\ load (y, s) = (Val true, (y, s))
  /\ load (patched, snapshot) = (Val true, (patched, []))
  /\ fst (peek address (fst (snd (load (patched, snapshot))))) = value
  /\ (fst (peek address c) <> value -> ~ round_trips c).
Proof.
  intros Haddr Hlen Hbit snapshot patched.
  destruct (rom_address address) as (_ & _ & _ & Hrange); [lia | done |].
  assert (fst (peek address patched) = value) as Hvalue.
  { rewrite peek_rom by (lia || done). unfold patched, patch.
    destruct (Z.eqb_spec (Z.land address 0x1000) 0x1000); [| done].
    cbn [snd _romHistory]. by rewrite list_lookup_insert_eq by lia. }
  repeat apply conj; try done.
  intros Hne Hrt. apply Hne.
  by rewrite <- (cart_round_trips_only_itself c Hrt patched).
Qed.

End StrongArm.

(** * Concrete instances

    A small machine on which the embedded functions can be run: the
    "system" is a frame counter with the number of scanlines per frame and
    the first visible line of the running program, controllers and
    switches are one number each, and the detectors look at the system the
    way the real ones look at the TIA's sync signals. *)

Module Fixture.

Definition System : Type := Z * Z * Z.
Definition Controller : Type := Z.
Definition Switches : Type := Z.
Definition OSystem : Type := bool * bool.
Definition FrameLayoutDetector : Type := nat * nat.
Definition YStartDetector : Type := FrameLayout * Z.

(** One number is one entry of the stream; reading past the end throws. *)
#[export] Instance number_serializable : Serializable Z := {
  save x s := (Val true, s ++ [x]);
  load '(x, s) :=
    match s with
    | v :: s' => (Val true, (v, s'))
    | [] => (Exn, (x, []))
    end
}.

(** Three numbers, read one after the other into the object. *)
#[export] Instance system_serializable : Serializable System := {
  save '(a, b, c) s := (Val true, s ++ [a; b; c]);
  load '((a, b, c), s) :=
    match s with
    | a' :: b' :: c' :: s' => (Val true, ((a', b', c'), s'))
    | [a'; b'] => (Exn, ((a', b', c), []))
    | [a'] => (Exn, ((a', b, c), []))
    | [] => (Exn, ((a, b, c), []))
    end
}.

#[export] Instance number_laws : SerializableLaws Z.
Proof. split; [done | intros x y rest _; reflexivity]. Qed.

#[export] Instance system_laws : SerializableLaws System.
Proof.
  split.
  - by intros [[a b] c] s.
  - intros [[a b] c] [[a' b'] c'] rest _. reflexivity.
Qed.

Definition getBool (key : string) (o : OSystem) : bool :=
  if String.eqb key "fastscbios" then fst o else false.
Definition setValue (key : string) (v : bool) (o : OSystem) : OSystem :=
  if String.eqb key "fastscbios" then (v, snd o) else o.
Definition sound_close (o : OSystem) : OSystem := (fst o, false).
Definition audio_setup (o : OSystem) : OSystem := (fst o, true).

Abbreviation Emulation := (@Emulation System Controller Switches).

Definition next_frame (e : Emulation) : Emulation :=
  let '((frames, lines, first), l, r, sw) := e in
  ((frames + 1, lines, first), l, r, sw).

Definition power_on (e : Emulation) : Emulation :=
  let '((frames, lines, first), l, r, sw) := e in
  ((0, lines, first), l, r, sw).

Definition TIA_update_own (t : Emulation * OSystem) : Emulation * OSystem :=
  (next_frame (fst t), snd t).
Definition System_reset_own (autodetect : bool) (t : Emulation * OSystem)
    : Emulation * OSystem :=
  (power_on (fst t), snd t).

#[export] Instance layout_detector
    : @Detector System Controller Switches OSystem FrameLayoutDetector := {
  TIA_update_with '(e, o, (n, p)) :=
    let '((_, lines, _), _, _, _) := e in
    (next_frame e, o, if 287 <? lines then (n, S p) else (S n, p));
  System_reset_with _ '(e, o, d) := (power_on e, o, d)
}.

#[export] Instance ystart_detector
    : @Detector System Controller Switches OSystem YStartDetector := {
  TIA_update_with '(e, o, (layout, _)) :=
    let '((_, _, first), _, _, _) := e in
    (next_frame e, o, (layout, first));
  System_reset_with _ '(e, o, d) := (power_on e, o, d)
}.

Definition FrameLayoutDetector_new : FrameLayoutDetector := (O, O).
Definition detectedLayout (d : FrameLayoutDetector) : FrameLayout :=
  if (fst d <? snd d)%nat then pal else ntsc.
Definition YStartDetector_new : YStartDetector := (ntsc, 0).
Definition setLayout (layout : FrameLayout) (d : YStartDetector) : YStartDetector :=
  (layout, snd d).
Definition detectedYStart (d : YStartDetector) : Z := snd d.

Abbreviation Console :=
  (@Console System Controller Switches OSystem FrameLayoutDetector YStartDetector).

(** A system that cannot be written out: its [save] reports an error and
    writes nothing; its [load] is the one above.  It round-trips in the
    sense of the laws, which only speak of a [save] that succeeded. *)
Definition unsaved_system : Serializable System := {|
  save _ s := (Val false, s);
  load := load (Serializable := system_serializable)
|}.

Lemma unsaved_system_laws : @SerializableLaws System unsaved_system.
Proof.
  split.
  - intros x s. cbn. by rewrite app_nil_r.
  - intros x y rest. cbn. discriminate.
Qed.


Definition autodetectFrameLayout : bool -> Run Console unit :=
  autodetectFrameLayout getBool setValue TIA_update_own System_reset_own
    FrameLayoutDetector_new detectedLayout.
Definition autodetectYStart : bool -> Run Console unit :=
  autodetectYStart getBool setValue TIA_update_own System_reset_own
    YStartDetector_new setLayout detectedYStart.
Definition redetectFrameLayout : Run Console unit :=
  redetectFrameLayout getBool setValue sound_close audio_setup TIA_update_own
    System_reset_own FrameLayoutDetector_new detectedLayout YStartDetector_new
    setLayout detectedYStart true.
Definition redetectYStart : Run Console unit :=
  redetectYStart getBool setValue sound_close audio_setup TIA_update_own
    System_reset_own YStartDetector_new setLayout detectedYStart.

(** A console running a PAL program whose picture starts at line 40. *)
Definition console0 : Console :=
  {| mySystem := (7, 312, 40);
     myLeftControl := 1;
     myRightControl := 2;
     mySwitches := 3;
     myDisplayFormat := "";
     myAutodetectedYstart := 0;
     myYStartAutodetected := false;
     myOSystem := (false, true);
     tia_myFrameManager := ref_myFrameManager;
     frameLayoutDetector := None;
     ystartDetector := None |}.


(** A snapshot cut off after the system's three numbers. *)
Definition truncated : Serializer := [19; 262; 30].

(** *** The detection harness on the fixture *)

Example autodetectFrameLayout_pal :
  exists c' : Console,
    autodetectFrameLayout true console0 = (Val tt, c')
    /\ myDisplayFormat c' = "PAL"
    /\ mySystem c' = (60, 312, 40)
    /\ tia_myFrameManager c' = ref_myFrameManager
    /\ frameLayoutDetector c' = None.
Proof. eexists. split; [vm_compute; reflexivity |]. by repeat split. Qed.

Example autodetectFrameLayout_ntsc :
  exists c' : Console,
    autodetectFrameLayout false (set_mySystem (0, 262, 36) console0) = (Val tt, c')
    /\ myDisplayFormat c' = "NTSC".
Proof. eexists. split; [vm_compute; reflexivity |]. done. Qed.

Example autodetectYStart_38 :
  exists c' : Console,
    autodetectYStart true console0 = (Val tt, c')
    /\ myAutodetectedYstart c' = 38
    /\ myYStartAutodetected c' = true
    /\ mySystem c' = (80, 312, 40).
Proof. eexists. split; [vm_compute; reflexivity |]. by repeat split. Qed.

(** A detector that reports line 1 makes the [uInt32] difference wrap. *)
Example autodetectYStart_wraps :
  exists c' : Console,
    autodetectYStart true (set_mySystem (0, 262, 1) console0) = (Val tt, c')
    /\ myAutodetectedYstart c' = 4294967295.
Proof. eexists. split; [vm_compute; reflexivity |]. done. Qed.

(** A call through the TIA while it still points to a detector that is
    gone is undefined. *)
Example dangling_detector :
  fst (TIA_update TIA_update_own
         (set_tia_myFrameManager ref_frameLayoutDetector console0)) = Undef.
Proof. reflexivity. Qed.

(** *** Save and load on the fixture *)




(** C3, as stated, fails: loading a snapshot that is cut off after the
    system's part returns [false] and has replaced the system's state. *)
Lemma C3_partial_load_counterexample :
  fst (Console_load (console0, truncated)) = Val false
  /\ mySystem (fst (snd (Console_load (console0, truncated)))) = (19, 262, 30)
  /\ fst (snd (Console_load (console0, truncated))) <> console0.
Proof.
  split; [reflexivity |]. split; [reflexivity |].
  vm_compute. discriminate.
Qed.

Lemma C3_load_amended_witness :
  fst (Console_load (console0, truncated)) = Val false
  /\ fst (snd (Console_load (console0, truncated)))
     = set_myLeftControl 1 (set_mySystem (19, 262, 30) console0).
Proof.
  pose proof (C3_load_amended console0 truncated) as H.
  cbn in H. destruct H as (_ & _ & _ & H & _).
  apply H; [reflexivity | right; reflexivity].
Defined.



Lemma C10_ystart_offset_witness :
  let detected :=
    redetectYStart_detected getBool setValue sound_close YStartDetector_new
      setLayout detectedYStart console0 in
  fst (Console_save console0 []) <> Undef
  /\ fst (reload console0 detected) <> Undef
  /\ (exists c' : Console,
        redetectYStart console0 = (Val tt, c')
        /\ myAutodetectedYstart c' = 38
        /\ myYStartAutodetected c' = true).
Proof.
  cbv zeta.
  assert (fst (Console_save console0 []) <> Undef) as Hsave by (by vm_compute).
  assert (fst (reload console0
                 (redetectYStart_detected getBool setValue sound_close
                    YStartDetector_new setLayout detectedYStart console0))
          <> Undef) as Hload by (by vm_compute).
  split; [exact Hsave |]. split; [exact Hload |].
  exact (proj2 (C10_ystart_offset getBool setValue sound_close audio_setup
                  TIA_update_own System_reset_own YStartDetector_new setLayout
                  detectedYStart false console0) Hsave Hload).
Defined.

(** The emulation ran for 80 frames in between and was put back. *)
Example redetectYStart_restores :
  exists c' : Console,
    redetectYStart console0 = (Val tt, c')
    /\ mySystem c' = (7, 312, 40)
    /\ myAutodetectedYstart c' = 38.
Proof. eexists. split; [vm_compute; reflexivity |]. by repeat split. Qed.

End Fixture.

(** A machine for the display functions: the system also holds the
    TIA's vertical start, the host also keeps the messages shown, and the
    properties are the two values [Display_Format] and [Display_YStart]. *)
Module DisplayFixture.

Definition System : Type := Z * Z * Z * Z.
Definition Controller : Type := Z.
Definition Switches : Type := Z.
Definition OSystem : Type := bool * bool * list string.
Definition FrameLayoutDetector : Type := nat * nat.
Definition YStartDetector : Type := FrameLayout * Z.
Definition Properties : Type := string * string * string.

#[export] Instance display_number_serializable : Serializable Z :=
  Fixture.number_serializable.

#[export] Instance display_system_serializable : Serializable System := {
  save '(a, b, c, d) s := (Val true, s ++ [a; b; c; d]);
  load '((a, b, c, d), s) :=
    match s with
    | a' :: b' :: c' :: d' :: s' => (Val true, ((a', b', c', d'), s'))
    | _ => (Exn, ((a, b, c, d), []))
    end
}.

#[export] Instance display_number_laws : SerializableLaws Z := Fixture.number_laws.

#[export] Instance display_system_laws : SerializableLaws System.
Proof.
  split.
  - by intros [[[a b] c] d] s.
  - intros [[[a b] c] d] [[[a' b'] c'] d'] rest _. reflexivity.
Qed.

Definition getBool (key : string) (o : OSystem) : bool :=
  if String.eqb key "fastscbios" then fst (fst o) else false.
Definition setValue (key : string) (v : bool) (o : OSystem) : OSystem :=
  if String.eqb key "fastscbios" then (v, snd (fst o), snd o) else o.
Definition sound_close (o : OSystem) : OSystem := (fst (fst o), false, snd o).
Definition audio_setup (o : OSystem) : OSystem := (fst (fst o), true, snd o).
Definition showMessage (message : string) (o : OSystem) : OSystem :=
  (fst o, snd o ++ [message]).
Definition resetFps (o : OSystem) : OSystem := o.

Abbreviation Emulation := (@Emulation System Controller Switches).

Definition next_frame (e : Emulation) : Emulation :=
  let '((frames, lines, first, ystart), l, r, sw) := e in
  ((frames + 1, lines, first, ystart), l, r, sw).

Definition power_on (e : Emulation) : Emulation :=
  let '((frames, lines, first, ystart), l, r, sw) := e in
  ((0, lines, first, ystart), l, r, sw).

Definition TIA_update_own (t : Emulation * OSystem) : Emulation * OSystem :=
  (next_frame (fst t), snd t).
Definition System_reset_own (autodetect : bool) (t : Emulation * OSystem)
    : Emulation * OSystem :=
  (power_on (fst t), snd t).

#[export] Instance display_layout_detector
    : @Detector System Controller Switches OSystem FrameLayoutDetector := {
  TIA_update_with '(e, o, (n, p)) :=
    let '((_, lines, _, _), _, _, _) := e in
    (next_frame e, o, if 287 <? lines then (n, S p) else (S n, p));
  System_reset_with _ '(e, o, d) := (power_on e, o, d)
}.

#[export] Instance display_ystart_detector
    : @Detector System Controller Switches OSystem YStartDetector := {
  TIA_update_with '(e, o, (layout, _)) :=
    let '((_, _, first, _), _, _, _) := e in
    (next_frame e, o, (layout, first));
  System_reset_with _ '(e, o, d) := (power_on e, o, d)
}.

Definition FrameLayoutDetector_new : FrameLayoutDetector := (O, O).
Definition detectedLayout (d : FrameLayoutDetector) : FrameLayout :=
  if (fst d <? snd d)%nat then pal else ntsc.
Definition YStartDetector_new : YStartDetector := (ntsc, 0).
Definition setLayout (layout : FrameLayout) (d : YStartDetector) : YStartDetector :=
  (layout, snd d).
Definition detectedYStart (d : YStartDetector) : Z := snd d.

Definition Properties_get (key : PropertyType) (p : Properties) : string :=
  let '(format, ystart, height) := p in
  match key with
  | Display_Format => format
  | Display_YStart => ystart
  | Display_Height => height
  end.
Definition Properties_set (key : PropertyType) (value : string) (p : Properties)
    : Properties :=
  let '(format, ystart, height) := p in
  match key with
  | Display_Format => (value, ystart, height)
  | Display_YStart => (format, value, height)
  | Display_Height => (format, ystart, value)
  end.

Definition TIA_ystart (sys : System) : Z := snd sys.
Definition TIA_setYStart (ystart : Z) (sys : System) : System := (fst sys, ystart).
Definition maxYStart : Z := 64.
Definition System_consoleChanged (timing : ConsoleTiming) (sys : System) : System := sys.

Abbreviation Console :=
  (@Console System Controller Switches OSystem FrameLayoutDetector YStartDetector).
Abbreviation DisplayConsole :=
  (@DisplayConsole System Controller Switches OSystem FrameLayoutDetector
     YStartDetector Properties).

Definition setPalette_from_settings (s : DisplayConsole) : System * OSystem :=
  (mySystem (console s), myOSystem (console s)).
Definition initializeVideo (s : DisplayConsole) : System * OSystem :=
  (mySystem (console s), myOSystem (console s)).

(** The numbers the fixture's properties hold, a clamp, and a TIA that
    reports the layout of the running program. *)
Definition atoi (text : string) : Z :=
  if String.eqb text "1" then 1 else if String.eqb text "5" then 5 else 0.
Definition BSPF_clamp (value low high : Z) : Z := Z.max low (Z.min value high).
Definition minViewableHeight : Z := 210.
Definition maxViewableHeight : Z := 256.
Definition TIA_setLayout (layout : FrameLayout) (sys : System) : System := sys.
Definition TIA_setHeight (height : Z) (sys : System) : System := sys.
Definition TIA_frameLayout (sys : System) : FrameLayout :=
  let '(frames, lines, first, ystart) := sys in
  if 287 <? lines then pal else ntsc.
Definition EmulationTiming_updateFrameLayout (layout : FrameLayout) (o : OSystem)
  : OSystem := o.
Definition EmulationTiming_updateConsoleTiming (timing : ConsoleTiming) (o : OSystem)
  : OSystem := o.

Definition toggleFormat : Z -> Run DisplayConsole unit :=
  toggleFormat getBool setValue sound_close audio_setup TIA_update_own
    System_reset_own FrameLayoutDetector_new detectedLayout YStartDetector_new
    setLayout detectedYStart true Properties_get Properties_set showMessage resetFps TIA_setYStart maxYStart
    System_consoleChanged setPalette_from_settings initializeVideo atoi BSPF_clamp
    minViewableHeight maxViewableHeight TIA_setLayout TIA_setHeight TIA_frameLayout
    EmulationTiming_updateFrameLayout EmulationTiming_updateConsoleTiming.
Definition setFormat : Z -> Run DisplayConsole unit :=
  setFormat getBool setValue sound_close audio_setup TIA_update_own
    System_reset_own FrameLayoutDetector_new detectedLayout YStartDetector_new
    setLayout detectedYStart true Properties_get Properties_set showMessage resetFps TIA_setYStart maxYStart
    System_consoleChanged setPalette_from_settings initializeVideo atoi BSPF_clamp
    minViewableHeight maxViewableHeight TIA_setLayout TIA_setHeight TIA_frameLayout
    EmulationTiming_updateFrameLayout EmulationTiming_updateConsoleTiming.
Definition changeYStart : Z -> Run DisplayConsole unit :=
  changeYStart getBool setValue sound_close audio_setup TIA_update_own
    System_reset_own YStartDetector_new setLayout detectedYStart Properties_set
    showMessage TIA_ystart TIA_setYStart maxYStart.
Definition updateYStart : Z -> Run DisplayConsole unit :=
  updateYStart getBool setValue sound_close audio_setup TIA_update_own
    System_reset_own YStartDetector_new setLayout detectedYStart Properties_get
    Properties_set TIA_setYStart maxYStart.

(** A console forced to NTSC that runs a PAL program whose picture starts
    at line 40, with the vertical start set to 1. *)
Definition display0 : DisplayConsole :=
  {| console :=
       {| mySystem := (7, 312, 40, 1);
          myLeftControl := 1;
          myRightControl := 2;
          mySwitches := 3;
          myDisplayFormat := "NTSC";
          myAutodetectedYstart := 0;
          myYStartAutodetected := false;
          myOSystem := (false, true, []);
          tia_myFrameManager := ref_myFrameManager;
          frameLayoutDetector := None;
          ystartDetector := None |};
     myProperties := ("NTSC", "1", "0")%string;
     myCurrentFormat := 1;
     myConsoleTiming := ConsoleTiming_ntsc;
     myConsoleInfo_DisplayFormat := "NTSC" |}.

Lemma X12_toggleFormat_cycle_witness :
  0 <= myCurrentFormat display0 < 7
  /\ (myCurrentFormat display0 + 1) mod 7 <> 0
  /\ exists s' : DisplayConsole,
       toggleFormat 1 display0 = (Val tt, s')
       /\ myCurrentFormat s' = (myCurrentFormat display0 + 1) mod 7
       /\ myDisplayFormat (console s')
          = format_name ((myCurrentFormat display0 + 1) mod 7).
Proof.
  assert (0 <= myCurrentFormat display0 < 7) as Hcur by (split; by vm_compute).
  assert ((myCurrentFormat display0 + 1) mod 7 <> 0) as Hn by (by vm_compute).
  split; [exact Hcur |]. split; [exact Hn |].
  destruct (X12_toggleFormat_cycle getBool setValue sound_close audio_setup
              TIA_update_own System_reset_own FrameLayoutDetector_new
              detectedLayout YStartDetector_new setLayout detectedYStart true
              Properties_get Properties_set showMessage resetFps TIA_setYStart maxYStart
    System_consoleChanged setPalette_from_settings initializeVideo atoi BSPF_clamp
    minViewableHeight maxViewableHeight TIA_setLayout TIA_setHeight TIA_frameLayout
    EmulationTiming_updateFrameLayout EmulationTiming_updateConsoleTiming 1 display0 Hcur (or_introl eq_refl) Hn)
    as (s' & Hrun & H1 & H2 & _).
  exists s'. split; [exact Hrun |]. split; [exact H1 | exact H2].
Defined.

(** Seven steps up go once around: PAL, SECAM, NTSC50, PAL60, SECAM60,
    autodetected PAL, and NTSC again. *)
Example toggleFormat_round :
  map (fun n => let s := snd (Nat.iter n (fun x => toggleFormat 1 (snd x))
                                 (Val tt, display0)) in
                (myCurrentFormat s, myDisplayFormat (console s)))
      [1; 2; 3; 4; 5; 6; 7]%nat
    = [(2, "PAL"); (3, "SECAM"); (4, "NTSC50"); (5, "PAL60"); (6, "SECAM60");
       (0, "PAL"); (1, "NTSC")]%string.
Proof. vm_compute. reflexivity. Qed.

Lemma X13_changeYStart_steps_witness :
  0 <= TIA_ystart (mySystem (console display0)) < 2 ^ 32
  /\ maxYStart < 2 ^ 32
  /\ exists s' : DisplayConsole,
       changeYStart 1 display0 = (Val tt, s')
       /\ mySystem (console s')
          = TIA_setYStart (TIA_ystart (mySystem (console display0)) + 1)
              (mySystem (console display0)).
Proof.
  assert (0 <= TIA_ystart (mySystem (console display0)) < 2 ^ 32) as Hy
    by (split; by vm_compute).
  assert (maxYStart < 2 ^ 32) as Hmax by (by vm_compute).
  split; [exact Hy |]. split; [exact Hmax |].
  destruct (X13_changeYStart_steps getBool setValue sound_close audio_setup
              TIA_update_own System_reset_own YStartDetector_new setLayout
              detectedYStart Properties_set showMessage TIA_ystart TIA_setYStart
              maxYStart 1 display0 Hy Hmax) as (_ & _ & _ & Hstep).
  destruct Hstep as (s' & Hrun & Hsys & _);
    [left; split; [reflexivity | by vm_compute] |].
  exists s'. split; [exact Hrun | exact Hsys].
Defined.

(** Stepping down at 0 throws; at the maximum stepping up only shows a
    message. *)
Example changeYStart_edges :
  let at_ystart y :=
    set_console (set_mySystem (TIA_setYStart y (mySystem (console display0)))
                   (console display0)) display0 in
  fst (changeYStart (-1) (at_ystart 0)) = Exn
  /\ TIA_ystart (mySystem (console (snd (changeYStart 1 (at_ystart 64))))) = 64
  /\ snd (myOSystem (console (snd (changeYStart 1 (at_ystart 64)))))
     = ["YStart at maximum"%string].
Proof. vm_compute. done. Qed.

Lemma X14_updateYStart_witness :
  Properties_get Display_YStart (myProperties display0) <> decimal 5
  /\ exists s' : DisplayConsole,
       updateYStart 5 display0 = (Val tt, s')
       /\ myProperties s'
          = Properties_set Display_YStart (decimal 5) (myProperties display0)
       /\ updateYStart 5 s' = (Val tt, s').
Proof.
  assert (Properties_get Display_YStart (myProperties display0) <> decimal 5)
    as Hdiff by (by vm_compute).
  split; [exact Hdiff |].
  destruct (X14_updateYStart getBool setValue sound_close audio_setup
              TIA_update_own System_reset_own YStartDetector_new setLayout
              detectedYStart Properties_get Properties_set TIA_setYStart
              maxYStart 5 display0) as (_ & _ & Hset).
  destruct Hset as (s' & Hrun & _ & _ & Hprops & _ & Hagain);
    [by vm_compute | by vm_compute | exact Hdiff |].
  exists s'. split; [exact Hrun |]. split; [exact Hprops |].
  apply Hagain. by intros [] value [[a b] c].
Defined.

Lemma X15_setFormat_autodetect_witness :
  let detected :=
    redetectFrameLayout_detected getBool setValue sound_close
      FrameLayoutDetector_new detectedLayout YStartDetector_new setLayout
      detectedYStart true (console display0) in
  fst (Console_save (console display0) []) <> Undef
  /\ fst (reload (console display0) detected) <> Undef
  /\ myCurrentFormat display0 <> 0
  /\ exists s' : DisplayConsole,
       setFormat 0 display0 = (Val tt, s')
       /\ myDisplayFormat (console s') = "PAL"
       /\ myConsoleTiming s' = ConsoleTiming_pal.
Proof.
  cbv zeta.
  assert (fst (Console_save (console display0) []) <> Undef) as Hsave
    by (by vm_compute).
  assert (fst (reload (console display0)
                 (redetectFrameLayout_detected getBool setValue sound_close
                    FrameLayoutDetector_new detectedLayout YStartDetector_new
                    setLayout detectedYStart true (console display0)))
          <> Undef) as Hload by (by vm_compute).
  assert (myCurrentFormat display0 <> 0) as Hcur by (by vm_compute).
  split; [exact Hsave |]. split; [exact Hload |]. split; [exact Hcur |].
  destruct (X15_setFormat_autodetect getBool setValue sound_close audio_setup
              TIA_update_own System_reset_own FrameLayoutDetector_new
              detectedLayout YStartDetector_new setLayout detectedYStart true
              Properties_get Properties_set showMessage resetFps TIA_setYStart maxYStart
    System_consoleChanged setPalette_from_settings initializeVideo atoi BSPF_clamp
    minViewableHeight maxViewableHeight TIA_setLayout TIA_setHeight TIA_frameLayout
    EmulationTiming_updateFrameLayout EmulationTiming_updateConsoleTiming display0
    Hsave Hload Hcur)
    as (s' & Hrun & _ & Hfmt & _ & _ & _ & Hpal).
  exists s'. split; [exact Hrun |]. split; [exact Hfmt |].
  apply Hpal. by vm_compute.
Defined.

Lemma X16_ystart_autodetect_witness :
  let detected :=
    redetectYStart_detected getBool setValue sound_close YStartDetector_new
      setLayout detectedYStart (console display0) in
  fst (Console_save (console display0) []) <> Undef
  /\ fst (reload (console display0) detected) <> Undef
  /\ TIA_ystart (mySystem (console display0)) = 1
  /\ exists s' : DisplayConsole,
       changeYStart (-1) display0 = (Val tt, s')
       /\ myAutodetectedYstart (console s') = 38
       /\ mySystem (console s') = (7, 312, 40, 38).
Proof.
  cbv zeta.
  assert (fst (Console_save (console display0) []) <> Undef) as Hsave
    by (by vm_compute).
  assert (fst (reload (console display0)
                 (redetectYStart_detected getBool setValue sound_close
                    YStartDetector_new setLayout detectedYStart
                    (console display0))) <> Undef) as Hload
    by (by vm_compute).
  split; [exact Hsave |]. split; [exact Hload |]. split; [reflexivity |].
  destruct (X16_ystart_autodetect getBool setValue sound_close audio_setup
              TIA_update_own System_reset_own YStartDetector_new setLayout
              detectedYStart Properties_get Properties_set showMessage TIA_ystart
              TIA_setYStart maxYStart display0 Hsave Hload) as [Hdown _].
  destruct (Hdown eq_refl) as (s' & Hrun & Hauto & _ & Hsys & _).
  exists s'. split; [exact Hrun |]. split; [exact Hauto | exact Hsys].
Defined.

(** The constructor's path: the vertical start found by autodetection,
    40 - 2, reaches the TIA although [Display_YStart] holds 1. *)
Example autodetected_ystart_to_TIA :
  let s1 :=
    snd (on_console (autodetectYStart getBool setValue TIA_update_own
                       System_reset_own YStartDetector_new setLayout
                       detectedYStart true) display0) in
  let s2 :=
    snd (setTIAProperties Properties_get TIA_setYStart maxYStart atoi BSPF_clamp
           minViewableHeight maxViewableHeight TIA_setLayout TIA_setHeight
           TIA_frameLayout EmulationTiming_updateFrameLayout
           EmulationTiming_updateConsoleTiming s1) in
  mySystem (console s2) = (80, 312, 40, 38).
Proof. vm_compute. reflexivity. Qed.

End DisplayFixture.

(** A 160 by 210 picture on a 1920 by 1080 screen, and a cartridge with
    an empty ROM between a TIA and a RIOT that read as 0. *)
Module DeviceFixture.

Lemma X18_maxWindowSizeForScreen_witness :
  fits 160 210 1920 1080 < Z.of_nat 10
  /\ maxWindowSizeForScreen 10 160 210 1920 1080
     = Some (Z.max 1 (fits 160 210 1920 1080)).
Proof.
  assert (fits 160 210 1920 1080 < Z.of_nat 10) as Hfuel by (by vm_compute).
  split; [exact Hfuel |].
  refine (proj1 (X18_maxWindowSizeForScreen 10 160 210 1920 1080 _ _ _ _ _ _ Hfuel));
    by vm_compute.
Defined.

(** Five times on that screen; once on a screen that is too small. *)
Example maxWindowSizeForScreen_values :
  maxWindowSizeForScreen 10 160 210 1920 1080 = Some 5
  /\ maxWindowSizeForScreen 10 160 210 100 100 = Some 1
  /\ maxWindowSizeForScreen 1000 0 0 100 100 = None.
Proof. vm_compute. done. Qed.

Definition TIA_peek (address : Z) (t : unit) : Z * unit := (0, t).
Definition M6532_peek (address : Z) (r : unit) : Z * unit := (0, r).

Definition cart0 : @CartStrongArmDev unit unit :=
  {| _romHistory := replicate 4096 0;
     tia := tt;
     m6532 := tt;
     lastPeekAddress := 0;
     lastReadValue := 0xff |}.

Lemma X19_patch_then_peek_witness :
  Z.land 0x1ffc 0x1000 = 0x1000
  /\ fst (peek TIA_peek M6532_peek 0x1ffc (snd (patch 0x1ffc 0x10 cart0))) = 0x10.
Proof.
  assert (0 <= 0x1ffc < 2 ^ 16) as Haddr by lia.
  assert (length (_romHistory cart0) = 4096%nat) as Hlen
    by (cbn [cart0 _romHistory]; apply length_replicate).
  split; [reflexivity |].
  exact (proj1 (proj2 (proj2 (X19_patch_then_peek TIA_peek M6532_peek 0x1ffc 0x10
                                 cart0 Haddr Hlen)) eq_refl)).
Defined.

(** The reset vector patched at 0xfffc is read back at 0x1ffc. *)
Example patch_mirror :
  fst (peek TIA_peek M6532_peek 0x1ffc (snd (patch 0xfffc 0x10 cart0))) = 0x10
  /\ fst (patch 0x0ffc 0x10 cart0) = false.
Proof. vm_compute. done. Qed.

Lemma X22_cart_not_in_snapshot_witness :
  Z.land 0x1ffc 0x1000 = 0x1000
  /\ fst (peek TIA_peek M6532_peek 0x1ffc cart0) = 0
  /\ fst (peek TIA_peek M6532_peek 0x1ffc
            (fst (snd (load (snd (patch 0x1ffc 0x10 cart0), snd (save cart0 []))))))
     = 0x10
  /\ ~ round_trips cart0.
Proof.
  assert (0 <= 0x1ffc < 2 ^ 16) as Haddr by lia.
  assert (length (_romHistory cart0) = 4096%nat) as Hlen
    by (cbn [cart0 _romHistory]; apply length_replicate).
  destruct (X22_cart_not_in_snapshot TIA_peek M6532_peek 0x1ffc 0x10 cart0 cart0 []
              Haddr Hlen eq_refl) as (_ & _ & _ & Hpeek & Hnot).
  split; [reflexivity |]. split; [reflexivity |]. split; [exact Hpeek |].
  apply Hnot. by vm_compute.
Defined.

End DeviceFixture.

Module AudioFixture.

(** A filter that lets every sample through, a kernel function that is a
    unit pulse, and a producer that plays back a script of callback
    results. *)
Definition HighPass : Type := unit.
Definition HighPass_new (cutOff frequency : float) : HighPass := tt.
Definition HighPass_apply (h : HighPass) (x : float) : float * HighPass := (x, h).
Definition unit_pulse (x : float) : float :=
  if SFeqb x F32.zero then F32Const.one else F32.zero.

Definition Producer : Type := list (option (list Z)).
Definition play (p : Producer) : option (list Z) * Producer :=
  match p with
  | [] => (None, [])
  | f :: p' => (f, p')
  end.

Definition mono_2Hz : Format := {| sampleRate := 2; fragmentSize := 2; stereo := false |}.
Definition stereo_3Hz : Format := {| sampleRate := 3; fragmentSize := 4; stereo := true |}.

(** An object on which the constructor has not run. *)
Definition unbuilt : @LanczosResampler HighPass :=
  {| myFormatFrom := mono_2Hz;
     myFormatTo := stereo_3Hz;
     myPrecomputedKernelCount := 0;
     myKernelSize := 0;
     myCurrentKernelIndex := 0;
     myKernelParameter := 0;
     myPrecomputedKernels := [];
     myCurrentFragment := None;
     myFragmentIndex := 0;
     myIsUnderrun := true;
     myBuffer := None;
     myBufferL := None;
     myBufferR := None;
     myHighPassL := tt;
     myHighPassR := tt;
     myHighPass := tt;
     myTimeIndex := 0 |}.

(** A mono 2 Hz to stereo 3 Hz resampler with kernel parameter 1. *)
Definition resampler0 : @LanczosResampler HighPass :=
  Eval cbv in
    default unbuilt
      (LanczosResampler_new HighPass_new unit_pulse 8 mono_2Hz stereo_3Hz 1).

Lemma resampler0_wf : resampler_wf resampler0.
Proof.
  apply (LanczosResampler_new_wf HighPass_new unit_pulse 8 mono_2Hz stereo_3Hz 1);
    cbn [sampleRate fragmentSize mono_2Hz stereo_3Hz]; try lia.
  vm_compute. reflexivity.
Qed.

Lemma resampler0_constructed :
  LanczosResampler_new HighPass_new unit_pulse 8 mono_2Hz stereo_3Hz 1
    = Some resampler0.
Proof. vm_compute. reflexivity. Qed.

(** The producer has one fragment and then runs dry. *)
Definition audio0 : @Audio HighPass Producer :=
  {| this := resampler0;
     producer := [Some [16384; -16384]];
     cerr := [] |}.

Definition seven : float := F32.of_Z 7.
Definition eight : float := F32.of_Z 8.

(** C1, as stated, fails: for a stereo target and [length = 3] the third
    entry of the array is not written, it holds whatever it held before
    the call. *)
Lemma C1_odd_stereo_counterexample :
  stereo (myFormatTo (this audio0)) = true
  /\ snd (fillFragment HighPass_apply play audio0 [seven; seven; seven] 3) !! 2%nat
     = Some seven
  /\ snd (fillFragment HighPass_apply play audio0 [eight; eight; eight] 3) !! 2%nat
     = Some eight
  /\ ~ populates HighPass_apply play audio0 3 3.
Proof.
  assert (snd (fillFragment HighPass_apply play audio0 [seven; seven; seven] 3) !! 2%nat
          = Some seven) as H7 by (vm_compute; reflexivity).
  assert (snd (fillFragment HighPass_apply play audio0 [eight; eight; eight] 3) !! 2%nat
          = Some eight) as H8 by (vm_compute; reflexivity).
  repeat split; try done.
  intros (written & Hlen & Hall).
  rewrite (Hall [seven; seven; seven]) in H7 by (simpl; lia).
  rewrite (Hall [eight; eight; eight]) in H8 by (simpl; lia).
  simpl in H7, H8. rewrite H7 in H8. vm_compute in H8. discriminate.
Qed.

Lemma C1_fillFragment_witness :
  is_uInt32 4
  /\ populates HighPass_apply play audio0 4 (Z.to_nat (written_count play audio0 4)).
Proof.
  assert (is_uInt32 4) as H4 by (unfold is_uInt32; lia).
  split; [exact H4 |].
  exact (proj1 (C1_fillFragment_amended HighPass_apply play audio0 4 H4)).
Defined.

(** The producer runs dry during a call for 8 entries: all 8 are written,
    the underrun goes to [cerr], and the object remembers it. *)
Example underrun_during_call :
  let '(st, out) :=
    fillFragment HighPass_apply play audio0 (replicate 8 seven) 8 in
  cerr st = [underrun_message]
  /\ myIsUnderrun (this st) = true
  /\ length out = 8%nat
  /\ Forall (fun x => x <> seven) out.
Proof.
  vm_compute. repeat split; try done.
  repeat constructor; discriminate.
Qed.

(** Before the first fragment arrives the output is silence. *)
Example silence_before_first_fragment :
  snd (fillFragment HighPass_apply play
         {| this := resampler0; producer := []; cerr := [] |}
         [seven; seven; seven] 3)
    = [F32.zero; F32.zero; F32.zero].
Proof. vm_compute. reflexivity. Qed.

(** *** The convolution buffer *)

Definition buffer0 : ConvolutionBuffer :=
  shift (F32.of_Z 3) (shift (F32.of_Z 2) (shift (F32.of_Z 1) (ConvolutionBuffer_new 2))).

Definition kernel0 : list float := [F32.of_Z 10; F32.of_Z 100].

Example buffer0_contents :
  myData buffer0 = [F32.of_Z 3; F32.of_Z 2]
  /\ myFirstIndex buffer0 = 1
  /\ samples buffer0 = [F32.of_Z 2; F32.of_Z 3]
  /\ convoluteWith buffer0 kernel0 = F32.of_Z 320.
Proof. vm_compute. by repeat split. Qed.

Lemma C4_convolution_buffer_witness :
  buffer_wf buffer0
  /\ samples (shift seven buffer0) = drop 1 (samples buffer0) ++ [seven]
  /\ convoluteWith buffer0 kernel0 = dot kernel0 (samples buffer0).
Proof.
  assert (buffer_wf buffer0) as Hwf.
  { split.
    - change (0 < 2 <= 2 ^ 31). lia.
    - reflexivity.
    - change (0 <= 1 < 2). lia. }
  assert (mySize buffer0 <= Z.of_nat (length kernel0)) as Hk
    by (change (2 <= 2); lia).
  pose proof (C4_convolution_buffer buffer0 seven kernel0 Hwf Hk)
    as (_ & _ & _ & _ & Hshift & _ & _ & Hdot).
  split; [exact Hwf |]. split; [exact Hshift | exact Hdot].
Defined.

(** *** The kernel count *)

Lemma C5_reduced_denominator_witness :
  reducedDenominator 8 2 3 = Some (3 / Z.gcd 2 3)
  /\ (exists r : @LanczosResampler HighPass,
        LanczosResampler_new HighPass_new unit_pulse 8 mono_2Hz stereo_3Hz 1 = Some r
        /\ myPrecomputedKernelCount r = 3 / Z.gcd 2 3).
Proof.
  pose proof (C5_reduced_denominator HighPass_new unit_pulse 8 mono_2Hz stereo_3Hz 1)
    as H.
  cbn [sampleRate mono_2Hz stereo_3Hz] in H.
  destruct H as (H1 & H2 & _); [lia | lia | lia |].
  split; [exact H1 | exact H2].
Defined.

(** 48000 Hz to 44100 Hz needs 147 kernels, 31400 Hz to 44100 Hz 441. *)
Example reducedDenominator_48000_44100 :
  reducedDenominator (Z.to_nat 100000) 48000 44100 = Some 147
  /\ reducedDenominator (Z.to_nat 100000) 31400 44100 = Some 441.
Proof. vm_compute. done. Qed.

(** The loop as a whole is not bounded by the initial [min n d]: for
    [n = d = 0] reached inside the loop the counter wraps and the loop
    goes on for as long as it has fuel. *)
Example reducedDenominator_loop_needs_fuel :
  reducedDenominator_loop 1000 0 0 5 = None.
Proof. vm_compute. reflexivity. Qed.

(** *** The window, the timing and the kernel table *)

Lemma X1_sliding_window_witness :
  buffer_wf buffer0
  /\ samples (shift_all [seven; eight] buffer0) = [seven; eight].
Proof.
  assert (buffer_wf buffer0) as Hwf.
  { split.
    - change (0 < 2 <= 2 ^ 31). lia.
    - reflexivity.
    - change (0 <= 1 < 2). lia. }
  split; [exact Hwf |].
  rewrite (proj1 (X1_sliding_window [seven; eight] buffer0 Hwf)).
  reflexivity.
Defined.

Lemma audio0_rates_ok : rates_ok (this audio0).
Proof. split; by vm_compute. Qed.

Lemma audio0_phase_locked : phase_locked (this audio0).
Proof. repeat split; by vm_compute. Qed.

Lemma X2_kernel_follows_time_witness :
  rates_ok (this audio0)
  /\ phase_locked (this audio0)
  /\ phase_locked
       (this (fst (fillFragment HighPass_apply play audio0 (replicate 4 seven) 4))).
Proof.
  split; [exact audio0_rates_ok |]. split; [exact audio0_phase_locked |].
  exact (proj1 (proj2 (proj2
    (X2_kernel_follows_time HighPass_apply play audio0 (replicate 4 seven) 4
       audio0_rates_ok audio0_phase_locked)))).
Defined.

(** After four entries, two output samples, the resampler is at kernel 2
    and at time index [4 mod 3]. *)
Example audio0_after_one_call :
  phase (this (fst (fillFragment HighPass_apply play audio0 (replicate 4 seven) 4)))
    = (2, 1).
Proof. vm_compute. reflexivity. Qed.

Lemma X3_precomputed_kernels_witness :
  LanczosResampler_new HighPass_new unit_pulse 8 mono_2Hz stereo_3Hz 1
    = Some resampler0
  /\ Z.of_nat (length (myPrecomputedKernels resampler0)) = 3 / Z.gcd 2 3 * (2 * 1)
  /\ myPrecomputedKernels resampler0 !! Z.to_nat (2 * (2 * 1) + 1)
     = Some (kernel_tap unit_pulse 1 (kernel_center resampler0 2) 1).
Proof.
  split; [exact resampler0_constructed |].
  pose proof (X3_precomputed_kernels HighPass_new unit_pulse 8
                mono_2Hz stereo_3Hz 1 resampler0) as H.
  cbv zeta in H. cbn [sampleRate mono_2Hz stereo_3Hz] in H.
  destruct H as [Hlen Hrows];
    [by vm_compute | by vm_compute | by vm_compute | by vm_compute
    | by vm_compute | by vm_compute | exact resampler0_constructed |].
  split; [exact Hlen |].
  apply (Hrows 2 1); by vm_compute.
Defined.

Lemma X4_read_position_in_fragment_witness :
  fragmentSize (myFormatFrom (this audio0)) < 2 ^ 32
  /\ in_fragment (this audio0)
  /\ in_fragment
       (this (fst (fillFragment HighPass_apply play audio0 (replicate 8 seven) 8))).
Proof.
  assert (fragmentSize (myFormatFrom (this audio0)) < 2 ^ 32) as Hmax
    by (by vm_compute).
  assert (in_fragment (this audio0)) as Hin by (split; by vm_compute).
  split; [exact Hmax |]. split; [exact Hin |].
  exact (X4_read_position_in_fragment HighPass_apply play audio0
           (replicate 8 seven) 8 Hmax Hin).
Defined.

Lemma X5_consumption_rate_witness :
  0 <= myTimeIndex (this audio0) < sampleRate (myFormatTo (this audio0))
  /\ consumed HighPass_apply play 3 audio0
     = (myTimeIndex (this audio0)
        + Z.of_nat 3 * sampleRate (myFormatFrom (this audio0)))
       / sampleRate (myFormatTo (this audio0)).
Proof.
  assert (0 <= myTimeIndex (this audio0) < sampleRate (myFormatTo (this audio0)))
    as Ht by (split; by vm_compute).
  split; [exact Ht |].
  refine (proj1 (proj2 (X5_consumption_rate HighPass_apply play 3 audio0 _ _ _ Ht)));
    by vm_compute.
Defined.

(** Three output samples of the 2 Hz to 3 Hz resampler use two source
    samples: none for the first, one for each of the next two. *)
Example audio0_consumption :
  consumed HighPass_apply play 3 audio0 = 2
  /\ map (fun n => consumed HighPass_apply play n audio0) [1; 2; 3]%nat = [0; 1; 2].
Proof. vm_compute. done. Qed.

Lemma X6_mono_source_both_channels_witness :
  stereo (myFormatFrom (this audio0)) = false
  /\ stereo (myFormatTo (this audio0)) = true
  /\ snd (fillFragment HighPass_apply play audio0 (replicate 4 seven) 4) !! (2 * 1)%nat
     = snd (fillFragment HighPass_apply play audio0 (replicate 4 seven) 4)
         !! (2 * 1 + 1)%nat.
Proof.
  split; [reflexivity |]. split; [reflexivity |].
  refine (proj2 (X6_mono_source_both_channels HighPass_apply play audio0
                   (replicate 4 seven) 4 1 _ _ _ _ _ _));
    by vm_compute.
Defined.

(** *** The period and underruns *)

Lemma X20_schedule_period_witness :
  rates_ok (this audio0)
  /\ phase_locked (this audio0)
  /\ phase (this (Nat.iter 3 (advance HighPass_apply play) audio0))
     = phase (this audio0)
  /\ consumed HighPass_apply play 3 audio0 = 2 / Z.gcd 2 3.
Proof.
  split; [exact audio0_rates_ok |]. split; [exact audio0_phase_locked |].
  pose proof (X20_schedule_period HighPass_apply play audio0
                audio0_rates_ok audio0_phase_locked) as (Hphase & _ & Hc & _).
  split; [exact Hphase | exact Hc].
Defined.

(** A producer that never has a fragment ready. *)
Definition silent (p : Producer) : option (list Z) * Producer := (None, p).

(** The resampler after its first call: it holds the fragment it was given. *)
Definition audio1 : @Audio HighPass Producer :=
  Eval vm_compute in
    fst (fillFragment HighPass_apply play audio0 (replicate 4 seven) 4).

Lemma X21_stale_fragment_kept_witness :
  myCurrentFragment (this audio1) <> None
  /\ (forall p, fst (silent p) = None)
  /\ myCurrentFragment
       (this (fst (fillFragment HighPass_apply silent audio1 (replicate 8 seven) 8)))
     = myCurrentFragment (this audio1).
Proof.
  assert (forall p, fst (silent p) = None) as Hsilent by reflexivity.
  split; [by vm_compute |]. split; [exact Hsilent |].
  exact (proj1 (proj2 (X21_stale_fragment_kept HighPass_apply silent audio1
                         (replicate 8 seven) 8) Hsilent)).
Defined.

(** With a silent producer the resampler keeps the fragment it has: eight
    further entries leave it in place, flagged as an underrun. *)
Example audio1_underrun :
  let st := fst (fillFragment HighPass_apply silent audio1 (replicate 8 seven) 8) in
  myCurrentFragment (this st) = Some [16384; -16384]
  /\ myIsUnderrun (this st) = true.
Proof. vm_compute. done. Qed.

End AudioFixture.

Module PaletteFixture.

Definition tables0 : UserPalette :=
  {| ourUserNTSCPalette := replicate 256 0;
     ourUserPALPalette := replicate 256 0;
     ourUserSECAMPalette := replicate 256 0;
     myUserPaletteDefined := false |}.

(** A file of 792 bytes, all 0x2a. *)
Definition file0 : list byte := replicate 792 Byte.x2a.

Lemma C8_user_palette_witness :
  loadUserPalette None [] (replicate 16 0) tables0 = tables0
  /\ loadUserPalette (Some (take 791 file0)) [] (replicate 16 0) tables0 = tables0
  /\ myUserPaletteDefined (loadUserPalette (Some file0) [] (replicate 16 0) tables0)
     = true.
Proof.
  pose proof (C8_user_palette [] (replicate 16 0) tables0
                eq_refl eq_refl eq_refl eq_refl) as (Hnone & Hshort & Hfull).
  split; [exact Hnone |]. split.
  - apply Hshort. unfold file0. rewrite length_take, length_replicate. lia.
  - apply (Hfull file0). unfold file0. rewrite length_replicate. lia.
Defined.

Example loadUserPalette_file0 :
  let c' := loadUserPalette (Some file0) [] (replicate 16 0) tables0 in
  take 4 (ourUserNTSCPalette c') = [2763306; 0; 2763306; 0]
  /\ take 4 (drop 252 (ourUserSECAMPalette c')) = [2763306; 0; 2763306; 0].
Proof. vm_compute. done. Qed.

(** *** Colour loss and palette selection *)

(** Tables that hold one orange everywhere, and no user palette. *)
Definition palettes0 : Palettes :=
  {| ourNTSCPalette := replicate 256 0xfc9838;
     ourPALPalette := replicate 256 0xfc9838;
     ourSECAMPalette := replicate 256 0xfc9838;
     ourNTSCPaletteZ26 := replicate 256 0xfc9838;
     ourPALPaletteZ26 := replicate 256 0xfc9838;
     ourSECAMPaletteZ26 := replicate 256 0xfc9838;
     userPalette := tables0 |}.

Lemma palettes0_wf : palettes_wf palettes0.
Proof. split; by vm_compute. Qed.

Lemma X7_color_loss_entries_witness :
  palettes_wf palettes0
  /\ gray_filled (ourNTSCPalette palettes0)
       (ourNTSCPalette (generateColorLossPalette palettes0))
  /\ userPalette (generateColorLossPalette palettes0) = userPalette palettes0.
Proof.
  split; [exact palettes0_wf |].
  pose proof (X7_color_loss_entries palettes0 palettes0_wf)
    as (_ & Hbuiltin & _ & _ & Huser).
  split; [exact (Forall_inv Hbuiltin) | exact (Huser eq_refl)].
Defined.

(** The gray of the orange 0xfc9838 is 0xaaaaaa, and white gives 0xfefefe:
    the three weights add up to 0.9999. *)
Example colorLoss_gray_values :
  colorLoss_gray 0xfc9838 = 0xaaaaaa
  /\ colorLoss_gray 0xffffff = 0xfefefe
  /\ colorLoss_gray 0 = 0
  /\ take 4 (ourPALPalette (generateColorLossPalette palettes0))
     = [0xfc9838; 0xaaaaaa; 0xfc9838; 0xaaaaaa].
Proof. vm_compute. done. Qed.

Lemma X8_color_loss_idempotent_witness :
  palettes_wf palettes0
  /\ generateColorLossPalette (generateColorLossPalette palettes0)
     = generateColorLossPalette palettes0.
Proof.
  split; [exact palettes0_wf |].
  exact (X8_color_loss_idempotent palettes0 palettes0_wf).
Defined.

(** A host that keeps the setting ["palette"] and the messages shown, a
    TIA that is its fixed-colours flag, and an [mapRGB] that packs the
    three bytes. *)
Definition Host : Type := string * list string.
Definition getString (key : string) (h : Host) : string :=
  if String.eqb key "palette" then fst h else EmptyString.
Definition setValue (key value : string) (h : Host) : Host :=
  if String.eqb key "palette" then (value, snd h) else h.
Definition showMessage (message : string) (h : Host) : Host :=
  (fst h, snd h ++ [message]).
Definition mapRGB (r g b : Z) : Z := r * 65536 + g * 256 + b.
Definition TIASurface_setPalette (tia_palette rgb_palette : list Z) (h : Host)
  : Host := h.
Definition usingFixedColors (tia : bool) : bool := tia.
Definition enableFixedColors (enable : bool) (tia : bool) : bool := enable.

Definition video0 (format : string) : @Video.Console Host bool :=
  {| Video.myDisplayFormat := format;
     Video.tables := palettes0;
     Video.myPalette := replicate 260 0;
     Video.host := ("standard"%string, []);
     Video.myTIA := false |}.

Definition setPalette0 :=
  Video.setPalette mapRGB TIASurface_setPalette usingFixedColors enableFixedColors.
Definition togglePalette0 :=
  Video.togglePalette getString setValue showMessage mapRGB TIASurface_setPalette
    usingFixedColors enableFixedColors.

Lemma video0_palette_length format : (256 <= length (Video.myPalette (video0 format)))%nat.
Proof. cbn [video0 Video.myPalette]. rewrite length_replicate. lia. Qed.

Lemma X9_setPalette_installs_witness :
  palettes_wf (Video.tables (video0 "PAL60"))
  /\ (256 <= length (Video.myPalette (video0 "PAL60")))%nat
  /\ Video.myPalette (setPalette0 "user" (video0 "PAL60"))
     = map (Video.mapped mapRGB)
         (deref (Video.chosen "user" (video0 "PAL60")) (Video.tables (video0 "PAL60")))
       ++ drop 256 (Video.myPalette (video0 "PAL60")).
Proof.
  split; [exact palettes0_wf |]. split; [exact (video0_palette_length "PAL60") |].
  exact (proj1 (Video.X9_setPalette_installs mapRGB TIASurface_setPalette
                  usingFixedColors enableFixedColors "user" (video0 "PAL60")
                  palettes0_wf (video0_palette_length "PAL60"))).
Defined.

(** PAL60 takes the PAL column, NTSC50 the NTSC column, and without a
    user palette the type ["user"] gives the standard table. *)
Example chosen_tables :
  Video.chosen "z26" (video0 "PAL60") = ptr_ourPALPaletteZ26
  /\ Video.chosen "standard" (video0 "NTSC50") = ptr_ourNTSCPalette
  /\ Video.chosen "z26" (video0 "SECAM") = ptr_ourSECAMPaletteZ26
  /\ Video.chosen "user" (video0 "PAL") = ptr_ourPALPalette
  /\ Video.chosen "anything" (video0 "") = ptr_ourNTSCPalette.
Proof. vm_compute. done. Qed.

Lemma X10_user_palette_on_screen_witness :
  myUserPaletteDefined (userPalette (Video.tables (video0 "NTSC"))) = false
  /\ (792 <= length file0)%nat
  /\ Video.myPalette
       (setPalette0 "user"
          (Video.loadUserPalette_here (Some file0) [] (replicate 16 0) (video0 "NTSC")))
       !! (2 * 5)%nat
     = Some (mapRGB (Video.file_byte file0 (3 * 5)) (Video.file_byte file0 (3 * 5 + 1))
                    (Video.file_byte file0 (3 * 5 + 2))).
Proof.
  split; [reflexivity |].
  assert (792 <= length file0)%nat as Hfile
    by (unfold file0; rewrite length_replicate; lia).
  split; [exact Hfile |].
  pose proof (Video.X10_user_palette_on_screen mapRGB TIASurface_setPalette
                usingFixedColors enableFixedColors (Some file0) [] (replicate 16 0)
                (video0 "NTSC") palettes0_wf (video0_palette_length "NTSC")
                eq_refl eq_refl) as [_ Hfull].
  refine (proj1 (Hfull file0 eq_refl Hfile 5%nat _) _); [lia | reflexivity].
Defined.

Lemma X11_togglePalette_cycle_witness :
  (forall v h, getString "palette" (setValue "palette" v h) = v)
  /\ getString "palette" (Video.host (togglePalette0 (video0 "NTSC")))
     = fst (toggled (getString "palette" (Video.host (video0 "NTSC")))
              (myUserPaletteDefined (userPalette (Video.tables (video0 "NTSC"))))).
Proof.
  assert (forall v h, getString "palette" (setValue "palette" v h) = v) as Hset
    by (intros v h; reflexivity).
  split; [exact Hset |].
  refine (proj1 (Video.X11_togglePalette_cycle getString setValue showMessage mapRGB
                   TIASurface_setPalette usingFixedColors enableFixedColors
                   (video0 "NTSC") Hset _ _ palettes0_wf
                   (video0_palette_length "NTSC")));
    intros; reflexivity.
Defined.

(** Without a user palette the setting alternates between the two
    built-in palettes, and each step shows its message. *)
Example togglePalette_twice :
  let h := Video.host (togglePalette0 (togglePalette0 (video0 "NTSC"))) in
  fst h = "standard"%string
  /\ snd h = ["Z26 palette"; "Standard Stella palette"]%string.
Proof. vm_compute. done. Qed.

End PaletteFixture.
